(** * Dayflow HRMS backend: payroll aggregation and record lifecycles

    A shallow embedding of the request handlers of [backend/app/api] and of
    [backend/app/services/salary_service.py], with the properties of the
    payroll calculator, the attendance lifecycle, the correction-request
    lifecycle, the access rules on [/users/{id}] and the settings rows.

    Conventions of the embedding.
    - A table is the list of its rows in insertion order; [query.filter(p).first()]
      is [find p] on that list.
    - [db.add(obj); db.commit()] on an object loaded from the session is an
      UPDATE by primary key; on a fresh object it is an INSERT that draws the
      next primary key.
    - A handler is a function from the store to an [Outcome]: the response
      body or the exception that aborted the request, together with the
      store as the commits made up to that point have left it.
    - [date.today()] and [datetime.now()] are arguments of the handlers. *)

From Stdlib Require Import ZArith List Bool String Lia Relations Sorted Permutation.
Import ListNotations.
Local Open Scope Z_scope.

(** ** Python's [decimal.Decimal] under the default context *)

Module Dec.

(** A finite decimal: the signed coefficient and the exponent, standing for
    [dec_int * 10 ^ dec_exp]. *)
Record Decimal : Type := mkDecimal { dec_int : Z; dec_exp : Z }.

(** [decimal.getcontext().prec] of the default context. *)
Definition prec : Z := 28.

Fixpoint ndigits_aux (fuel : nat) (n : Z) : Z :=
  match fuel with
  | O => 0
  | S fuel' => if n <? 10 then 1 else 1 + ndigits_aux fuel' (n / 10)
  end.

(** [len(str(n))] for [0 <= n]. *)
Definition ndigits (n : Z) : Z := ndigits_aux (S (Z.to_nat (Z.log2 n))) n.

(** ROUND_HALF_EVEN: drop the [k] low digits of [n] ([0 <= n], [0 < k]). *)
Definition round_half_even (n k : Z) : Z :=
  let q := n / 10 ^ k in
  let r := n mod 10 ^ k in
  let half := 5 * 10 ^ (k - 1) in
  if (half <? r) || ((r =? half) && Z.odd q) then q + 1 else q.

(** [Decimal._fix]: a coefficient of more than [prec] digits is rounded to
    [prec] digits; shorter ones are returned as they are. *)
Definition fix_ (d : Decimal) : Decimal :=
  let n := Z.abs (dec_int d) in
  if n <? 10 ^ prec then d
  else
    let k := ndigits n - prec in
    let q := round_half_even n k in
    let q' := if prec <? ndigits q then q / 10 else q in
    let k' := if prec <? ndigits q then k + 1 else k in
    {| dec_int := Z.sgn (dec_int d) * q'; dec_exp := dec_exp d + k' |}.

(** [Decimal.__add__]: both operands are brought to the smaller exponent,
    the coefficients are added and the result goes through [_fix]. *)
Definition add (a b : Decimal) : Decimal :=
  let e := Z.min (dec_exp a) (dec_exp b) in
  fix_ {| dec_int := dec_int a * 10 ^ (dec_exp a - e)
                     + dec_int b * 10 ^ (dec_exp b - e);
          dec_exp := e |}.

Definition neg (a : Decimal) : Decimal :=
  {| dec_int := - dec_int a; dec_exp := dec_exp a |}.

(** [Decimal.__sub__] is [self.__add__(other.copy_negate())]. *)
Definition sub (a b : Decimal) : Decimal := add a (neg b).

(** An amount with two fractional digits, given in hundredths. *)
Definition money (hundredths : Z) : Decimal :=
  {| dec_int := hundredths; dec_exp := -2 |}.

(** What a [Numeric(10, 2)] column holds: two fractional digits and at most
    ten digits in all. *)
Definition numeric_10_2 (d : Decimal) : Prop :=
  dec_exp d = -2 /\ Z.abs (dec_int d) < 10 ^ 10.

End Dec.

Import Dec.

(** ** Exceptions of the interpreter and of the libraries *)

(** An exception that is not an [HTTPException] and that the handler raises
    before it has written anything: the built-in errors, the
    [InvalidOperation] of [decimal] and the [ValidationError] of pydantic. *)
Inductive PyError : Type :=
| AttributeError
| TypeError
| OverflowError
| InvalidOperation
| ValidationError.

Inductive Py (A : Type) : Type :=
| Value (a : A)
| Error (e : PyError).
Arguments Value {A} a.
Arguments Error {A} e.

(** ** Amounts and the payroll calculator *)

(** The [Decimal] an amount column gives back.  SQLite keeps a [Numeric]
    column as a float and the dialect reads it back through a two-digit
    format, whatever the declared precision: the value is a finite number
    with two fractional digits, or an infinity when what was written lies
    beyond the range of a float.  A NaN is stored as NULL and is never read
    back. *)
Inductive Amount : Type :=
| Finite (d : Decimal)
| Infinity (negative : bool).

(** [Decimal.__add__] with the traps of the default context: the sum of two
    infinities of opposite signs signals InvalidOperation, which is
    raised.  (The exponent limits of the context lie far beyond the sums of
    eight amounts read back from floats.) *)
Definition amount_add (a b : Amount) : Py Amount :=
  match a, b with
  | Finite x, Finite y => Value (Finite (Dec.add x y))
  | Finite _, Infinity s => Value (Infinity s)
  | Infinity s, Finite _ => Value (Infinity s)
  | Infinity s, Infinity t =>
    if Bool.eqb s t then Value (Infinity s) else Error InvalidOperation
  end.

Definition amount_neg (a : Amount) : Amount :=
  match a with
  | Finite d => Finite (Dec.neg d)
  | Infinity s => Infinity (negb s)
  end.

(** [Decimal.__sub__] is [self.__add__(other.copy_negate())]. *)
Definition amount_sub (a b : Amount) : Py Amount := amount_add a (amount_neg b).

(** [x + y] on two attributes of a row: [None] on either side raises
    TypeError. *)
Definition attr_add (x y : option Amount) : Py Amount :=
  match x, y with
  | Some a, Some b => amount_add a b
  | _, _ => Error TypeError
  end.

(** [... + y]: the sum so far, if it was computed, plus the next attribute. *)
Definition add_column (sum : Py Amount) (y : option Amount) : Py Amount :=
  match sum with
  | Error e => Error e
  | Value a => attr_add (Some a) y
  end.

(** [models/salary.py]: the row of [salary_structures] as the session loads
    it.  [basic_salary] is NOT NULL, the other amount columns may hold
    NULL. *)
Module SalaryRow.
Record t : Type := mk {
  id : Z;
  employee_profile_id : Z;
  basic_salary : Amount;
  hra : option Amount;
  standard_allowance : option Amount;
  performance_bonus : option Amount;
  lta : option Amount;
  fixed_allowance : option Amount;
  professional_tax : option Amount;
  pf_contribution : option Amount
}.
End SalaryRow.

(** The dict returned by [calculate_net_salary], with its three keys. *)
Record NetSalary : Type := mkNetSalary {
  gross_salary : Amount;
  total_deductions : Amount;
  net_salary : Amount
}.

(** [services/salary_service.py]; [+] associates to the left, and the
    first addition that fails ends the call with its exception. *)
Definition calculate_net_salary (salary_structure : SalaryRow.t) : Py NetSalary :=
  match
    add_column (add_column (add_column (add_column
      (attr_add (Some (SalaryRow.basic_salary salary_structure))
                (SalaryRow.hra salary_structure))
      (SalaryRow.standard_allowance salary_structure))
      (SalaryRow.performance_bonus salary_structure))
      (SalaryRow.lta salary_structure))
      (SalaryRow.fixed_allowance salary_structure)
  with
  | Error e => Error e
  | Value gross =>
    match attr_add (SalaryRow.professional_tax salary_structure)
                   (SalaryRow.pf_contribution salary_structure) with
    | Error e => Error e
    | Value deductions =>
      match amount_sub gross deductions with
      | Error e => Error e
      | Value net =>
        Value {| gross_salary := gross;
                 total_deductions := deductions;
                 net_salary := net |}
      end
    end
  end.

(** An amount column is set and holds the finite amount of that many
    hundredths, of at most 27 digits.  Every [Numeric(10, 2)] value is
    one. *)
Definition holds (column : option Amount) (hundredths : Z) : Prop :=
  column = Some (Finite (money hundredths)) /\ Z.abs hundredths < 10 ^ 27.

(** [schemas/salary.py], [SalaryStructure]: the keys and the eight amounts
    as pydantic validates them, each a finite [Decimal]. *)
Record SalaryStructure : Type := mkSalaryStructure {
  ss_id : Z;
  ss_employee_profile_id : Z;
  basic_salary : Decimal;
  hra : Decimal;
  standard_allowance : Decimal;
  performance_bonus : Decimal;
  lta : Decimal;
  fixed_allowance : Decimal;
  professional_tax : Decimal;
  pf_contribution : Decimal
}.

(** The validation of a [Decimal] field: [None] and the infinities are
    rejected. *)
Definition finite (column : option Amount) : option Decimal :=
  match column with
  | Some (Finite d) => Some d
  | _ => None
  end.

(** The row as the schema accepts it: every amount column set and finite. *)
Definition loaded (r : SalaryRow.t) : option SalaryStructure :=
  match finite (Some (SalaryRow.basic_salary r)), finite (SalaryRow.hra r),
        finite (SalaryRow.standard_allowance r),
        finite (SalaryRow.performance_bonus r), finite (SalaryRow.lta r),
        finite (SalaryRow.fixed_allowance r),
        finite (SalaryRow.professional_tax r),
        finite (SalaryRow.pf_contribution r) with
  | Some b, Some h, Some sa, Some pb, Some l, Some fa, Some pt, Some pf =>
    Some (mkSalaryStructure (SalaryRow.id r) (SalaryRow.employee_profile_id r)
            b h sa pb l fa pt pf)
  | _, _, _, _, _, _, _, _ => None
  end.

(** An allowance or deduction column of the row holds NULL. *)
Definition is_null (column : option Amount) : bool :=
  match column with
  | None => true
  | Some _ => false
  end.

Definition has_null (r : SalaryRow.t) : bool :=
  is_null (SalaryRow.hra r) || is_null (SalaryRow.standard_allowance r)
  || is_null (SalaryRow.performance_bonus r) || is_null (SalaryRow.lta r)
  || is_null (SalaryRow.fixed_allowance r)
  || is_null (SalaryRow.professional_tax r)
  || is_null (SalaryRow.pf_contribution r).

(** No amount column of the row holds an infinity. *)
Definition no_infinity (column : option Amount) : bool :=
  match column with
  | Some (Infinity _) => false
  | _ => true
  end.

Definition finite_amounts (r : SalaryRow.t) : bool :=
  no_infinity (Some (SalaryRow.basic_salary r)) && no_infinity (SalaryRow.hra r)
  && no_infinity (SalaryRow.standard_allowance r)
  && no_infinity (SalaryRow.performance_bonus r) && no_infinity (SalaryRow.lta r)
  && no_infinity (SalaryRow.fixed_allowance r)
  && no_infinity (SalaryRow.professional_tax r)
  && no_infinity (SalaryRow.pf_contribution r).

(** ** Rows of the tables *)

(** [datetime.date] and [datetime.datetime] values, as day and instant
    numbers.  A [datetime] is always truthy, so [if x.check_in_time] only
    tests for [None]. *)
Definition Date : Type := Z.
Definition DateTime : Type := Z.

(** [models/user.py] *)
Inductive UserRole : Type := ADMIN | HR_OFFICER | EMPLOYEE.

(** [models/attendance.py] *)
Inductive AttendanceStatus : Type := PRESENT | ABSENT | HALF_DAY | LEAVE.

(** [models/attendance_correction.py] *)
Inductive CorrectionRequestStatus : Type := PENDING | APPROVED | REJECTED.

Definition UserRole_eqb (a b : UserRole) : bool :=
  match a, b with
  | ADMIN, ADMIN | HR_OFFICER, HR_OFFICER | EMPLOYEE, EMPLOYEE => true
  | _, _ => false
  end.

Definition CorrectionRequestStatus_eqb (a b : CorrectionRequestStatus) : bool :=
  match a, b with
  | PENDING, PENDING | APPROVED, APPROVED | REJECTED, REJECTED => true
  | _, _ => false
  end.

(** The row of [users]; [created_at] and [updated_at] are filled by the
    database server and read by no handler, and are left out. *)
Module User.
Record t : Type := mk {
  id : Z;
  email : string;
  hashed_password : string;
  role : UserRole;
  is_active : option bool
}.
End User.

(** Modelled from the spec: [models/employee.py] is not among the sources;
    the handlers read only the primary key of a profile and the user it
    belongs to ("EmployeeProfile: id, user_id (1:1 with User)"). *)
Module EmployeeProfile.
Record t : Type := mk { id : Z; user_id : Z }.
End EmployeeProfile.

Module Attendance.
Record t : Type := mk {
  id : Z;
  employee_profile_id : Z;
  date : Date;
  check_in_time : option DateTime;
  check_out_time : option DateTime;
  status : AttendanceStatus;
  notes : option string
}.

Definition set_check_in (v : option DateTime) (s : AttendanceStatus) (a : t) : t :=
  mk (id a) (employee_profile_id a) (date a) v (check_out_time a) s (notes a).

Definition set_check_out (v : option DateTime) (a : t) : t :=
  mk (id a) (employee_profile_id a) (date a) (check_in_time a) v
     (status a) (notes a).

Definition set_times (ci co : option DateTime) (a : t) : t :=
  mk (id a) (employee_profile_id a) (date a) ci co (status a) (notes a).

Definition set_all (ci co : option DateTime) (s : AttendanceStatus)
    (n : option string) (a : t) : t :=
  mk (id a) (employee_profile_id a) (date a) ci co s n.

(** The pair the handlers filter on. *)
Definition key (a : t) : Z * Date := (employee_profile_id a, date a).
End Attendance.

Module AttendanceCorrectionRequest.
Record t : Type := mk {
  id : Z;
  attendance_id : Z;
  requested_by_id : Z;
  reason : string;
  requested_check_in_time : option DateTime;
  requested_check_out_time : option DateTime;
  status : CorrectionRequestStatus;
  reviewed_by_id : option Z;
  reviewed_at : option DateTime;
  reviewer_comments : option string
}.

Definition review (s : CorrectionRequestStatus) (by_id : Z) (at_ : DateTime)
    (r : t) : t :=
  mk (id r) (attendance_id r) (requested_by_id r) (reason r)
     (requested_check_in_time r) (requested_check_out_time r)
     s (Some by_id) (Some at_) (reviewer_comments r).

Definition set_reviewer_comments (c : option string) (r : t) : t :=
  mk (id r) (attendance_id r) (requested_by_id r) (reason r)
     (requested_check_in_time r) (requested_check_out_time r)
     (status r) (reviewed_by_id r) (reviewed_at r) c.
End AttendanceCorrectionRequest.

Module UserSettings.
Record t : Type := mk {
  id : Z;
  user_id : Z;
  receive_notifications : option bool;
  theme : option string;
  language : option string
}.

(** [UserSettings(user_id=...)] once inserted: the column defaults. *)
Definition default (new_id uid : Z) : t :=
  mk new_id uid (Some true) (Some "light"%string) (Some "en"%string).
End UserSettings.

Module ActivityLog.
Record t : Type := mk {
  id : Z;
  user_id : Z;
  action : string;
  details : option string
}.
End ActivityLog.

(** ** Request bodies *)

(** A field of a pydantic model dumped with [exclude_unset=True]: absent
    from the dict, or present with a value that may be [None]. *)
Inductive Field (A : Type) : Type :=
| Unset : Field A
| Given : option A -> Field A.
Arguments Unset {A}.
Arguments Given {A} _.

(** [setattr(obj, field, value)] for the fields present in the dict. *)
Definition assign {A : Type} (f : Field A) (old : option A) : option A :=
  match f with
  | Unset => old
  | Given v => v
  end.

(** [schemas/user.py] *)
Record UserCreate : Type := mkUserCreate {
  uc_email : string;
  uc_role : UserRole;
  uc_is_active : bool;
  uc_password : string
}.

Record UserUpdate : Type := mkUserUpdate {
  uu_email : Field string;
  uu_role : Field UserRole;
  uu_is_active : Field bool;
  uu_password : Field string
}.

(** [schemas/user_settings.py] *)
Record UserSettingsUpdate : Type := mkUserSettingsUpdate {
  su_receive_notifications : Field bool;
  su_theme : Field string;
  su_language : Field string
}.

(** Modelled from the spec: [AttendanceManualCreate] (schemas/attendance.py)
    is not among the sources.  Manual entry "upserts by (employee, date)
    key, overwriting all fields": the body carries the two key fields and
    the four fields [manual_attendance_entry] assigns. *)
Record AttendanceManualCreate : Type := mkAttendanceManualCreate {
  am_employee_profile_id : Z;
  am_date : Date;
  am_check_in_time : option DateTime;
  am_check_out_time : option DateTime;
  am_status : AttendanceStatus;
  am_notes : option string
}.

(** ** The store and the outcome of a request *)

Record Store : Type := mkStore {
  users : list User.t;
  employee_profiles : list EmployeeProfile.t;
  attendances : list Attendance.t;
  correction_requests : list AttendanceCorrectionRequest.t;
  user_settings : list UserSettings.t;
  activity_logs : list ActivityLog.t
}.

Definition with_users (l : list User.t) (db : Store) : Store :=
  mkStore l (employee_profiles db) (attendances db) (correction_requests db)
          (user_settings db) (activity_logs db).

Definition with_attendances (l : list Attendance.t) (db : Store) : Store :=
  mkStore (users db) (employee_profiles db) l (correction_requests db)
          (user_settings db) (activity_logs db).

Definition with_correction_requests (l : list AttendanceCorrectionRequest.t)
    (db : Store) : Store :=
  mkStore (users db) (employee_profiles db) (attendances db) l
          (user_settings db) (activity_logs db).

Definition with_user_settings (l : list UserSettings.t) (db : Store) : Store :=
  mkStore (users db) (employee_profiles db) (attendances db)
          (correction_requests db) l (activity_logs db).

Definition with_activity_logs (l : list ActivityLog.t) (db : Store) : Store :=
  mkStore (users db) (employee_profiles db) (attendances db)
          (correction_requests db) (user_settings db) l.

(** What aborts a request: an [HTTPException] raised by the handler, the
    [IntegrityError] of a commit that breaks a NOT NULL or UNIQUE
    constraint, or the [ResponseValidationError] of a returned object that
    the [response_model] of the route does not accept. *)
Inductive Failure : Type :=
| HTTPException (status_code : Z) (detail : string)
| IntegrityError
| ResponseValidationError.

(** The result of a handler: the response body, or the exception; either
    way with the store as the commits made so far have left it. *)
Inductive Outcome (A : Type) : Type :=
| Ok (db : Store) (body : A)
| Raised (db : Store) (e : Failure).
Arguments Ok {A} db body.
Arguments Raised {A} db e.

Definition store_after {A : Type} (o : Outcome A) : Store :=
  match o with
  | Ok db _ => db
  | Raised db _ => db
  end.

Definition status_of {A : Type} (o : Outcome A) : option Z :=
  match o with
  | Raised _ (HTTPException code _) => Some code
  | _ => None
  end.

(** The error taxonomy of the handlers. *)
Definition is_NotFound {A : Type} (o : Outcome A) : Prop := status_of o = Some 404.
Definition is_Conflict {A : Type} (o : Outcome A) : Prop := status_of o = Some 400.
Definition is_Forbidden {A : Type} (o : Outcome A) : Prop := status_of o = Some 403.

(** ** Primary keys *)

(** The key an INSERT draws: one more than the largest key in the table. *)
Definition next_id (ids : list Z) : Z := 1 + fold_right Z.max 0 ids.

(** UPDATE ... WHERE id = [pk], [change] giving the new column values. *)
Definition update_where {R : Type} (id_of : R -> Z) (pk : Z) (change : R -> R)
    (table : list R) : list R :=
  map (fun r => if id_of r =? pk then change r else r) table.

(** ** The handlers *)

Definition profile_of_user (uid : Z) (db : Store) : option EmployeeProfile.t :=
  find (fun p => EmployeeProfile.user_id p =? uid) (employee_profiles db).

(** The filter [Attendance.employee_profile_id == pid, Attendance.date == d]. *)
Definition on_day (pid : Z) (d : Date) (a : Attendance.t) : bool :=
  (Attendance.employee_profile_id a =? pid) && (Attendance.date a =? d).

Definition attendance_on (pid : Z) (d : Date) (db : Store) : option Attendance.t :=
  find (on_day pid d) (attendances db).

Definition attendance_by_id (aid : Z) (db : Store) : option Attendance.t :=
  find (fun a => Attendance.id a =? aid) (attendances db).

Definition request_by_id (rid : Z) (db : Store)
    : option AttendanceCorrectionRequest.t :=
  find (fun r => AttendanceCorrectionRequest.id r =? rid) (correction_requests db).

Definition settings_of_user (uid : Z) (db : Store) : option UserSettings.t :=
  find (fun s => UserSettings.user_id s =? uid) (user_settings db).

Definition user_by_id (uid : Z) (db : Store) : option User.t :=
  find (fun u => User.id u =? uid) (users db).

Definition user_by_email (e : string) (db : Store) : option User.t :=
  find (fun u => String.eqb (User.email u) e) (users db).

Definition update_attendance (pk : Z) (change : Attendance.t -> Attendance.t)
    (db : Store) : Store :=
  with_attendances (update_where Attendance.id pk change (attendances db)) db.

(** The row an INSERT into [attendances] stores, with the key it draws. *)
Definition new_attendance_row (pid : Z) (d : Date) (ci co : option DateTime)
    (s : AttendanceStatus) (n : option string) (db : Store) : Attendance.t :=
  Attendance.mk (next_id (map Attendance.id (attendances db))) pid d ci co s n.

(** [api/attendance.py], POST /check-in *)
Definition check_in (current_user : User.t) (today : Date) (now : DateTime)
    (db : Store) : Outcome Attendance.t :=
  match profile_of_user (User.id current_user) db with
  | None => Raised db (HTTPException 404 "Employee profile not found for this user")
  | Some employee_profile =>
    match attendance_on (EmployeeProfile.id employee_profile) today db with
    | Some existing_attendance =>
      match Attendance.check_in_time existing_attendance with
      | Some _ => Raised db (HTTPException 400 "Already checked in for today")
      | None =>
        let change := Attendance.set_check_in (Some now) PRESENT in
        Ok (update_attendance (Attendance.id existing_attendance) change db)
           (change existing_attendance)
      end
    | None =>
      let new_attendance :=
        new_attendance_row (EmployeeProfile.id employee_profile) today
                          (Some now) None PRESENT None db in
      Ok (with_attendances (attendances db ++ [new_attendance]) db) new_attendance
    end
  end.

(** [api/attendance.py], POST /check-out *)
Definition check_out (current_user : User.t) (today : Date) (now : DateTime)
    (db : Store) : Outcome Attendance.t :=
  match profile_of_user (User.id current_user) db with
  | None => Raised db (HTTPException 404 "Employee profile not found for this user")
  | Some employee_profile =>
    match attendance_on (EmployeeProfile.id employee_profile) today db with
    | None => Raised db (HTTPException 400 "You have not checked in today")
    | Some attendance_record =>
      match Attendance.check_in_time attendance_record with
      | None => Raised db (HTTPException 400 "You have not checked in today")
      | Some _ =>
        match Attendance.check_out_time attendance_record with
        | Some _ => Raised db (HTTPException 400 "Already checked out for today")
        | None =>
          let change := Attendance.set_check_out (Some now) in
          Ok (update_attendance (Attendance.id attendance_record) change db)
             (change attendance_record)
        end
      end
    end
  end.

(** The four assignments of the update branch of [manual_attendance_entry]. *)
Definition manual_change (attendance_in : AttendanceManualCreate)
    : Attendance.t -> Attendance.t :=
  Attendance.set_all (am_check_in_time attendance_in)
    (am_check_out_time attendance_in) (am_status attendance_in)
    (am_notes attendance_in).

(** [api/attendance.py], POST /manual; the role of the caller is checked by
    the dependency before the handler runs. *)
Definition manual_attendance_entry (attendance_in : AttendanceManualCreate)
    (db : Store) : Outcome Attendance.t :=
  match find (fun p => EmployeeProfile.id p =? am_employee_profile_id attendance_in)
             (employee_profiles db) with
  | None => Raised db (HTTPException 404 "Employee profile not found")
  | Some _ =>
    match attendance_on (am_employee_profile_id attendance_in)
                        (am_date attendance_in) db with
    | Some attendance =>
      Ok (update_attendance (Attendance.id attendance)
                            (manual_change attendance_in) db)
         (manual_change attendance_in attendance)
    | None =>
      let attendance :=
        new_attendance_row (am_employee_profile_id attendance_in)
          (am_date attendance_in) (am_check_in_time attendance_in)
          (am_check_out_time attendance_in) (am_status attendance_in)
          (am_notes attendance_in) db in
      Ok (with_attendances (attendances db ++ [attendance]) db) attendance
    end
  end.

(** [api/attendance_correction.py], PUT /{request_id}/approve *)
Definition approve_correction_request (request_id : Z) (current_user : User.t)
    (now : DateTime) (db : Store) : Outcome AttendanceCorrectionRequest.t :=
  match request_by_id request_id db with
  | None => Raised db (HTTPException 404 "Correction request not found")
  | Some db_request =>
    if negb (CorrectionRequestStatus_eqb
               (AttendanceCorrectionRequest.status db_request) PENDING)
    then Raised db (HTTPException 400 "Request is not pending")
    else
      let review :=
        AttendanceCorrectionRequest.review APPROVED (User.id current_user) now in
      let db1 :=
        match attendance_by_id
                (AttendanceCorrectionRequest.attendance_id db_request) db with
        | Some attendance =>
          update_attendance (Attendance.id attendance)
            (Attendance.set_times
               (AttendanceCorrectionRequest.requested_check_in_time db_request)
               (AttendanceCorrectionRequest.requested_check_out_time db_request))
            db
        | None => db
        end in
      Ok (with_correction_requests
            (update_where AttendanceCorrectionRequest.id
               (AttendanceCorrectionRequest.id db_request) review
               (correction_requests db1)) db1)
         (review db_request)
  end.

(** [api/attendance_correction.py], PUT /{request_id}/reject *)
Definition reject_correction_request (request_id : Z)
    (reviewer_comments : option string) (current_user : User.t)
    (now : DateTime) (db : Store) : Outcome AttendanceCorrectionRequest.t :=
  match request_by_id request_id db with
  | None => Raised db (HTTPException 404 "Correction request not found")
  | Some db_request =>
    if negb (CorrectionRequestStatus_eqb
               (AttendanceCorrectionRequest.status db_request) PENDING)
    then Raised db (HTTPException 400 "Request is not pending")
    else
      let review r :=
        AttendanceCorrectionRequest.set_reviewer_comments reviewer_comments
          (AttendanceCorrectionRequest.review REJECTED (User.id current_user) now r) in
      Ok (with_correction_requests
            (update_where AttendanceCorrectionRequest.id
               (AttendanceCorrectionRequest.id db_request) review
               (correction_requests db)) db)
         (review db_request)
  end.

(** [api/users.py], GET /users/{user_id} *)
Definition read_user (user_id : Z) (current_user : User.t) (db : Store)
    : Outcome User.t :=
  match user_by_id user_id db with
  | None => Raised db (HTTPException 404 "User not found")
  | Some db_user =>
    if negb (User.id current_user =? user_id)
       && negb (UserRole_eqb (User.role current_user) ADMIN)
    then Raised db (HTTPException 403 "Not authorized to access this user's profile")
    else Ok db db_user
  end.

(** INSERT of [UserSettings(user_id=uid)]; [user_id] is a UNIQUE column. *)
Definition insert_user_settings (uid : Z) (db : Store) : Outcome UserSettings.t :=
  if existsb (fun s => UserSettings.user_id s =? uid) (user_settings db)
  then Raised db IntegrityError
  else
    let row := UserSettings.default
                 (next_id (map UserSettings.id (user_settings db))) uid in
    Ok (with_user_settings (user_settings db ++ [row]) db) row.

(** None of the three settings columns of the row holds NULL. *)
Definition settings_complete (row : UserSettings.t) : bool :=
  match UserSettings.receive_notifications row, UserSettings.theme row,
        UserSettings.language row with
  | Some _, Some _, Some _ => true
  | _, _, _ => false
  end.

(** [response_model=UserSettingsSchema] on the two routes of
    [api/settings.py]: the row the handler returns is validated against
    [schemas/user_settings.py], whose [receive_notifications: bool],
    [theme: str] and [language: str] do not accept [None].  The commits of
    the handler have been made by then. *)
Definition UserSettingsSchema (db : Store) (row : UserSettings.t)
    : Outcome UserSettings.t :=
  if settings_complete row then Ok db row
  else Raised db ResponseValidationError.

(** [api/settings.py], GET /settings/me *)
Definition get_my_settings (current_user : User.t) (db : Store)
    : Outcome UserSettings.t :=
  match settings_of_user (User.id current_user) db with
  | Some user_settings => UserSettingsSchema db user_settings
  | None =>
    match insert_user_settings (User.id current_user) db with
    | Ok db' user_settings => UserSettingsSchema db' user_settings
    | Raised db' e => Raised db' e
    end
  end.

(** [api/settings.py], PUT /settings/me *)
Definition update_my_settings (settings_update : UserSettingsUpdate)
    (current_user : User.t) (db : Store) : Outcome UserSettings.t :=
  match settings_of_user (User.id current_user) db with
  | None => Raised db (HTTPException 404 "User settings not found")
  | Some user_settings_row =>
    let change (s : UserSettings.t) :=
      UserSettings.mk (UserSettings.id s) (UserSettings.user_id s)
        (assign (su_receive_notifications settings_update)
                (UserSettings.receive_notifications s))
        (assign (su_theme settings_update) (UserSettings.theme s))
        (assign (su_language settings_update) (UserSettings.language s)) in
    UserSettingsSchema
      (with_user_settings
         (update_where UserSettings.id (UserSettings.id user_settings_row)
                       change (user_settings db)) db)
      (change user_settings_row)
  end.

(** [services/activity_service.py] *)
Definition log_activity (db : Store) (user_id : Z) (action : string)
    (details : option string) : Store :=
  let activity :=
    ActivityLog.mk (next_id (map ActivityLog.id (activity_logs db)))
                   user_id action details in
  with_activity_logs (activity_logs db ++ [activity]) db.

(** A column that is NOT NULL is being set to [None]. *)
Definition sets_null {A : Type} (f : Field A) : bool :=
  match f with
  | Given None => true
  | _ => false
  end.

Definition column {A : Type} (f : Field A) (old : A) : A :=
  match f with
  | Given (Some v) => v
  | _ => old
  end.

Section Hashing.

(** [app.auth.security.get_password_hash], a collaborator outside the
    sources. *)
Variable get_password_hash : string -> string.

(** [api/users.py], PUT /users/{user_id}.  A password that is present and
    truthy replaces the hash; [email] and [role] are NOT NULL and [email] is
    UNIQUE, which the commit enforces. *)
Definition update_user (user_id : Z) (user_in : UserUpdate)
    (current_user : User.t) (db : Store) : Outcome User.t :=
  match user_by_id user_id db with
  | None => Raised db (HTTPException 404 "User not found")
  | Some db_user =>
    if negb (User.id current_user =? user_id)
       && negb (UserRole_eqb (User.role current_user) ADMIN)
    then Raised db (HTTPException 403 "Not authorized to update this user")
    else
      let change (u : User.t) :=
        User.mk (User.id u)
          (column (uu_email user_in) (User.email u))
          (match uu_password user_in with
           | Given (Some p) =>
               if String.eqb p EmptyString then User.hashed_password u
               else get_password_hash p
           | _ => User.hashed_password u
           end)
          (column (uu_role user_in) (User.role u))
          (assign (uu_is_active user_in) (User.is_active u)) in
      if sets_null (uu_email user_in) || sets_null (uu_role user_in)
         || existsb (fun u => negb (User.id u =? User.id db_user)
                              && String.eqb (User.email u)
                                            (User.email (change db_user)))
                    (users db)
      then Raised db IntegrityError
      else Ok (with_users (update_where User.id (User.id db_user) change (users db)) db)
              (change db_user)
  end.

(** [api/auth.py], POST /auth/register *)
Definition register_user (user : UserCreate) (db : Store) : Outcome User.t :=
  match user_by_email (uc_email user) db with
  | Some _ => Raised db (HTTPException 400 "Email already registered")
  | None =>
    let db_user :=
      User.mk (next_id (map User.id (users db))) (uc_email user)
              (get_password_hash (uc_password user)) (uc_role user)
              (Some (uc_is_active user)) in
    let db1 := with_users (users db ++ [db_user]) db in
    match insert_user_settings (User.id db_user) db1 with
    | Raised db2 e => Raised db2 e
    | Ok db2 _ =>
      Ok (log_activity db2 (User.id db_user) "User registration"
            (Some ("User " ++ User.email db_user ++ " registered.")%string))
         db_user
    end
  end.

End Hashing.

(** ** Invariants of the store *)

(** At most one attendance row per (employee, date). *)
Definition one_per_day (db : Store) : Prop :=
  NoDup (map Attendance.key (attendances db)).

(** Every settings row belongs to a user of the store (the foreign key of
    [user_settings.user_id], kept by the cascade on deletion). *)
Definition settings_owned (db : Store) : Prop :=
  forall s, In s (user_settings db) ->
    exists u, In u (users db) /\ User.id u = UserSettings.user_id s.

(** One request of the attendance lifecycle that can insert a row. *)
Inductive attendance_step : Store -> Store -> Prop :=
| step_check_in current_user today now db :
    attendance_step db (store_after (check_in current_user today now db))
| step_manual attendance_in db :
    attendance_step db (store_after (manual_attendance_entry attendance_in db)).

(** ** Sample data *)

Module Sample.

(** A stored amount, given in hundredths. *)
Definition stored (hundredths : Z) : option Amount :=
  Some (Finite (money hundredths)).

(** The salary structure of the walkthrough in [tests/manual_api_runner.py]. *)
Definition salary : SalaryRow.t :=
  SalaryRow.mk 1 1 (Finite (money 5000000)) (stored 1000000) (stored 500000)
    (stored 200000) (stored 100000) (stored 300000) (stored 20000)
    (stored 150000).

(** A structure with a negative bonus. *)
Definition clawback : SalaryRow.t :=
  SalaryRow.mk 2 2 (Finite (money 5000000)) (stored 0) (stored 0)
    (stored (-750050)) (stored 0) (stored 0) (stored 20000) (stored 0).

(** The walkthrough structure after an update whose body gave null for the
    housing allowance. *)
Definition without_hra : SalaryRow.t :=
  SalaryRow.mk 1 1 (Finite (money 5000000)) None (stored 500000)
    (stored 200000) (stored 100000) (stored 300000) (stored 20000)
    (stored 150000).

(** A basic salary sent as 1E+30: the column gives back the float nearest
    to it, a coefficient of 33 digits. *)
Definition beyond_precision : SalaryRow.t :=
  SalaryRow.mk 3 3 (Finite (money 100000000000000001988462483865600))
    (stored 1) (stored 0) (stored 0) (stored 0) (stored 0) (stored 0)
    (stored 0).

(** A basic salary sent as 1E+400 and a bonus sent as -1E+400: both lie
    beyond the floats and come back as infinities. *)
Definition both_infinities : SalaryRow.t :=
  SalaryRow.mk 4 4 (Infinity false) (stored 0) (stored 0)
    (Some (Infinity true)) (stored 0) (stored 0) (stored 0) (stored 0).

Definition alice : User.t := User.mk 1 "alice@x.com" "h1" EMPLOYEE (Some true).
Definition officer : User.t := User.mk 2 "hr@x.com" "h2" HR_OFFICER (Some true).
Definition admin : User.t := User.mk 3 "admin@example.com" "h3" ADMIN (Some true).

(** Day 10: marked absent by an administrator; day 11: checked in; day 12:
    checked in and out. *)
Definition day10 : Attendance.t := Attendance.mk 1 1 10 None None ABSENT None.
Definition day11 : Attendance.t := Attendance.mk 2 1 11 (Some 1109) None PRESENT None.
Definition day12 : Attendance.t :=
  Attendance.mk 3 1 12 (Some 1209) (Some 1217) PRESENT None.

(** A pending request on the row of day 10 whose requested check-out lies
    before the requested check-in, and one on a row that is not there. *)
Definition request1 : AttendanceCorrectionRequest.t :=
  AttendanceCorrectionRequest.mk 1 1 1 "Missed checkout" (Some 1017) (Some 1009)
    PENDING None None None.
Definition request2 : AttendanceCorrectionRequest.t :=
  AttendanceCorrectionRequest.mk 2 99 1 "Wrong day" None (Some 1317)
    PENDING None None None.

Definition alice_settings : UserSettings.t :=
  UserSettings.mk 1 1 (Some false) (Some "dark"%string) (Some "en"%string).

Definition db : Store :=
  mkStore [alice; officer; admin]
          [EmployeeProfile.mk 1 1; EmployeeProfile.mk 2 2]
          [day10; day11; day12]
          [request1; request2]
          [alice_settings]
          [].

Definition manual_body : AttendanceManualCreate :=
  mkAttendanceManualCreate 1 11 (Some 1108) (Some 1118) HALF_DAY (Some "Manual entry"%string).

Definition newcomer : UserCreate :=
  mkUserCreate "bob@x.com" EMPLOYEE true "password".

End Sample.

(** ** Listings, and the remaining handlers of the same files *)

(** What the driver binds as an SQLite INTEGER: a signed 64-bit number. *)
Definition int64 (n : Z) : bool := (- 2 ^ 63 <=? n) && (n <? 2 ^ 63).

(** [.offset(skip).limit(limit).all()] on SQLite, the engine [database.py]
    connects to.  Binding a Python int that is not a 64-bit number raises
    OverflowError when the statement is executed; a negative OFFSET counts
    as zero and a negative LIMIT is no limit. *)
Definition sql_page {R : Type} (skip limit : Z) (rows : list R) : Py (list R) :=
  if int64 skip && int64 limit
  then
    let rest := skipn (Z.to_nat skip) rows in
    Value (if limit <? 0 then rest else firstn (Z.to_nat limit) rest)
  else Error OverflowError.

(** The order of the index on [attendances.date], which SQLite walks to
    answer a query on the date: by date, and by primary key within a
    date. *)
Definition index_le (a b : Attendance.t) : bool :=
  (Attendance.date a <? Attendance.date b)
  || ((Attendance.date a =? Attendance.date b)
      && (Attendance.id a <=? Attendance.id b)).

(** [.order_by(Attendance.date.desc())]: the index walked backwards. *)
Fixpoint insert_date_desc (a : Attendance.t) (rows : list Attendance.t)
    : list Attendance.t :=
  match rows with
  | [] => [a]
  | b :: rows' =>
    if index_le b a then a :: rows
    else b :: insert_date_desc a rows'
  end.

Definition order_by_date_desc (rows : list Attendance.t) : list Attendance.t :=
  fold_right insert_date_desc [] rows.

(** A range of dates without [order_by]: the index walked forwards. *)
Fixpoint insert_date_asc (a : Attendance.t) (rows : list Attendance.t)
    : list Attendance.t :=
  match rows with
  | [] => [a]
  | b :: rows' =>
    if index_le a b then a :: rows
    else b :: insert_date_asc a rows'
  end.

Definition in_index_order (rows : list Attendance.t) : list Attendance.t :=
  fold_right insert_date_asc [] rows.

(** Descending by date: [a] may stand before [b]. *)
Definition newer_first (a b : Attendance.t) : Prop :=
  Attendance.date b <= Attendance.date a.

(** A [Date] read as [date.toordinal()]: day 1 is Monday 0001-01-01 and
    [date.max] is 9999-12-31. *)
Definition date_max : Date := 3652059.

Definition valid_date (d : Date) : Prop := 1 <= d <= date_max.

(** [date.weekday()]: Monday is 0. *)
Definition weekday (d : Date) : Z := (d + 6) mod 7.

(** [d + timedelta(days=k)], which raises OverflowError out of range. *)
Definition date_plus (d : Date) (k : Z) : Py Date :=
  if (1 <=? d + k) && (d + k <=? date_max) then Value (d + k)
  else Error OverflowError.

(** [api/attendance.py], GET /daily *)
Definition get_daily_attendance (day : Date) (db : Store) : list Attendance.t :=
  filter (fun a => Attendance.date a =? day) (attendances db).

(** [api/attendance.py], GET /weekly *)
Definition get_weekly_attendance (day_in_week : Date) (db : Store)
    : Py (list Attendance.t) :=
  match date_plus day_in_week (- weekday day_in_week) with
  | Error e => Error e
  | Value start_of_week =>
    match date_plus start_of_week 6 with
    | Error e => Error e
    | Value end_of_week =>
      Value (in_index_order
               (filter (fun a => (start_of_week <=? Attendance.date a)
                                 && (Attendance.date a <=? end_of_week))
                       (attendances db)))
    end
  end.

(** [api/attendance.py], GET /me *)
Definition get_my_attendance_history (skip limit : Z) (current_user : User.t)
    (db : Store) : Py (Outcome (list Attendance.t)) :=
  match profile_of_user (User.id current_user) db with
  | None =>
    Value (Raised db (HTTPException 404 "Employee profile not found for this user"))
  | Some employee_profile =>
    match sql_page skip limit
            (order_by_date_desc
               (filter (fun a => Attendance.employee_profile_id a
                                 =? EmployeeProfile.id employee_profile)
                       (attendances db))) with
    | Error e => Error e
    | Value attendances => Value (Ok db attendances)
    end
  end.

(** [api/attendance.py], GET /all; [if employee_profile_id:] is false for
    [None] and for 0. *)
Definition get_all_attendance_records (skip limit : Z)
    (employee_profile_id : option Z) (db : Store) : Py (list Attendance.t) :=
  let query :=
    match employee_profile_id with
    | None => attendances db
    | Some pid =>
      if pid =? 0 then attendances db
      else filter (fun a => Attendance.employee_profile_id a =? pid)
                  (attendances db)
    end in
  sql_page skip limit (order_by_date_desc query).

(** [schemas/attendance_correction.py] *)
Record AttendanceCorrectionRequestCreate : Type :=
  mkAttendanceCorrectionRequestCreate {
  rc_reason : string;
  rc_requested_check_in_time : option DateTime;
  rc_requested_check_out_time : option DateTime;
  rc_attendance_id : Z
}.

(** [api/attendance_correction.py], POST /.  [attendance.employee_profile]
    is the profile whose primary key the row refers to, or [None]. *)
Definition create_attendance_correction_request
    (request_in : AttendanceCorrectionRequestCreate) (current_user : User.t)
    (db : Store) : Py (Outcome AttendanceCorrectionRequest.t) :=
  match attendance_by_id (rc_attendance_id request_in) db with
  | None => Value (Raised db (HTTPException 404 "Attendance record not found"))
  | Some attendance =>
    match find (fun p => EmployeeProfile.id p
                         =? Attendance.employee_profile_id attendance)
               (employee_profiles db) with
    | None => Error AttributeError
    | Some employee_profile =>
      if negb (EmployeeProfile.user_id employee_profile =? User.id current_user)
      then Value (Raised db (HTTPException 403
             "Not authorized to request correction for this attendance record"))
      else
        let db_request :=
          AttendanceCorrectionRequest.mk
            (next_id (map AttendanceCorrectionRequest.id (correction_requests db)))
            (rc_attendance_id request_in) (User.id current_user)
            (rc_reason request_in) (rc_requested_check_in_time request_in)
            (rc_requested_check_out_time request_in) PENDING None None None in
        Value (Ok (with_correction_requests
                     (correction_requests db ++ [db_request]) db) db_request)
    end
  end.

(** [api/attendance_correction.py], GET /pending *)
Definition get_pending_correction_requests (db : Store)
    : list AttendanceCorrectionRequest.t :=
  filter (fun r => CorrectionRequestStatus_eqb
                     (AttendanceCorrectionRequest.status r) PENDING)
         (correction_requests db).

(** [api/attendance_correction.py], GET /me *)
Definition get_my_correction_requests (current_user : User.t) (db : Store)
    : list AttendanceCorrectionRequest.t :=
  filter (fun r => AttendanceCorrectionRequest.requested_by_id r
                   =? User.id current_user)
         (correction_requests db).

(** The body of POST /auth/login. *)
Record Token : Type := mkToken { access_token : string; token_type : string }.

Section Collaborators.

(** [app.auth.security], outside the sources. *)
Variable get_password_hash : string -> string.
Variable verify_password : string -> string -> bool.
Variable create_access_token : string -> string.

(** [api/users.py], POST /users/ *)
Definition create_user (user : UserCreate) (db : Store) : Outcome User.t :=
  match user_by_email (uc_email user) db with
  | Some _ => Raised db (HTTPException 400 "Email already registered")
  | None =>
    let db_user :=
      User.mk (next_id (map User.id (users db))) (uc_email user)
              (get_password_hash (uc_password user)) (uc_role user)
              (Some (uc_is_active user)) in
    let db1 := with_users (users db ++ [db_user]) db in
    match insert_user_settings (User.id db_user) db1 with
    | Raised db2 e => Raised db2 e
    | Ok db2 _ => Ok db2 db_user
    end
  end.

(** [api/auth.py] *)
Definition authenticate_user (db : Store) (email password : string)
    : option User.t :=
  match user_by_email email db with
  | None => None
  | Some user =>
    if verify_password password (User.hashed_password user) then Some user
    else None
  end.

(** [api/auth.py], POST /auth/login *)
Definition login_for_access_token (username password : string) (db : Store)
    : Outcome Token :=
  match authenticate_user db username password with
  | None => Raised db (HTTPException 401 "Incorrect email or password")
  | Some user =>
    Ok (log_activity db (User.id user) "User login"
          (Some ("User " ++ User.email user ++ " logged in.")%string))
       (mkToken (create_access_token (User.email user)) "bearer"%string)
  end.

(** [api/auth.py], POST /auth/logout *)
Definition logout (current_user : User.t) (db : Store) : Outcome string :=
  Ok (log_activity db (User.id current_user) "User logout"
        (Some ("User " ++ User.email current_user ++ " logged out.")%string))
     "Successfully logged out. Please discard your token."%string.

End Collaborators.

(** ** Further invariants *)

(** [users.email] is UNIQUE and [users.id] is the primary key. *)
Definition emails_unique (db : Store) : Prop := NoDup (map User.email (users db)).
Definition user_ids_unique (db : Store) : Prop := NoDup (map User.id (users db)).

Definition is_Unauthorized {A : Type} (o : Outcome A) : Prop :=
  status_of o = Some 401.

(** ** The salary table and the handlers of [api/salary.py] *)

(** [schemas/salary.py], [SalaryPayroll] *)
Record SalaryPayroll : Type := mkSalaryPayroll {
  sp_structure : SalaryStructure;
  sp_gross_salary : Decimal;
  sp_total_deductions : Decimal;
  sp_net_salary : Decimal
}.

(** [calculate_net_salary(ss)] followed by [SalaryPayroll(...)], which
    raises ValidationError unless its eleven amounts are finite decimals. *)
Definition payroll_entry (ss : SalaryRow.t) : Py SalaryPayroll :=
  match calculate_net_salary ss with
  | Error e => Error e
  | Value calculated_salary =>
    match loaded ss, finite (Some (gross_salary calculated_salary)),
          finite (Some (total_deductions calculated_salary)),
          finite (Some (net_salary calculated_salary)) with
    | Some structure, Some gross, Some deductions, Some net =>
      Value (mkSalaryPayroll structure gross deductions net)
    | _, _, _, _ => Error ValidationError
    end
  end.

(** The loop of [get_all_payroll_data]. *)
Fixpoint payroll_entries (salary_structures : list SalaryRow.t)
    : Py (list SalaryPayroll) :=
  match salary_structures with
  | [] => Value []
  | ss :: rest =>
    match payroll_entry ss with
    | Error e => Error e
    | Value payroll =>
      match payroll_entries rest with
      | Error e => Error e
      | Value payroll_data => Value (payroll :: payroll_data)
      end
    end
  end.

(** What a handler of [api/salary.py] returns, or the exception that ends
    it. *)
Inductive Response (A : Type) : Type :=
| Sent (body : A)
| Refused (e : Failure).
Arguments Sent {A} body.
Arguments Refused {A} e.

Definition refused_with {A : Type} (r : Response A) : option Z :=
  match r with
  | Refused (HTTPException code _) => Some code
  | _ => None
  end.

(** [schemas/salary.py]: the allowances and deductions may be left out of
    the body, and then default to zero. *)
Record SalaryStructureCreate : Type := mkSalaryStructureCreate {
  sc_employee_profile_id : Z;
  sc_basic_salary : Decimal;
  sc_hra : option Decimal;
  sc_standard_allowance : option Decimal;
  sc_performance_bonus : option Decimal;
  sc_lta : option Decimal;
  sc_fixed_allowance : option Decimal;
  sc_professional_tax : option Decimal;
  sc_pf_contribution : option Decimal
}.

Record SalaryStructureUpdate : Type := mkSalaryStructureUpdate {
  sx_basic_salary : Field Decimal;
  sx_hra : Field Decimal;
  sx_standard_allowance : Field Decimal;
  sx_performance_bonus : Field Decimal;
  sx_lta : Field Decimal;
  sx_fixed_allowance : Field Decimal;
  sx_professional_tax : Field Decimal;
  sx_pf_contribution : Field Decimal
}.

Definition salary_of_employee (pid : Z) (table : list SalaryRow.t)
    : option SalaryRow.t :=
  find (fun r => SalaryRow.employee_profile_id r =? pid) table.

Section NumericColumn.

(** What a [Numeric(10, 2)] column gives back for a value written to it:
    the conversion to a float and back is the database driver's, and gives
    an infinity for a value beyond the floats. *)
Variable column_value : Decimal -> Amount.

(** A column left out of the body of a creation: the default 0.0, read back. *)
Definition created_column (v : option Decimal) : option Amount :=
  match v with
  | Some d => Some (column_value d)
  | None => Some (Finite (money 0))
  end.

Definition updated_column (f : Field Decimal) (old : option Amount)
    : option Amount :=
  match f with
  | Unset => old
  | Given v => option_map column_value v
  end.

(** [api/salary.py], POST /structure *)
Definition create_salary_structure (salary_structure_in : SalaryStructureCreate)
    (db : Store) (table : list SalaryRow.t)
    : Response (list SalaryRow.t * SalaryRow.t) :=
  match find (fun p => EmployeeProfile.id p
                       =? sc_employee_profile_id salary_structure_in)
             (employee_profiles db) with
  | None => Refused (HTTPException 404 "Employee profile not found")
  | Some _ =>
    match salary_of_employee (sc_employee_profile_id salary_structure_in) table with
    | Some _ =>
      Refused (HTTPException 400
        "Salary structure already exists for this employee. Use PUT to update.")
    | None =>
      let db_salary_structure :=
        SalaryRow.mk (next_id (map SalaryRow.id table))
          (sc_employee_profile_id salary_structure_in)
          (column_value (sc_basic_salary salary_structure_in))
          (created_column (sc_hra salary_structure_in))
          (created_column (sc_standard_allowance salary_structure_in))
          (created_column (sc_performance_bonus salary_structure_in))
          (created_column (sc_lta salary_structure_in))
          (created_column (sc_fixed_allowance salary_structure_in))
          (created_column (sc_professional_tax salary_structure_in))
          (created_column (sc_pf_contribution salary_structure_in)) in
      Sent (table ++ [db_salary_structure], db_salary_structure)
    end
  end.

(** The assignments of [update_salary_structure]. *)
Definition salary_change (salary_structure_in : SalaryStructureUpdate)
    (r : SalaryRow.t) : SalaryRow.t :=
  SalaryRow.mk (SalaryRow.id r) (SalaryRow.employee_profile_id r)
    (match sx_basic_salary salary_structure_in with
     | Given (Some v) => column_value v
     | _ => SalaryRow.basic_salary r
     end)
    (updated_column (sx_hra salary_structure_in) (SalaryRow.hra r))
    (updated_column (sx_standard_allowance salary_structure_in)
                    (SalaryRow.standard_allowance r))
    (updated_column (sx_performance_bonus salary_structure_in)
                    (SalaryRow.performance_bonus r))
    (updated_column (sx_lta salary_structure_in) (SalaryRow.lta r))
    (updated_column (sx_fixed_allowance salary_structure_in)
                    (SalaryRow.fixed_allowance r))
    (updated_column (sx_professional_tax salary_structure_in)
                    (SalaryRow.professional_tax r))
    (updated_column (sx_pf_contribution salary_structure_in)
                    (SalaryRow.pf_contribution r)).

(** [api/salary.py], PUT /structure/{salary_structure_id} *)
Definition update_salary_structure (salary_structure_id : Z)
    (salary_structure_in : SalaryStructureUpdate) (table : list SalaryRow.t)
    : Response (list SalaryRow.t * SalaryRow.t) :=
  match find (fun r => SalaryRow.id r =? salary_structure_id) table with
  | None => Refused (HTTPException 404 "Salary structure not found")
  | Some db_salary_structure =>
    if sets_null (sx_basic_salary salary_structure_in)
    then Refused IntegrityError
    else
      Sent (update_where SalaryRow.id (SalaryRow.id db_salary_structure)
                         (salary_change salary_structure_in) table,
            salary_change salary_structure_in db_salary_structure)
  end.

End NumericColumn.

(** [api/salary.py], GET /me *)
Definition get_my_salary_structure (current_user : User.t) (db : Store)
    (table : list SalaryRow.t) : Response SalaryRow.t :=
  match profile_of_user (User.id current_user) db with
  | None => Refused (HTTPException 404 "Employee profile not found for this user")
  | Some employee_profile =>
    match salary_of_employee (EmployeeProfile.id employee_profile) table with
    | None => Refused (HTTPException 404 "Salary structure not found for this employee")
    | Some salary_structure => Sent salary_structure
    end
  end.

(** [api/salary.py], GET /all *)
Definition get_all_payroll_data (skip limit : Z) (table : list SalaryRow.t)
    : Py (list SalaryPayroll) :=
  match sql_page skip limit table with
  | Error e => Error e
  | Value salary_structures => payroll_entries salary_structures
  end.

(** [api/salary.py], GET /{employee_profile_id}/slip *)
Definition get_salary_slip_data (employee_profile_id : Z) (db : Store)
    (table : list SalaryRow.t) : Py (Response SalaryPayroll) :=
  match find (fun p => EmployeeProfile.id p =? employee_profile_id)
             (employee_profiles db) with
  | None => Value (Refused (HTTPException 404 "Employee profile not found"))
  | Some _ =>
    match salary_of_employee employee_profile_id table with
    | None =>
      Value (Refused (HTTPException 404 "Salary structure not found for this employee"))
    | Some salary_structure =>
      match payroll_entry salary_structure with
      | Error e => Error e
      | Value payroll => Value (Sent payroll)
      end
    end
  end.

(** The body of an update gives null for one of the nullable amount
    columns. *)
Definition nulls_a_column (u : SalaryStructureUpdate) : bool :=
  sets_null (sx_hra u) || sets_null (sx_standard_allowance u)
  || sets_null (sx_performance_bonus u) || sets_null (sx_lta u)
  || sets_null (sx_fixed_allowance u) || sets_null (sx_professional_tax u)
  || sets_null (sx_pf_contribution u).

(** [salary_structures.employee_profile_id] is UNIQUE. *)
Definition one_structure_per_employee (table : list SalaryRow.t) : Prop :=
  NoDup (map SalaryRow.employee_profile_id table).

(** ** More sample data *)

Module Scenario.

(** Alice asks for a correction of her row of day 11. *)
Definition correction : AttendanceCorrectionRequestCreate :=
  mkAttendanceCorrectionRequestCreate "Forgot to check out" (Some 1109) (Some 1117) 2.

(** The administrator marks Alice absent on day 14. *)
Definition marked_absent : AttendanceManualCreate :=
  mkAttendanceManualCreate 1 14 None None ABSENT (Some "No show"%string).

(** The structure of the walkthrough, stored for profile 1. *)
Definition alice_salary : SalaryRow.t := Sample.salary.

Definition salaries : list SalaryRow.t := [alice_salary].

(** A structure for profile 2 that gives the basic salary and the housing
    allowance only. *)
Definition officer_salary : SalaryStructureCreate :=
  mkSalaryStructureCreate 2 (money 6000000) (Some (money 1200000))
    None None None None None None.

(** An update whose body gives null for the housing allowance. *)
Definition drop_hra : SalaryStructureUpdate :=
  mkSalaryStructureUpdate Unset (Given None) Unset Unset Unset Unset Unset Unset.

(** Six rows on three days, of two profiles, in the order of their keys. *)
Definition crowded : Store :=
  mkStore [] [EmployeeProfile.mk 1 1; EmployeeProfile.mk 2 2]
    [Attendance.mk 1 1 13 None None ABSENT None;
     Attendance.mk 2 2 12 None None ABSENT None;
     Attendance.mk 3 1 12 None None ABSENT None;
     Attendance.mk 4 1 13 None None ABSENT None;
     Attendance.mk 5 2 11 None None ABSENT None;
     Attendance.mk 6 1 12 None None ABSENT None]
    [] [] [].

(** Stand-ins for the collaborators: the hash of a password is the
    password, a password verifies against an equal hash, and the token of
    an email is the email. *)
Definition plain_hash (password : string) : string := password.
Definition plain_verify (password hashed : string) : bool :=
  String.eqb password hashed.
Definition plain_token (email : string) : string := email.

(** A stand-in for the column: amounts of up to 300 digits come back as
    written, longer ones as an infinity of their sign. *)
Definition as_written (d : Decimal) : Amount :=
  if Z.abs (dec_int d) <? 10 ^ 300 then Finite d
  else Infinity (dec_int d <? 0).

(** A structure for profile 2 whose basic salary lies beyond the floats. *)
Definition beyond_floats : SalaryStructureCreate :=
  mkSalaryStructureCreate 2 (mkDecimal (10 ^ 300) 100) None None None None
    None None None.

End Scenario.

(** * Properties of the payroll calculator *)

Section Payroll.

(** Adding two amounts whose sum has at most [prec] digits is not rounded. *)
Lemma add_money a b :
  Z.abs (a + b) < 10 ^ prec -> Dec.add (money a) (money b) = money (a + b).
Proof.
  intros Hs. unfold Dec.add, money; simpl dec_exp; simpl dec_int.
  rewrite Z.min_id, Z.sub_diag. change (10 ^ 0) with 1. rewrite !Z.mul_1_r.
  unfold fix_; simpl dec_int.
  apply Z.ltb_lt in Hs. rewrite Hs. reflexivity.
Qed.

Lemma sub_money a b :
  Z.abs (a - b) < 10 ^ prec -> Dec.sub (money a) (money b) = money (a - b).
Proof.
  intros Hs. unfold Dec.sub, neg; simpl.
  change {| dec_int := - b; dec_exp := -2 |} with (money (- b)).
  rewrite add_money; [reflexivity | exact Hs].
Qed.

Lemma add_column_money a b :
  Z.abs (a + b) < 10 ^ prec ->
  add_column (Value (Finite (money a))) (Some (Finite (money b)))
  = Value (Finite (money (a + b))).
Proof.
  intros Hs. cbn [add_column attr_add amount_add].
  rewrite (add_money a b Hs). reflexivity.
Qed.

(** What a [Numeric(10, 2)] column is declared to hold lies within the
    bound of [holds]. *)
Lemma numeric_holds d :
  numeric_10_2 d -> holds (Some (Finite d)) (dec_int d).
Proof.
  destruct d as [c e]; unfold numeric_10_2, holds, money; simpl.
  intros [-> Hc]. split; [reflexivity|].
  assert (10 ^ 10 < 10 ^ 27) by reflexivity. lia.
Qed.

(** C1.  For a salary structure whose eight amount columns are
    set and hold finite amounts with two fractional digits and at most 27
    digits, of either sign (every [Numeric(10, 2)] value is one),
    [calculate_net_salary] returns without error: the gross salary is the
    exact sum of the six additive components, the total deductions are the
    exact sum of professional tax and provident-fund contribution, and the
    net salary is their exact difference. *)
Theorem calculate_net_salary_exact (r : SalaryRow.t) (b h sa pb l fa pt pf : Z) :
  holds (Some (SalaryRow.basic_salary r)) b ->
  holds (SalaryRow.hra r) h ->
  holds (SalaryRow.standard_allowance r) sa ->
  holds (SalaryRow.performance_bonus r) pb ->
  holds (SalaryRow.lta r) l ->
  holds (SalaryRow.fixed_allowance r) fa ->
  holds (SalaryRow.professional_tax r) pt ->
  holds (SalaryRow.pf_contribution r) pf ->
  calculate_net_salary r
  = Value {| gross_salary := Finite (money (b + h + sa + pb + l + fa));
             total_deductions := Finite (money (pt + pf));
             net_salary := Finite (money (b + h + sa + pb + l + fa - (pt + pf))) |}.
Proof.
  unfold holds.
  intros [E1 B1] [E2 B2] [E3 B3] [E4 B4] [E5 B5] [E6 B6] [E7 B7] [E8 B8].
  apply (f_equal (fun o => match o with
                           | Some a => a
                           | None => SalaryRow.basic_salary r
                           end)) in E1.
  unfold calculate_net_salary. rewrite E1, E2, E3, E4, E5, E6, E7, E8.
  assert (P : 10 ^ prec = 10000000000000000000000000000) by reflexivity.
  change (10 ^ 27) with 1000000000000000000000000000 in *.
  change (attr_add (Some (Finite (money b))) (Some (Finite (money h))))
    with (add_column (Value (Finite (money b))) (Some (Finite (money h)))).
  rewrite !add_column_money by (rewrite P; lia).
  change (attr_add (Some (Finite (money pt))) (Some (Finite (money pf))))
    with (add_column (Value (Finite (money pt))) (Some (Finite (money pf)))).
  rewrite add_column_money by (rewrite P; lia).
  cbn [amount_sub amount_neg amount_add].
  change (Dec.add (money (b + h + sa + pb + l + fa)) (neg (money (pt + pf))))
    with (Dec.sub (money (b + h + sa + pb + l + fa)) (money (pt + pf))).
  rewrite sub_money by (rewrite P; lia).
  reflexivity.
Qed.

End Payroll.

(** * Tables as lists: lookups, updates and fresh keys *)

Section Tables.

Context {R : Type}.

(** A lookup commutes with an update that does not touch what the lookup
    filters on. *)
Lemma find_map_stable (p : R -> bool) (g : R -> R) (l : list R) :
  (forall r, p (g r) = p r) -> find p (map g l) = option_map g (find p l).
Proof.
  intros Hp. induction l as [|r l IH]; simpl; [reflexivity|].
  rewrite Hp. destruct (p r); [reflexivity | exact IH].
Qed.

Lemma find_update_where (id_of : R -> Z) (p : R -> bool) (pk : Z)
    (change : R -> R) (l : list R) :
  (forall r, p (change r) = p r) ->
  find p (update_where id_of pk change l)
  = option_map (fun r => if id_of r =? pk then change r else r) (find p l).
Proof.
  intros Hp. unfold update_where. apply find_map_stable.
  intros r. destruct (id_of r =? pk); [apply Hp | reflexivity].
Qed.

Lemma map_update_where {B : Type} (f : R -> B) (id_of : R -> Z) (pk : Z)
    (change : R -> R) (l : list R) :
  (forall r, f (change r) = f r) ->
  map f (update_where id_of pk change l) = map f l.
Proof.
  intros Hf. unfold update_where. rewrite map_map. apply map_ext.
  intros r. destruct (id_of r =? pk); [apply Hf | reflexivity].
Qed.

(** Applying the same idempotent change to the same key twice. *)
Lemma update_where_twice (id_of : R -> Z) (pk : Z) (change : R -> R)
    (l : list R) :
  (forall r, id_of (change r) = id_of r) ->
  (forall r, change (change r) = change r) ->
  update_where id_of pk change (update_where id_of pk change l)
  = update_where id_of pk change l.
Proof.
  intros Hid Hidem. unfold update_where. rewrite map_map. apply map_ext.
  intros r. destruct (id_of r =? pk) eqn:E.
  - rewrite Hid, E. apply Hidem.
  - rewrite E. reflexivity.
Qed.

(** An update on a key no row has changes nothing. *)
Lemma update_where_absent (id_of : R -> Z) (pk : Z) (change : R -> R)
    (l : list R) :
  (forall r, In r l -> id_of r <> pk) -> update_where id_of pk change l = l.
Proof.
  intros Hne. unfold update_where. rewrite <- (map_id l) at 2.
  apply map_ext_in. intros r Hr.
  destruct (Z.eqb_spec (id_of r) pk) as [E|_]; [destruct (Hne r Hr E) | reflexivity].
Qed.

Lemma find_app_none (p : R -> bool) (l : list R) (x : R) :
  find p l = None -> find p (l ++ [x]) = if p x then Some x else None.
Proof.
  induction l as [|r l IH]; simpl; [reflexivity|].
  destruct (p r); [discriminate | exact IH].
Qed.

Lemma find_app_some (p : R -> bool) (l l' : list R) (x : R) :
  find p l = Some x -> find p (l ++ l') = Some x.
Proof.
  induction l as [|r l IH]; simpl; [discriminate|].
  destruct (p r); [trivial | exact IH].
Qed.

Lemma find_none_existsb (p : R -> bool) (l : list R) :
  find p l = None -> existsb p l = false.
Proof.
  induction l as [|r l IH]; simpl; [reflexivity|].
  destruct (p r); [discriminate | exact IH].
Qed.

End Tables.

Lemma fold_max_upper (ids : list Z) (x : Z) :
  In x ids -> x <= fold_right Z.max 0 ids.
Proof.
  induction ids as [|y ids IH]; simpl; [contradiction|].
  intros [->|Hx]; [lia | specialize (IH Hx); lia].
Qed.

(** The key an INSERT draws is larger than every key of the table. *)
Lemma next_id_fresh (ids : list Z) (x : Z) : In x ids -> x < next_id ids.
Proof. intros Hx. apply fold_max_upper in Hx. unfold next_id. lia. Qed.

Lemma next_id_not_in {R : Type} (id_of : R -> Z) (l : list R) (r : R) :
  In r l -> id_of r <> next_id (map id_of l).
Proof.
  intros Hr E. pose proof (next_id_fresh (map id_of l) (id_of r) (in_map id_of l r Hr)).
  lia.
Qed.

(** * The attendance lifecycle *)

Section AttendanceLifecycle.

Lemma on_day_key pid d a : on_day pid d a = true <-> Attendance.key a = (pid, d).
Proof.
  unfold on_day, Attendance.key. rewrite andb_true_iff, !Z.eqb_eq.
  split; [intros [-> ->]; reflexivity | intros E; inversion E; auto].
Qed.

Lemma attendance_on_found pid d db a :
  attendance_on pid d db = Some a ->
  In a (attendances db) /\ Attendance.key a = (pid, d).
Proof.
  unfold attendance_on. intros H. apply find_some in H. destruct H as [Hin Hk].
  split; [exact Hin | apply on_day_key; exact Hk].
Qed.

Lemma attendance_on_none pid d db :
  attendance_on pid d db = None ->
  forall a, In a (attendances db) -> Attendance.key a <> (pid, d).
Proof.
  unfold attendance_on. intros H a Hin Hk.
  pose proof (find_none _ _ H a Hin) as Hf.
  apply on_day_key in Hk. congruence.
Qed.

(** With one row per key, the lookup returns the row of that key. *)
Lemma find_on_day_unique pid d (l : list Attendance.t) a :
  NoDup (map Attendance.key l) -> In a l -> Attendance.key a = (pid, d) ->
  find (on_day pid d) l = Some a.
Proof.
  induction l as [|r l IH]; simpl; [contradiction|].
  intros Hnd [->|Hin] Hk.
  - apply on_day_key in Hk. rewrite Hk. reflexivity.
  - inversion Hnd as [|? ? Hnotin Hnd']; subst.
    destruct (on_day pid d r) eqn:E.
    + apply on_day_key in E. exfalso. apply Hnotin.
      rewrite E, <- Hk. apply in_map. exact Hin.
    + apply IH; assumption.
Qed.

Lemma attendance_on_unique pid d db a :
  one_per_day db -> In a (attendances db) -> Attendance.key a = (pid, d) ->
  attendance_on pid d db = Some a.
Proof. intros. unfold attendance_on. apply find_on_day_unique; assumption. Qed.

Lemma one_per_day_update pk change db :
  (forall a, Attendance.key (change a) = Attendance.key a) ->
  one_per_day db -> one_per_day (update_attendance pk change db).
Proof.
  unfold one_per_day, update_attendance; simpl. intros Hk H.
  rewrite map_update_where; assumption.
Qed.

Lemma one_per_day_insert a db :
  (forall b, In b (attendances db) -> Attendance.key b <> Attendance.key a) ->
  one_per_day db -> one_per_day (with_attendances (attendances db ++ [a]) db).
Proof.
  unfold one_per_day; simpl. intros Hfresh H.
  rewrite map_app; simpl.
  apply NoDup_app; [exact H | repeat constructor; simpl; tauto |].
  intros k Hk [<-|[]]. apply in_map_iff in Hk. destruct Hk as (b & Eb & Hb).
  exact (Hfresh b Hb Eb).
Qed.

Lemma check_in_preserves current_user today now db :
  one_per_day db -> one_per_day (store_after (check_in current_user today now db)).
Proof.
  intros H. unfold check_in.
  destruct (profile_of_user _ db) as [p|]; simpl; [|exact H].
  destruct (attendance_on _ today db) as [a|] eqn:Ea; simpl.
  - destruct (Attendance.check_in_time a); simpl; [exact H|].
    apply one_per_day_update; [reflexivity | exact H].
  - apply one_per_day_insert; [|exact H].
    intros b Hb. exact (attendance_on_none _ _ _ Ea b Hb).
Qed.

Lemma manual_entry_preserves attendance_in db :
  one_per_day db ->
  one_per_day (store_after (manual_attendance_entry attendance_in db)).
Proof.
  intros H. unfold manual_attendance_entry.
  destruct (find _ (employee_profiles db)); simpl; [|exact H].
  destruct (attendance_on _ _ db) as [a|] eqn:Ea; simpl.
  - apply one_per_day_update; [reflexivity | exact H].
  - apply one_per_day_insert; [|exact H].
    intros b Hb. exact (attendance_on_none _ _ _ Ea b Hb).
Qed.

(** Check-out and the approval of a correction only update rows in place. *)
Lemma check_out_preserves current_user today now db :
  one_per_day db -> one_per_day (store_after (check_out current_user today now db)).
Proof.
  intros H. unfold check_out.
  destruct (profile_of_user _ db) as [p|]; simpl; [|exact H].
  destruct (attendance_on _ today db) as [a|]; simpl; [|exact H].
  destruct (Attendance.check_in_time a); simpl; [|exact H].
  destruct (Attendance.check_out_time a); simpl; [exact H|].
  apply one_per_day_update; [reflexivity | exact H].
Qed.

Lemma approve_preserves request_id current_user now db :
  one_per_day db ->
  one_per_day (store_after (approve_correction_request request_id current_user now db)).
Proof.
  intros H. unfold approve_correction_request.
  destruct (request_by_id request_id db) as [r|]; simpl; [|exact H].
  destruct (negb _); simpl; [exact H|].
  destruct (attendance_by_id _ db) as [a|]; [|exact H].
  unfold one_per_day; simpl.
  rewrite map_update_where; [exact H | reflexivity].
Qed.

(** C2. From a store with at most one attendance row per (employee, date),
    a check-in leaves such a store, a manual entry leaves such a store, and
    so does every sequence of check-ins and manual entries: each looks the
    row of the key up and updates it in place, and inserts only when the
    key has no row. *)
Theorem one_per_day_invariant (db : Store) :
  one_per_day db ->
  (forall current_user today now,
      one_per_day (store_after (check_in current_user today now db))) /\
  (forall attendance_in,
      one_per_day (store_after (manual_attendance_entry attendance_in db))) /\
  (forall db', clos_refl_trans Store attendance_step db db' -> one_per_day db').
Proof.
  intros H. split; [|split].
  - intros. apply check_in_preserves; exact H.
  - intros. apply manual_entry_preserves; exact H.
  - intros db' Hsteps. induction Hsteps as [x y Hstep | x | x y z _ IH1 _ IH2].
    + destruct Hstep; [apply check_in_preserves | apply manual_entry_preserves];
        exact H.
    + exact H.
    + auto.
Qed.

(** C3. For a caller with a profile, in a store with one row per key:
    check-in fails with Conflict exactly when a row of the caller for today
    has its check-in time set; a row of today without a check-in time gets
    the current instant as check-in time and the status present; with no
    row for today, a new row is created for today, present, with the
    check-in time. *)
Theorem check_in_cases current_user today now db employee_profile :
  profile_of_user (User.id current_user) db = Some employee_profile ->
  one_per_day db ->
  let pid := EmployeeProfile.id employee_profile in
  let result := check_in current_user today now db in
  (is_Conflict result <->
     exists a, In a (attendances db) /\ Attendance.key a = (pid, today) /\
               Attendance.check_in_time a <> None) /\
  (forall a, In a (attendances db) -> Attendance.key a = (pid, today) ->
     Attendance.check_in_time a = None ->
     let a' := Attendance.set_check_in (Some now) PRESENT a in
     result = Ok (update_attendance (Attendance.id a)
                    (Attendance.set_check_in (Some now) PRESENT) db) a' /\
     Attendance.check_in_time a' = Some now /\ Attendance.status a' = PRESENT /\
     attendance_on pid today (store_after result) = Some a') /\
  ((forall a, In a (attendances db) -> Attendance.key a <> (pid, today)) ->
     let new_attendance :=
       Attendance.mk (next_id (map Attendance.id (attendances db))) pid today
                     (Some now) None PRESENT None in
     result = Ok (with_attendances (attendances db ++ [new_attendance]) db)
                 new_attendance).
Proof.
  intros Hp Hinv pid result. subst result. unfold check_in. rewrite Hp. fold pid.
  split; [|split].
  - split.
    + destruct (attendance_on pid today db) as [a|] eqn:Ea.
      * destruct (attendance_on_found _ _ _ _ Ea) as [Hin Hk].
        destruct (Attendance.check_in_time a) eqn:Eci; [|discriminate].
        intros _. exists a. rewrite Eci. split; [exact Hin | split; [exact Hk | discriminate]].
      * discriminate.
    + intros (a & Hin & Hk & Hci).
      rewrite (attendance_on_unique _ _ _ _ Hinv Hin Hk).
      destruct (Attendance.check_in_time a); [reflexivity | congruence].
  - intros a Hin Hk Hci. cbv zeta.
    rewrite (attendance_on_unique _ _ _ _ Hinv Hin Hk), Hci.
    repeat split. simpl.
    unfold attendance_on, update_attendance; simpl.
    rewrite find_update_where by reflexivity.
    fold (attendance_on pid today db).
    rewrite (attendance_on_unique _ _ _ _ Hinv Hin Hk); simpl.
    rewrite Z.eqb_refl. reflexivity.
  - intros Hnone. cbv zeta.
    destruct (attendance_on pid today db) as [a|] eqn:Ea.
    + destruct (attendance_on_found _ _ _ _ Ea) as [Hin Hk].
      destruct (Hnone a Hin Hk).
    + reflexivity.
Qed.

(** C4. For a caller with a profile, in a store with one row per key:
    check-out fails with Conflict when no row of the caller for today has a
    check-in time, and when the row of today already has a check-out time;
    otherwise it sets the check-out time of the row to the current instant.
    The status of the row, and of every row, is left as it was. *)
Theorem check_out_cases current_user today now db employee_profile :
  profile_of_user (User.id current_user) db = Some employee_profile ->
  one_per_day db ->
  let pid := EmployeeProfile.id employee_profile in
  let result := check_out current_user today now db in
  ((forall a, In a (attendances db) -> Attendance.key a = (pid, today) ->
      Attendance.check_in_time a = None) -> is_Conflict result) /\
  ((exists a, In a (attendances db) /\ Attendance.key a = (pid, today) /\
              Attendance.check_out_time a <> None) -> is_Conflict result) /\
  (forall a, In a (attendances db) -> Attendance.key a = (pid, today) ->
     Attendance.check_in_time a <> None -> Attendance.check_out_time a = None ->
     let a' := Attendance.set_check_out (Some now) a in
     result = Ok (update_attendance (Attendance.id a)
                    (Attendance.set_check_out (Some now)) db) a' /\
     Attendance.check_out_time a' = Some now /\
     Attendance.status a' = Attendance.status a /\
     attendance_on pid today (store_after result) = Some a') /\
  map Attendance.status (attendances (store_after result))
  = map Attendance.status (attendances db).
Proof.
  intros Hp Hinv pid result. subst result. unfold check_out. rewrite Hp. fold pid.
  split; [|split; [|split]].
  - intros Hnone. destruct (attendance_on pid today db) as [a|] eqn:Ea;
      [|reflexivity].
    destruct (attendance_on_found _ _ _ _ Ea) as [Hin Hk].
    rewrite (Hnone a Hin Hk). reflexivity.
  - intros (a & Hin & Hk & Hco).
    rewrite (attendance_on_unique _ _ _ _ Hinv Hin Hk).
    destruct (Attendance.check_in_time a); [|reflexivity].
    destruct (Attendance.check_out_time a); [reflexivity | congruence].
  - intros a Hin Hk Hci Hco. cbv zeta.
    rewrite (attendance_on_unique _ _ _ _ Hinv Hin Hk), Hco.
    destruct (Attendance.check_in_time a) eqn:Eci; [|congruence].
    repeat split. simpl.
    unfold attendance_on, update_attendance; simpl.
    rewrite find_update_where by reflexivity.
    fold (attendance_on pid today db).
    rewrite (attendance_on_unique _ _ _ _ Hinv Hin Hk); simpl.
    rewrite Z.eqb_refl. reflexivity.
  - destruct (attendance_on pid today db) as [a|]; [|reflexivity].
    destruct (Attendance.check_in_time a); [|reflexivity].
    destruct (Attendance.check_out_time a); [reflexivity|].
    simpl. apply map_update_where. reflexivity.
Qed.

Lemma manual_entry_update attendance_in db p a :
  find (fun p => EmployeeProfile.id p =? am_employee_profile_id attendance_in)
       (employee_profiles db) = Some p ->
  attendance_on (am_employee_profile_id attendance_in) (am_date attendance_in) db
    = Some a ->
  manual_attendance_entry attendance_in db
  = Ok (update_attendance (Attendance.id a) (manual_change attendance_in) db)
       (manual_change attendance_in a).
Proof. intros Hp Ha. unfold manual_attendance_entry. rewrite Hp, Ha. reflexivity. Qed.

Lemma manual_entry_insert attendance_in db p :
  find (fun p => EmployeeProfile.id p =? am_employee_profile_id attendance_in)
       (employee_profiles db) = Some p ->
  attendance_on (am_employee_profile_id attendance_in) (am_date attendance_in) db
    = None ->
  let row := new_attendance_row (am_employee_profile_id attendance_in)
               (am_date attendance_in) (am_check_in_time attendance_in)
               (am_check_out_time attendance_in) (am_status attendance_in)
               (am_notes attendance_in) db in
  manual_attendance_entry attendance_in db
  = Ok (with_attendances (attendances db ++ [row]) db) row.
Proof. intros Hp Ha. unfold manual_attendance_entry. rewrite Hp, Ha. reflexivity. Qed.

(** C6. Manual entry is idempotent: a second call with the same body, on
    the store the first call left, gives the outcome of the first call and
    leaves the store, and so the row of (employee, date), as the first call
    left it. *)
Theorem manual_entry_idempotent (attendance_in : AttendanceManualCreate) (db : Store) :
  let once := manual_attendance_entry attendance_in db in
  let twice := manual_attendance_entry attendance_in (store_after once) in
  twice = once /\
  store_after twice = store_after once /\
  attendance_on (am_employee_profile_id attendance_in) (am_date attendance_in)
                (store_after twice)
  = attendance_on (am_employee_profile_id attendance_in) (am_date attendance_in)
                  (store_after once).
Proof.
  intros once twice.
  assert (E : twice = once); [|rewrite E; auto].
  subst twice once.
  destruct (find (fun p => EmployeeProfile.id p =? am_employee_profile_id attendance_in)
                 (employee_profiles db)) as [p|] eqn:Ep.
  2:{ unfold manual_attendance_entry at 2. rewrite Ep. simpl.
      unfold manual_attendance_entry. rewrite Ep. reflexivity. }
  destruct (attendance_on (am_employee_profile_id attendance_in)
                          (am_date attendance_in) db) as [a|] eqn:Ea.
  - rewrite (manual_entry_update _ _ _ _ Ep Ea). simpl.
    rewrite (manual_entry_update _ _ p (manual_change attendance_in a)).
    + unfold update_attendance; simpl.
      rewrite update_where_twice by reflexivity. reflexivity.
    + exact Ep.
    + unfold attendance_on, update_attendance; simpl.
      rewrite find_update_where by reflexivity.
      fold (attendance_on (am_employee_profile_id attendance_in)
                          (am_date attendance_in) db).
      rewrite Ea; simpl. rewrite Z.eqb_refl. reflexivity.
  - rewrite (manual_entry_insert _ _ _ Ep Ea). cbv zeta. simpl store_after.
    set (row := new_attendance_row _ _ _ _ _ _ db).
    rewrite (manual_entry_update _ _ p row).
    + unfold update_attendance, update_where; simpl.
      rewrite map_app; simpl. rewrite Z.eqb_refl.
      fold (update_where Attendance.id
              (next_id (map Attendance.id (attendances db)))
              (manual_change attendance_in) (attendances db)).
      rewrite update_where_absent
        by (intros r Hr; apply (next_id_not_in Attendance.id); exact Hr).
      reflexivity.
    + exact Ep.
    + unfold attendance_on; simpl.
      unfold attendance_on in Ea. rewrite (find_app_none _ _ _ Ea).
      unfold on_day; simpl. rewrite !Z.eqb_refl. reflexivity.
Qed.

End AttendanceLifecycle.

(** * The correction-request lifecycle *)

Section CorrectionLifecycle.

Import AttendanceCorrectionRequest.

Lemma request_after_review rid pk change (db : Store) r :
  (forall x, id (change x) = id x) ->
  find (fun x => id x =? rid) (correction_requests db) = Some r ->
  id r = pk ->
  find (fun x => id x =? rid) (update_where id pk change (correction_requests db))
  = Some (change r).
Proof.
  intros Hid Hr Hpk.
  rewrite find_update_where by (intros x; rewrite Hid; reflexivity).
  rewrite Hr; simpl. rewrite Hpk, Z.eqb_refl. reflexivity.
Qed.

Lemma not_pending_refused (s : CorrectionRequestStatus) :
  s <> PENDING -> negb (CorrectionRequestStatus_eqb s PENDING) = true.
Proof. destruct s; simpl; congruence. Qed.

(** The outcome of an approval of a pending request, in full. *)
Lemma approve_pending request_id current_user now db r :
  request_by_id request_id db = Some r ->
  status r = PENDING ->
  let db1 :=
    match attendance_by_id (attendance_id r) db with
    | Some a => update_attendance (Attendance.id a)
                  (Attendance.set_times (requested_check_in_time r)
                                        (requested_check_out_time r)) db
    | None => db
    end in
  approve_correction_request request_id current_user now db
  = Ok (with_correction_requests
          (update_where id (id r) (review APPROVED (User.id current_user) now)
                        (correction_requests db1)) db1)
       (review APPROVED (User.id current_user) now r).
Proof.
  intros Hr Hs. unfold approve_correction_request. rewrite Hr, Hs. reflexivity.
Qed.

Lemma reviewed_request_found request_id reviewer now s db1 db r :
  request_by_id request_id db = Some r ->
  correction_requests db1 = correction_requests db ->
  request_by_id request_id
    (with_correction_requests
       (update_where id (id r) (review s reviewer now) (correction_requests db1))
       db1)
  = Some (review s reviewer now r).
Proof.
  intros Hr E. unfold request_by_id; simpl. rewrite E.
  apply request_after_review; [reflexivity | exact Hr | reflexivity].
Qed.

(** C5. A request that is not pending cannot be approved: the call fails
    with Conflict and changes nothing.  The approval of a pending request
    stores it as approved, with the reviewer and the instant of the review,
    and the attendance row it refers to gets the requested check-in and
    check-out times as they are, whatever their order; after that, any
    further approval or rejection of the request fails with Conflict. *)
Theorem approve_only_from_pending request_id current_user now db r :
  request_by_id request_id db = Some r ->
  let result := approve_correction_request request_id current_user now db in
  (status r <> PENDING -> is_Conflict result /\ store_after result = db) /\
  (status r = PENDING ->
   let r' := review APPROVED (User.id current_user) now r in
   exists db',
     result = Ok db' r' /\
     request_by_id request_id db' = Some r' /\
     status r' = APPROVED /\
     reviewed_by_id r' = Some (User.id current_user) /\
     reviewed_at r' = Some now /\
     (forall a, attendance_by_id (attendance_id r) db = Some a ->
        attendance_by_id (attendance_id r) db'
        = Some (Attendance.set_times (requested_check_in_time r)
                                     (requested_check_out_time r) a)) /\
     (forall reviewer later,
        is_Conflict (approve_correction_request request_id reviewer later db')) /\
     (forall comments reviewer later,
        is_Conflict (reject_correction_request request_id comments reviewer
                                               later db'))).
Proof.
  intros Hr result. subst result. split.
  - intros Hs. unfold approve_correction_request.
    rewrite Hr, (not_pending_refused _ Hs). split; reflexivity.
  - intros Hs. cbv zeta. rewrite (approve_pending _ _ _ _ _ Hr Hs). cbv zeta.
    set (db1 := match attendance_by_id (attendance_id r) db with
                | Some a => _ | None => db end).
    assert (E1 : correction_requests db1 = correction_requests db)
      by (subst db1; destruct (attendance_by_id _ db); reflexivity).
    pose proof (reviewed_request_found request_id (User.id current_user) now
                  APPROVED db1 db r Hr E1) as Hfound.
    eexists. split; [reflexivity|]. split; [exact Hfound|].
    repeat (split; [reflexivity|]). split; [|split].
    + intros a Ha. subst db1. rewrite Ha.
      unfold attendance_by_id, update_attendance; simpl.
      rewrite find_update_where by reflexivity.
      fold (attendance_by_id (attendance_id r) db). rewrite Ha; simpl.
      rewrite Z.eqb_refl. reflexivity.
    + intros reviewer later. unfold approve_correction_request.
      rewrite Hfound. reflexivity.
    + intros comments reviewer later. unfold reject_correction_request.
      rewrite Hfound. reflexivity.
Qed.

(** C9. When the attendance row a pending request refers to is not in the
    store, the approval still succeeds: the request is stored as approved
    with the reviewer and the instant of the review, the attendance table
    is left as it was, and no NotFound is raised. *)
Theorem approve_without_attendance request_id current_user now db r :
  request_by_id request_id db = Some r ->
  status r = PENDING ->
  attendance_by_id (attendance_id r) db = None ->
  let result := approve_correction_request request_id current_user now db in
  let r' := review APPROVED (User.id current_user) now r in
  exists db',
    result = Ok db' r' /\
    attendances db' = attendances db /\
    request_by_id request_id db' = Some r' /\
    status r' = APPROVED /\
    reviewed_by_id r' = Some (User.id current_user) /\
    reviewed_at r' = Some now /\
    ~ is_NotFound result.
Proof.
  intros Hr Hs Ha. cbv zeta.
  rewrite (approve_pending _ _ _ _ _ Hr Hs). cbv zeta. rewrite Ha.
  eexists. split; [reflexivity|]. split; [reflexivity|].
  split; [exact (reviewed_request_found _ _ _ _ db db r Hr eq_refl)|].
  repeat (split; [reflexivity|]). discriminate.
Qed.

End CorrectionLifecycle.

(** * Access to [/users/{id}] *)

Section UsersAccess.

Variable get_password_hash : string -> string.

Lemma UserRole_eqb_eq a b : UserRole_eqb a b = true <-> a = b.
Proof. destruct a, b; simpl; split; congruence. Qed.

Lemma refusal_condition current_user user_id :
  negb (User.id current_user =? user_id)
  && negb (UserRole_eqb (User.role current_user) ADMIN) = true
  <-> User.id current_user <> user_id /\ User.role current_user <> ADMIN.
Proof.
  rewrite andb_true_iff, !negb_true_iff.
  rewrite Z.eqb_neq, <- not_true_iff_false, UserRole_eqb_eq. tauto.
Qed.

(** C7, as the code has it. On GET and PUT [/users/{id}], for a user that
    exists, the caller is refused with Forbidden exactly when the caller is
    neither the user in question nor an admin: the owner and an admin pass
    the check, an hr_officer who is not the owner does not. *)
Theorem users_owner_or_admin user_id user_in current_user db db_user :
  user_by_id user_id db = Some db_user ->
  (is_Forbidden (read_user user_id current_user db) <->
     User.id current_user <> user_id /\ User.role current_user <> ADMIN) /\
  (is_Forbidden (update_user get_password_hash user_id user_in current_user db) <->
     User.id current_user <> user_id /\ User.role current_user <> ADMIN) /\
  (User.id current_user = user_id \/ User.role current_user = ADMIN ->
     read_user user_id current_user db = Ok db db_user).
Proof.
  intros Hu. unfold read_user, update_user. rewrite Hu.
  pose proof (refusal_condition current_user user_id) as Hc.
  destruct (negb (User.id current_user =? user_id)
            && negb (UserRole_eqb (User.role current_user) ADMIN)).
  - assert (Hno : User.id current_user <> user_id /\
                  User.role current_user <> ADMIN) by (apply Hc; reflexivity).
    repeat split; tauto.
  - assert (Hyes : ~ (User.id current_user <> user_id /\
                      User.role current_user <> ADMIN))
      by (intros H; apply Hc in H; discriminate).
    split; [|split].
    + split; [discriminate | tauto].
    + split; [|tauto].
      destruct (_ || _); discriminate.
    + reflexivity.
Qed.

End UsersAccess.

(** * Settings rows *)

Section Settings.

Variable get_password_hash : string -> string.

Lemma existsb_false_find {R : Type} (p : R -> bool) (l : list R) :
  existsb p l = false -> find p l = None.
Proof.
  induction l as [|r l IH]; simpl; [reflexivity|].
  destruct (p r); [discriminate | exact IH].
Qed.

(** Inserting the settings row of a user that has none succeeds, and the
    row is then the one found for that user. *)
Lemma insert_user_settings_new uid db :
  settings_of_user uid db = None ->
  let row := UserSettings.default
               (next_id (map UserSettings.id (user_settings db))) uid in
  insert_user_settings uid db
  = Ok (with_user_settings (user_settings db ++ [row]) db) row /\
  settings_of_user uid (with_user_settings (user_settings db ++ [row]) db)
  = Some row.
Proof.
  intros Hnone. cbv zeta. unfold insert_user_settings.
  unfold settings_of_user in *. rewrite (find_none_existsb _ _ Hnone).
  split; [reflexivity|]. simpl.
  rewrite (find_app_none _ _ _ Hnone); simpl. rewrite Z.eqb_refl. reflexivity.
Qed.

Lemma new_user_has_no_settings db :
  settings_owned db ->
  settings_of_user (next_id (map User.id (users db))) db = None.
Proof.
  intros Hown. unfold settings_of_user. apply existsb_false_find.
  apply not_true_iff_false. intros H. apply existsb_exists in H.
  destruct H as (s & Hs & E). apply Z.eqb_eq in E.
  destruct (Hown s Hs) as (u & Hu & Eu).
  apply (next_id_not_in User.id (users db) u Hu). congruence.
Qed.

Lemma store_after_UserSettingsSchema db row :
  store_after (UserSettingsSchema db row) = db.
Proof. unfold UserSettingsSchema. destruct (settings_complete row); reflexivity. Qed.

(** A read that finds no row inserts the default row and returns it. *)
Lemma get_my_settings_new current_user db :
  settings_of_user (User.id current_user) db = None ->
  let row := UserSettings.default
               (next_id (map UserSettings.id (user_settings db)))
               (User.id current_user) in
  get_my_settings current_user db
  = Ok (with_user_settings (user_settings db ++ [row]) db) row /\
  settings_of_user (User.id current_user)
    (with_user_settings (user_settings db ++ [row]) db) = Some row.
Proof.
  intros Hnone. cbv zeta. unfold get_my_settings. rewrite Hnone.
  destruct (insert_user_settings_new _ _ Hnone) as [-> Hfound].
  split; [reflexivity | exact Hfound].
Qed.

(** A read that finds a row answers with it when the row is complete, and
    with the validation error of the response otherwise; the store stays
    as it is. *)
Lemma get_my_settings_found current_user db s :
  settings_of_user (User.id current_user) db = Some s ->
  get_my_settings current_user db
  = if settings_complete s then Ok db s else Raised db ResponseValidationError.
Proof. intros Es. unfold get_my_settings. rewrite Es. reflexivity. Qed.

(** The foreign key of the settings rows is kept by the two handlers that
    insert them. *)
Lemma get_my_settings_owned current_user db :
  In current_user (users db) -> settings_owned db ->
  settings_owned (store_after (get_my_settings current_user db)).
Proof.
  intros Hu Hown.
  destruct (settings_of_user (User.id current_user) db) eqn:Es.
  - rewrite (get_my_settings_found _ _ _ Es).
    destruct (settings_complete t); exact Hown.
  - destruct (get_my_settings_new _ _ Es) as [-> _]. simpl.
    intros s Hs. apply in_app_or in Hs. destruct Hs as [Hs|[<-|[]]].
    + exact (Hown s Hs).
    + exists current_user. split; [exact Hu | reflexivity].
Qed.

Lemma register_user_owned user db :
  settings_owned db ->
  settings_owned (store_after (register_user get_password_hash user db)).
Proof.
  intros Hown. unfold register_user.
  destruct (user_by_email (uc_email user) db); [exact Hown|].
  set (db_user := User.mk _ _ _ _ _).
  set (db1 := with_users (users db ++ [db_user]) db).
  assert (Hnone : settings_of_user (User.id db_user) db1 = None)
    by (apply (new_user_has_no_settings db Hown)).
  destruct (insert_user_settings_new _ _ Hnone) as [-> _]. simpl.
  intros s Hs. apply in_app_or in Hs. destruct Hs as [Hs|[<-|[]]].
  - destruct (Hown s Hs) as (u & Hu & E). exists u.
    split; [apply in_or_app; left; exact Hu | exact E].
  - exists db_user. split; [apply in_or_app; right; left; reflexivity | reflexivity].
Qed.

(** C8.  Settings rows are created lazily with the defaults.
    GET /settings/me does not fail for a caller who has no settings row,
    for whom it inserts and returns a row with the defaults (notifications
    on, theme light, language en), nor for a caller whose row has no NULL in
    a settings column, to whom it returns that row and leaves the store as
    it is; when the stored row holds a NULL the response is refused by the
    validation of the response model.  A registration with an email that is
    not taken, in a store whose settings rows all belong to users, inserts
    the new user and a settings row with the defaults for that user. *)
Theorem settings_created_lazily :
  (forall current_user db,
     ((forall s, settings_of_user (User.id current_user) db = Some s ->
                 settings_complete s = true) ->
      exists db' s, get_my_settings current_user db = Ok db' s /\
                    settings_of_user (User.id current_user) db' = Some s) /\
     (forall s, settings_of_user (User.id current_user) db = Some s ->
        settings_complete s = true ->
        get_my_settings current_user db = Ok db s) /\
     (forall s, settings_of_user (User.id current_user) db = Some s ->
        settings_complete s = false ->
        get_my_settings current_user db = Raised db ResponseValidationError) /\
     (settings_of_user (User.id current_user) db = None ->
        let row := UserSettings.default
                     (next_id (map UserSettings.id (user_settings db)))
                     (User.id current_user) in
        get_my_settings current_user db
        = Ok (with_user_settings (user_settings db ++ [row]) db) row /\
        UserSettings.receive_notifications row = Some true /\
        UserSettings.theme row = Some "light"%string /\
        UserSettings.language row = Some "en"%string)) /\
  (forall user db,
     user_by_email (uc_email user) db = None ->
     settings_owned db ->
     exists db' db_user row,
       register_user get_password_hash user db = Ok db' db_user /\
       In db_user (users db') /\
       User.email db_user = uc_email user /\
       settings_of_user (User.id db_user) db' = Some row /\
       row = UserSettings.default
               (next_id (map UserSettings.id (user_settings db)))
               (User.id db_user) /\
       UserSettings.receive_notifications row = Some true /\
       UserSettings.theme row = Some "light"%string /\
       UserSettings.language row = Some "en"%string).
Proof.
  split.
  - intros current_user db.
    destruct (settings_of_user (User.id current_user) db) as [s|] eqn:Es.
    + pose proof (get_my_settings_found _ _ _ Es) as Hget.
      split; [|split; [|split]].
      * intros Hall. rewrite (Hall s eq_refl) in Hget.
        exists db, s. split; [exact Hget | exact Es].
      * intros s' E Hs'. apply (f_equal (fun o => match o with
                                                  | Some x => x
                                                  | None => s
                                                  end)) in E.
        subst s'. rewrite Hs' in Hget. exact Hget.
      * intros s' E Hs'. apply (f_equal (fun o => match o with
                                                  | Some x => x
                                                  | None => s
                                                  end)) in E.
        subst s'. rewrite Hs' in Hget. exact Hget.
      * discriminate.
    + destruct (get_my_settings_new _ _ Es) as [Hins Hfound].
      split; [|split; [|split]].
      * intros _. eexists _, _. split; [exact Hins | exact Hfound].
      * discriminate.
      * discriminate.
      * intros _. cbv zeta. split; [exact Hins|]. repeat split.
  - intros user db Hfree Hown. unfold register_user. rewrite Hfree.
    set (db_user := User.mk _ _ _ _ _).
    set (db1 := with_users (users db ++ [db_user]) db).
    assert (Hnone : settings_of_user (User.id db_user) db1 = None)
      by (apply (new_user_has_no_settings db Hown)).
    destruct (insert_user_settings_new _ _ Hnone) as [Hins Hfound].
    rewrite Hins.
    eexists _, db_user, _. split; [reflexivity|].
    split; [simpl; apply in_or_app; right; left; reflexivity|].
    split; [reflexivity|]. split; [exact Hfound|].
    repeat split.
Qed.

(** C10. PUT /settings/me creates nothing: for a caller without a settings
    row it fails with NotFound and leaves the store as it was, although
    GET /settings/me on the same store succeeds and creates the row. *)
Theorem update_settings_not_lazy settings_update current_user db :
  settings_of_user (User.id current_user) db = None ->
  update_my_settings settings_update current_user db
  = Raised db (HTTPException 404 "User settings not found") /\
  is_NotFound (update_my_settings settings_update current_user db) /\
  store_after (update_my_settings settings_update current_user db) = db /\
  exists db' s, get_my_settings current_user db = Ok db' s /\
                settings_of_user (User.id current_user) db' = Some s /\
                user_settings db' = user_settings db ++ [s].
Proof.
  intros Hnone. unfold update_my_settings. rewrite Hnone.
  repeat (split; [reflexivity|]).
  destruct (get_my_settings_new _ _ Hnone) as [Hins Hfound].
  eexists _, _. split; [exact Hins|]. split; [exact Hfound | reflexivity].
Qed.

End Settings.

(** * The properties on the sample data *)

Ltac keys_differ :=
  unfold one_per_day; simpl;
  repeat (constructor; [simpl; intuition discriminate|]); constructor.

Ltac within :=
  unfold holds; split; [reflexivity | vm_compute; reflexivity].

(** Beyond [prec] digits an addition is rounded, half to even: the bound on
    the columns in C1 is what keeps the sums exact. *)
Example add_rounds_beyond_prec :
  Dec.add (money (10 ^ 28 - 1)) (money 1) = mkDecimal (10 ^ 27) (-1) /\
  Dec.add (money (10 ^ 28 + 5)) (money 0) = mkDecimal (10 ^ 27) (-1) /\
  Dec.add (money (10 ^ 28 + 15)) (money 0) = mkDecimal (10 ^ 27 + 2) (-1).
Proof. repeat split; vm_compute; reflexivity. Qed.

(** C1 as the specification words it does not hold for every salary
    structure.  With NULL in the housing allowance, which an update whose
    body gives null stores, the function raises TypeError.  With an amount
    beyond 28 digits, which the column does not refuse, the gross salary is
    rounded: 1E+30 (read back as the nearest float) plus 0.01 comes out
    without the cent.  With infinities of both signs among the components
    the function raises InvalidOperation. *)
Lemma calculate_net_salary_not_total :
  calculate_net_salary Sample.without_hra = Error TypeError /\
  (exists calculated,
     calculate_net_salary Sample.beyond_precision = Value calculated /\
     gross_salary calculated = Finite (mkDecimal 1000000000000000019884624839 3) /\
     gross_salary calculated
     <> Finite (money (100000000000000001988462483865600 + 1))) /\
  calculate_net_salary Sample.both_infinities = Error InvalidOperation.
Proof.
  split; [vm_compute; reflexivity|]. split; [|vm_compute; reflexivity].
  eexists. split; [vm_compute; reflexivity|].
  split; [reflexivity | discriminate].
Qed.

(** The walkthrough structure: gross 71000.00, deductions 1700.00, net
    69300.00. *)
Lemma calculate_net_salary_exact_witness :
  holds (Some (SalaryRow.basic_salary Sample.salary)) 5000000 /\
  holds (SalaryRow.hra Sample.salary) 1000000 /\
  holds (SalaryRow.standard_allowance Sample.salary) 500000 /\
  holds (SalaryRow.performance_bonus Sample.salary) 200000 /\
  holds (SalaryRow.lta Sample.salary) 100000 /\
  holds (SalaryRow.fixed_allowance Sample.salary) 300000 /\
  holds (SalaryRow.professional_tax Sample.salary) 20000 /\
  holds (SalaryRow.pf_contribution Sample.salary) 150000 /\
  calculate_net_salary Sample.salary
  = Value {| gross_salary := Finite (money 7100000);
             total_deductions := Finite (money 170000);
             net_salary := Finite (money 6930000) |}.
Proof.
  assert (H1 : holds (Some (SalaryRow.basic_salary Sample.salary)) 5000000) by within.
  assert (H2 : holds (SalaryRow.hra Sample.salary) 1000000) by within.
  assert (H3 : holds (SalaryRow.standard_allowance Sample.salary) 500000) by within.
  assert (H4 : holds (SalaryRow.performance_bonus Sample.salary) 200000) by within.
  assert (H5 : holds (SalaryRow.lta Sample.salary) 100000) by within.
  assert (H6 : holds (SalaryRow.fixed_allowance Sample.salary) 300000) by within.
  assert (H7 : holds (SalaryRow.professional_tax Sample.salary) 20000) by within.
  assert (H8 : holds (SalaryRow.pf_contribution Sample.salary) 150000) by within.
  repeat (split; [assumption|]).
  exact (calculate_net_salary_exact Sample.salary _ _ _ _ _ _ _ _
           H1 H2 H3 H4 H5 H6 H7 H8).
Defined.

(** A negative component goes through the sums like any other amount. *)
Example clawback_net :
  calculate_net_salary Sample.clawback
  = Value {| gross_salary := Finite (money 4249950);
             total_deductions := Finite (money 20000);
             net_salary := Finite (money 4229950) |}.
Proof. vm_compute; reflexivity. Qed.

(** The sample store has one row per day and keeps that through a check-in
    on a new day and a manual entry on day 11. *)
Lemma one_per_day_invariant_witness :
  one_per_day Sample.db /\
  one_per_day (store_after (check_in Sample.alice 13 1309 Sample.db)) /\
  one_per_day (store_after (manual_attendance_entry Sample.manual_body Sample.db)).
Proof.
  assert (H : one_per_day Sample.db) by keys_differ.
  destruct (one_per_day_invariant Sample.db H) as (Hin & Hmanual & _).
  split; [exact H | split; [apply Hin | apply Hmanual]].
Defined.

(** Alice checks in on day 11 (already checked in), day 10 (marked absent)
    and day 13 (no row). *)
Lemma check_in_cases_witness :
  profile_of_user (User.id Sample.alice) Sample.db = Some (EmployeeProfile.mk 1 1) /\
  one_per_day Sample.db /\
  is_Conflict (check_in Sample.alice 11 1120 Sample.db) /\
  check_in Sample.alice 10 1009 Sample.db
  = Ok (update_attendance 1 (Attendance.set_check_in (Some 1009) PRESENT) Sample.db)
       (Attendance.mk 1 1 10 (Some 1009) None PRESENT None) /\
  check_in Sample.alice 13 1309 Sample.db
  = Ok (with_attendances
          [Sample.day10; Sample.day11; Sample.day12;
           Attendance.mk 4 1 13 (Some 1309) None PRESENT None] Sample.db)
       (Attendance.mk 4 1 13 (Some 1309) None PRESENT None).
Proof.
  assert (Hp : profile_of_user (User.id Sample.alice) Sample.db
               = Some (EmployeeProfile.mk 1 1)) by reflexivity.
  assert (H : one_per_day Sample.db) by keys_differ.
  split; [exact Hp | split; [exact H|]].
  split; [|split].
  - pose proof (check_in_cases Sample.alice 11 1120 Sample.db _ Hp H) as T.
    cbv zeta in T. destruct T as (T & _). apply T.
    exists Sample.day11. split; [simpl; tauto | split; [reflexivity | discriminate]].
  - pose proof (check_in_cases Sample.alice 10 1009 Sample.db _ Hp H) as T.
    cbv zeta in T. destruct T as (_ & T & _).
    apply (T Sample.day10); [simpl; tauto | reflexivity | reflexivity].
  - pose proof (check_in_cases Sample.alice 13 1309 Sample.db _ Hp H) as T.
    cbv zeta in T. destruct T as (_ & _ & T). apply T.
    intros a [<-|[<-|[<-|[]]]]; discriminate.
Defined.

(** Alice checks out on day 10 (never checked in), day 12 (already checked
    out) and day 11. *)
Lemma check_out_cases_witness :
  profile_of_user (User.id Sample.alice) Sample.db = Some (EmployeeProfile.mk 1 1) /\
  one_per_day Sample.db /\
  is_Conflict (check_out Sample.alice 10 1017 Sample.db) /\
  is_Conflict (check_out Sample.alice 12 1218 Sample.db) /\
  check_out Sample.alice 11 1117 Sample.db
  = Ok (update_attendance 2 (Attendance.set_check_out (Some 1117)) Sample.db)
       (Attendance.mk 2 1 11 (Some 1109) (Some 1117) PRESENT None).
Proof.
  assert (Hp : profile_of_user (User.id Sample.alice) Sample.db
               = Some (EmployeeProfile.mk 1 1)) by reflexivity.
  assert (H : one_per_day Sample.db) by keys_differ.
  split; [exact Hp | split; [exact H|]].
  split; [|split].
  - pose proof (check_out_cases Sample.alice 10 1017 Sample.db _ Hp H) as T.
    cbv zeta in T. destruct T as (T & _). apply T.
    intros a [<-|[<-|[<-|[]]]]; intros E; try discriminate E; reflexivity.
  - pose proof (check_out_cases Sample.alice 12 1218 Sample.db _ Hp H) as T.
    cbv zeta in T. destruct T as (_ & T & _). apply T.
    exists Sample.day12. split; [simpl; tauto | split; [reflexivity | discriminate]].
  - pose proof (check_out_cases Sample.alice 11 1117 Sample.db _ Hp H) as T.
    cbv zeta in T. destruct T as (_ & _ & T & _).
    apply (T Sample.day11); [simpl; tauto | reflexivity | discriminate | reflexivity].
Defined.

(** Approving request 1 copies a check-out that lies before the check-in;
    a second approval is refused. *)
Lemma approve_only_from_pending_witness :
  request_by_id 1 Sample.db = Some Sample.request1 /\
  exists db',
    store_after (approve_correction_request 1 Sample.admin 2000 Sample.db) = db' /\
    attendance_by_id 1 db'
    = Some (Attendance.mk 1 1 10 (Some 1017) (Some 1009) ABSENT None) /\
    is_Conflict (approve_correction_request 1 Sample.officer 2001 db').
Proof.
  assert (Hr : request_by_id 1 Sample.db = Some Sample.request1) by reflexivity.
  split; [exact Hr|].
  pose proof (approve_only_from_pending 1 Sample.admin 2000 Sample.db _ Hr) as T.
  cbv zeta in T. destruct T as (_ & T).
  destruct (T eq_refl) as (db' & E & _ & _ & _ & _ & Ha & Hagain & _).
  exists db'. split; [rewrite E; reflexivity|].
  split; [exact (Ha Sample.day10 eq_refl) | apply Hagain].
Defined.

(** Request 2 points at attendance 99, which is not in the store. *)
Lemma approve_without_attendance_witness :
  request_by_id 2 Sample.db = Some Sample.request2 /\
  AttendanceCorrectionRequest.status Sample.request2 = PENDING /\
  attendance_by_id 99 Sample.db = None /\
  exists db',
    approve_correction_request 2 Sample.admin 2000 Sample.db
    = Ok db' (AttendanceCorrectionRequest.mk 2 99 1 "Wrong day" None (Some 1317)
                APPROVED (Some 3) (Some 2000) None) /\
    attendances db' = [Sample.day10; Sample.day11; Sample.day12].
Proof.
  repeat (split; [reflexivity|]).
  destruct (approve_without_attendance 2 Sample.admin 2000 Sample.db
              Sample.request2 eq_refl eq_refl eq_refl) as (db' & E & Ha & _).
  exists db'. split; [exact E | exact Ha].
Defined.

(** Two identical manual entries on day 11. *)
Lemma manual_entry_idempotent_example :
  store_after (manual_attendance_entry Sample.manual_body
                 (store_after (manual_attendance_entry Sample.manual_body Sample.db)))
  = with_attendances
      [Sample.day10;
       Attendance.mk 2 1 11 (Some 1108) (Some 1118) HALF_DAY (Some "Manual entry"%string);
       Sample.day12] Sample.db.
Proof. reflexivity. Qed.

(** C7 as the specification words it does not hold: an hr_officer, a
    privileged role, who is not the owner is refused with Forbidden on GET
    and on PUT [/users/1]. *)
Lemma hr_officer_refused_on_users :
  User.role Sample.officer = HR_OFFICER /\
  User.id Sample.officer <> 1 /\
  user_by_id 1 Sample.db = Some Sample.alice /\
  read_user 1 Sample.officer Sample.db
  = Raised Sample.db
      (HTTPException 403 "Not authorized to access this user's profile") /\
  update_user (fun p => p) 1 (mkUserUpdate Unset Unset (Given (Some false)) Unset)
              Sample.officer Sample.db
  = Raised Sample.db (HTTPException 403 "Not authorized to update this user").
Proof. repeat split; try reflexivity. discriminate. Qed.

(** On [/users/1]: the officer is refused, the admin and Alice pass. *)
Lemma users_owner_or_admin_witness :
  user_by_id 1 Sample.db = Some Sample.alice /\
  is_Forbidden (read_user 1 Sample.officer Sample.db) /\
  read_user 1 Sample.admin Sample.db = Ok Sample.db Sample.alice /\
  read_user 1 Sample.alice Sample.db = Ok Sample.db Sample.alice.
Proof.
  assert (Hu : user_by_id 1 Sample.db = Some Sample.alice) by reflexivity.
  split; [exact Hu|].
  split; [|split].
  - apply (users_owner_or_admin (fun p => p) 1 (mkUserUpdate Unset Unset Unset Unset)
             Sample.officer Sample.db Sample.alice Hu).
    split; discriminate.
  - apply (users_owner_or_admin (fun p => p) 1 (mkUserUpdate Unset Unset Unset Unset)
             Sample.admin Sample.db Sample.alice Hu).
    right; reflexivity.
  - apply (users_owner_or_admin (fun p => p) 1 (mkUserUpdate Unset Unset Unset Unset)
             Sample.alice Sample.db Sample.alice Hu).
    left; reflexivity.
Defined.

Lemma sample_settings_owned : settings_owned Sample.db.
Proof.
  intros s [<-|[]]. exists Sample.alice. split; [simpl; tauto | reflexivity].
Defined.

(** C8 as the specification words it does not hold for every active
    user.  Alice stores NULL as her theme with PUT /settings/me (the body
    may give null, and the row is written before the response is
    validated); from then on GET /settings/me finds her row and fails on
    it. *)
Lemma get_my_settings_fails_on_null :
  User.is_active Sample.alice = Some true /\
  exists db1,
    store_after (update_my_settings (mkUserSettingsUpdate Unset (Given None) Unset)
                   Sample.alice Sample.db) = db1 /\
    settings_of_user (User.id Sample.alice) db1
    = Some (UserSettings.mk 1 1 (Some false) None (Some "en"%string)) /\
    get_my_settings Sample.alice db1 = Raised db1 ResponseValidationError /\
    forall db' row, get_my_settings Sample.alice db1 <> Ok db' row.
Proof.
  split; [reflexivity|]. eexists. split; [reflexivity|].
  split; [reflexivity|]. split; [reflexivity|]. discriminate.
Qed.

(** Alice has a settings row, the officer gets one on first read, and Bob
    gets one when he registers. *)
Lemma settings_created_lazily_witness :
  user_by_email (uc_email Sample.newcomer) Sample.db = None /\
  settings_owned Sample.db /\
  settings_of_user (User.id Sample.alice) Sample.db = Some Sample.alice_settings /\
  settings_complete Sample.alice_settings = true /\
  get_my_settings Sample.alice Sample.db = Ok Sample.db Sample.alice_settings /\
  get_my_settings Sample.officer Sample.db
  = Ok (with_user_settings [Sample.alice_settings; UserSettings.default 2 2] Sample.db)
       (UserSettings.default 2 2) /\
  exists db' db_user row,
    register_user (fun p => p) Sample.newcomer Sample.db = Ok db' db_user /\
    In db_user (users db') /\
    User.email db_user = "bob@x.com"%string /\
    settings_of_user (User.id db_user) db' = Some row /\
    row = UserSettings.default 2 (User.id db_user) /\
    UserSettings.receive_notifications row = Some true /\
    UserSettings.theme row = Some "light"%string /\
    UserSettings.language row = Some "en"%string.
Proof.
  destruct (settings_created_lazily (fun p => p)) as (Hget & Hreg).
  split; [reflexivity | split; [exact sample_settings_owned|]].
  split; [reflexivity | split; [reflexivity|]].
  split; [|split].
  - apply (Hget Sample.alice Sample.db); reflexivity.
  - apply (Hget Sample.officer Sample.db). reflexivity.
  - exact (Hreg Sample.newcomer Sample.db eq_refl sample_settings_owned).
Defined.

Example register_newcomer :
  exists db',
    register_user (fun p => p) Sample.newcomer Sample.db
    = Ok db' (User.mk 4 "bob@x.com" "password" EMPLOYEE (Some true)) /\
    user_settings db' = [Sample.alice_settings; UserSettings.default 2 4] /\
    activity_logs db'
    = [ActivityLog.mk 1 4 "User registration"
         (Some "User bob@x.com registered."%string)].
Proof. eexists. repeat split. Qed.

(** The officer has no settings row: the update is refused, the read
    creates the row. *)
Lemma update_settings_not_lazy_witness :
  settings_of_user (User.id Sample.officer) Sample.db = None /\
  update_my_settings (mkUserSettingsUpdate (Given (Some false)) Unset Unset)
                     Sample.officer Sample.db
  = Raised Sample.db (HTTPException 404 "User settings not found") /\
  exists db' s, get_my_settings Sample.officer Sample.db = Ok db' s /\
                settings_of_user (User.id Sample.officer) db' = Some s.
Proof.
  split; [reflexivity|].
  destruct (update_settings_not_lazy
              (mkUserSettingsUpdate (Given (Some false)) Unset Unset)
              Sample.officer Sample.db eq_refl)
    as (E & _ & _ & db' & s & Hget & Hfound & _).
  split; [exact E|]. exists db', s. split; [exact Hget | exact Hfound].
Defined.

(** * The attendance lifecycle, continued *)

Section AttendanceSequences.

Lemma profile_by_id_of_user uid db p :
  profile_of_user uid db = Some p ->
  exists q, find (fun x => EmployeeProfile.id x =? EmployeeProfile.id p)
                 (employee_profiles db) = Some q.
Proof.
  unfold profile_of_user. intros H. apply find_some in H. destruct H as [Hin _].
  destruct (find (fun x => EmployeeProfile.id x =? EmployeeProfile.id p)
                 (employee_profiles db)) as [q|] eqn:E; [exists q; reflexivity|].
  pose proof (find_none _ _ E p Hin) as Hn. simpl in Hn.
  rewrite Z.eqb_refl in Hn. discriminate.
Qed.

(** What a successful manual entry leaves under its key. *)
Lemma manual_entry_effect attendance_in db p :
  find (fun x => EmployeeProfile.id x =? am_employee_profile_id attendance_in)
       (employee_profiles db) = Some p ->
  exists db' row,
    manual_attendance_entry attendance_in db = Ok db' row /\
    attendance_on (am_employee_profile_id attendance_in) (am_date attendance_in) db'
    = Some row /\
    Attendance.key row
    = (am_employee_profile_id attendance_in, am_date attendance_in) /\
    Attendance.check_in_time row = am_check_in_time attendance_in /\
    Attendance.check_out_time row = am_check_out_time attendance_in /\
    Attendance.status row = am_status attendance_in /\
    Attendance.notes row = am_notes attendance_in /\
    employee_profiles db' = employee_profiles db /\
    (List.length (attendances db') <= S (List.length (attendances db)))%nat.
Proof.
  intros Hp.
  destruct (attendance_on (am_employee_profile_id attendance_in)
                          (am_date attendance_in) db) as [a|] eqn:Ea.
  - rewrite (manual_entry_update _ _ _ _ Hp Ea).
    destruct (attendance_on_found _ _ _ _ Ea) as [_ Hk].
    eexists _, _. split; [reflexivity|]. split.
    + unfold attendance_on, update_attendance; simpl.
      rewrite find_update_where by reflexivity.
      unfold attendance_on in Ea. rewrite Ea; simpl.
      rewrite Z.eqb_refl. reflexivity.
    + split; [exact Hk|]. repeat (split; [reflexivity|]).
      simpl. unfold update_where. rewrite length_map. lia.
  - rewrite (manual_entry_insert _ _ _ Hp Ea). cbv zeta.
    eexists _, _. split; [reflexivity|]. split.
    + unfold attendance_on; simpl. unfold attendance_on in Ea.
      rewrite (find_app_none _ _ _ Ea). unfold on_day; simpl.
      rewrite !Z.eqb_refl. reflexivity.
    + repeat (split; [reflexivity|]).
      simpl. rewrite length_app; simpl. lia.
Qed.

(** X1. A day in the life of an attendance row: from a store without a row
    of the caller for today, check-in followed by check-out gives a present
    row with both times; after that a second check-out is refused with
    "Already checked out for today" and a second check-in with "Already
    checked in for today", and neither changes the store. *)
Theorem check_in_then_check_out current_user today t1 t2 t3 db employee_profile :
  profile_of_user (User.id current_user) db = Some employee_profile ->
  attendance_on (EmployeeProfile.id employee_profile) today db = None ->
  let row1 := new_attendance_row (EmployeeProfile.id employee_profile) today
                (Some t1) None PRESENT None db in
  let row2 := Attendance.set_check_out (Some t2) row1 in
  let db1 := store_after (check_in current_user today t1 db) in
  let db2 := store_after (check_out current_user today t2 db1) in
  check_in current_user today t1 db = Ok db1 row1 /\
  check_out current_user today t2 db1 = Ok db2 row2 /\
  attendance_on (EmployeeProfile.id employee_profile) today db2 = Some row2 /\
  Attendance.check_in_time row2 = Some t1 /\
  Attendance.check_out_time row2 = Some t2 /\
  Attendance.status row2 = PRESENT /\
  check_out current_user today t3 db2
  = Raised db2 (HTTPException 400 "Already checked out for today") /\
  check_in current_user today t3 db2
  = Raised db2 (HTTPException 400 "Already checked in for today").
Proof.
  intros Hp Hnone. cbv zeta.
  set (pid := EmployeeProfile.id employee_profile) in *.
  set (row1 := new_attendance_row pid today (Some t1) None PRESENT None db).
  assert (E1 : check_in current_user today t1 db
               = Ok (with_attendances (attendances db ++ [row1]) db) row1).
  { unfold check_in. rewrite Hp. fold pid. rewrite Hnone. reflexivity. }
  rewrite E1. simpl store_after.
  set (db1 := with_attendances (attendances db ++ [row1]) db).
  assert (Hp1 : profile_of_user (User.id current_user) db1 = Some employee_profile)
    by exact Hp.
  assert (Hon1 : attendance_on pid today db1 = Some row1).
  { unfold attendance_on, db1; simpl. unfold attendance_on in Hnone.
    rewrite (find_app_none _ _ _ Hnone). unfold on_day, row1; simpl.
    rewrite !Z.eqb_refl. reflexivity. }
  assert (E2 : check_out current_user today t2 db1
               = Ok (update_attendance (Attendance.id row1)
                       (Attendance.set_check_out (Some t2)) db1)
                    (Attendance.set_check_out (Some t2) row1)).
  { unfold check_out. rewrite Hp1. fold pid. rewrite Hon1. reflexivity. }
  rewrite E2. simpl store_after.
  set (db2 := update_attendance (Attendance.id row1)
                (Attendance.set_check_out (Some t2)) db1).
  assert (Hp2 : profile_of_user (User.id current_user) db2 = Some employee_profile)
    by exact Hp.
  assert (Hon2 : attendance_on pid today db2
                 = Some (Attendance.set_check_out (Some t2) row1)).
  { unfold attendance_on, db2, update_attendance; simpl.
    rewrite find_update_where by reflexivity.
    unfold attendance_on in Hon1. simpl in Hon1. rewrite Hon1; simpl.
    rewrite Z.eqb_refl. reflexivity. }
  repeat (split; [reflexivity|]). split; [exact Hon2|].
  repeat (split; [reflexivity|]).
  change (update_attendance (next_id (map Attendance.id (attendances db)))
            (Attendance.set_check_out (Some t2)) db1) with db2.
  split.
  - unfold check_out. rewrite Hp2. fold pid. rewrite Hon2. reflexivity.
  - unfold check_in. rewrite Hp2. fold pid. rewrite Hon2. reflexivity.
Qed.

(** X2. Manual entry is an upsert: for an existing profile it always
    succeeds, and afterwards the row found for (employee, date) carries
    exactly the check-in time, check-out time, status and notes of the body,
    whatever the row held before; the table grows by at most one row. *)
Theorem manual_entry_then_lookup attendance_in db p :
  find (fun x => EmployeeProfile.id x =? am_employee_profile_id attendance_in)
       (employee_profiles db) = Some p ->
  exists db' row,
    manual_attendance_entry attendance_in db = Ok db' row /\
    attendance_on (am_employee_profile_id attendance_in) (am_date attendance_in) db'
    = Some row /\
    Attendance.check_in_time row = am_check_in_time attendance_in /\
    Attendance.check_out_time row = am_check_out_time attendance_in /\
    Attendance.status row = am_status attendance_in /\
    Attendance.notes row = am_notes attendance_in /\
    (List.length (attendances db') <= S (List.length (attendances db)))%nat.
Proof.
  intros Hp.
  destruct (manual_entry_effect attendance_in db p Hp)
    as (db' & row & E & Hon & _ & Hci & Hco & Hs & Hn & _ & Hlen).
  exists db', row. tauto.
Qed.

(** X3. Manual entry and check-in on the same day: after a manual entry
    without a check-in time (say, marked absent) the employee can still
    check in, which turns the row to present with the timestamp and keeps
    the check-out time and notes of the manual entry; after a manual entry
    with a check-in time, check-in is refused with Conflict. *)
Theorem manual_entry_then_check_in attendance_in current_user now db employee_profile :
  profile_of_user (User.id current_user) db = Some employee_profile ->
  am_employee_profile_id attendance_in = EmployeeProfile.id employee_profile ->
  let db1 := store_after (manual_attendance_entry attendance_in db) in
  let result := check_in current_user (am_date attendance_in) now db1 in
  (am_check_in_time attendance_in = None ->
     exists db2 row,
       result = Ok db2 row /\
       Attendance.check_in_time row = Some now /\
       Attendance.status row = PRESENT /\
       Attendance.check_out_time row = am_check_out_time attendance_in /\
       Attendance.notes row = am_notes attendance_in /\
       List.length (attendances db2) = List.length (attendances db1)) /\
  (am_check_in_time attendance_in <> None ->
     result = Raised db1 (HTTPException 400 "Already checked in for today")).
Proof.
  intros Hp Hpid. cbv zeta.
  destruct (profile_by_id_of_user _ _ _ Hp) as (q & Hq). rewrite <- Hpid in Hq.
  destruct (manual_entry_effect attendance_in db q Hq)
    as (db1 & row & E & Hon & _ & Hci & Hco & Hs & Hn & Hprof & _).
  rewrite E. simpl store_after.
  assert (Hp1 : profile_of_user (User.id current_user) db1 = Some employee_profile)
    by (unfold profile_of_user; rewrite Hprof; exact Hp).
  unfold check_in. rewrite Hp1, <- Hpid, Hon. split.
  - intros Hnone. rewrite Hci, Hnone.
    eexists _, _. split; [reflexivity|]. simpl.
    repeat (split; [first [reflexivity | assumption]|]).
    unfold update_where. apply length_map.
  - intros Hsome. rewrite Hci.
    destruct (am_check_in_time attendance_in); [reflexivity | congruence].
Qed.

End AttendanceSequences.

(** * Listings of attendance rows *)

Section Pages.

Context {R : Type}.

Lemma sql_page_value (skip limit : Z) (rows : list R) :
  int64 skip = true -> int64 limit = true ->
  sql_page skip limit rows
  = Value (if limit <? 0 then skipn (Z.to_nat skip) rows
           else firstn (Z.to_nat limit) (skipn (Z.to_nat skip) rows)).
Proof. intros Hs Hl. unfold sql_page. rewrite Hs, Hl. reflexivity. Qed.

Lemma sql_page_error (skip limit : Z) (rows : list R) :
  int64 skip && int64 limit = false ->
  sql_page skip limit rows = Error OverflowError.
Proof. intros H. unfold sql_page. rewrite H. reflexivity. Qed.

Lemma Value_injective {A : Type} (x y : A) : Value x = Value y -> x = y.
Proof.
  intros H.
  exact (f_equal (fun v => match v with Value a => a | Error _ => x end) H).
Qed.

Lemma sql_page_inv (skip limit : Z) (rows page : list R) :
  sql_page skip limit rows = Value page ->
  int64 skip = true /\ int64 limit = true /\
  page = (if limit <? 0 then skipn (Z.to_nat skip) rows
          else firstn (Z.to_nat limit) (skipn (Z.to_nat skip) rows)).
Proof.
  unfold sql_page. destruct (int64 skip); [|discriminate].
  destruct (int64 limit); [|discriminate]. simpl.
  intros H. apply Value_injective in H. auto.
Qed.

Lemma sql_page_In (skip limit : Z) (rows page : list R) (x : R) :
  sql_page skip limit rows = Value page -> In x page -> In x rows.
Proof.
  intros H Hx. apply sql_page_inv in H. destruct H as (_ & _ & ->).
  assert (Hskip : forall y, In y (skipn (Z.to_nat skip) rows) -> In y rows).
  { intros y Hy. rewrite <- (firstn_skipn (Z.to_nat skip) rows).
    apply in_or_app. right. exact Hy. }
  destruct (limit <? 0); [exact (Hskip x Hx)|].
  apply Hskip. rewrite <- (firstn_skipn (Z.to_nat limit) (skipn _ rows)).
  apply in_or_app. left. exact Hx.
Qed.

Lemma sql_page_length (skip limit : Z) (rows page : list R) :
  sql_page skip limit rows = Value page ->
  0 <= limit -> (List.length page <= Z.to_nat limit)%nat.
Proof.
  intros H Hn. apply sql_page_inv in H. destruct H as (_ & _ & ->).
  destruct (Z.ltb_spec limit 0) as [Hneg|_]; [lia | apply firstn_le_length].
Qed.

Lemma sql_page_all (limit : Z) (rows : list R) :
  int64 limit = true ->
  Z.of_nat (List.length rows) <= limit ->
  sql_page 0 limit rows = Value rows.
Proof.
  intros Hi Hl. rewrite sql_page_value by (exact Hi || reflexivity). simpl.
  destruct (Z.ltb_spec limit 0) as [_|Hpos]; [reflexivity|].
  rewrite firstn_all2 by lia. reflexivity.
Qed.

Lemma StronglySorted_skipn (ord : R -> R -> Prop) (n : nat) (rows : list R) :
  StronglySorted ord rows -> StronglySorted ord (skipn n rows).
Proof.
  revert rows. induction n as [|n IH]; intros rows H; [exact H|].
  destruct rows as [|x rows]; [constructor|]. simpl.
  apply IH. apply StronglySorted_inv in H. tauto.
Qed.

Lemma StronglySorted_firstn (ord : R -> R -> Prop) (n : nat) (rows : list R) :
  StronglySorted ord rows -> StronglySorted ord (firstn n rows).
Proof.
  revert rows. induction n as [|n IH]; intros rows H; [constructor|].
  destruct rows as [|x rows]; [constructor|]. simpl.
  apply StronglySorted_inv in H. destruct H as [Hs Hall].
  constructor; [apply IH; exact Hs|].
  rewrite Forall_forall in *. intros y Hy. apply Hall.
  rewrite <- (firstn_skipn n rows). apply in_or_app. left. exact Hy.
Qed.

Lemma sql_page_sorted (ord : R -> R -> Prop) (skip limit : Z) (rows page : list R) :
  StronglySorted ord rows ->
  sql_page skip limit rows = Value page ->
  StronglySorted ord page.
Proof.
  intros Hs H. apply sql_page_inv in H. destruct H as (_ & _ & ->).
  destruct (limit <? 0); [|apply StronglySorted_firstn];
    apply StronglySorted_skipn; exact Hs.
Qed.

End Pages.

Section AttendanceListings.

Lemma insert_date_desc_perm a rows :
  Permutation (insert_date_desc a rows) (a :: rows).
Proof.
  induction rows as [|b rows IH]; simpl; [reflexivity|].
  destruct (index_le b a); [reflexivity|].
  rewrite IH. apply perm_swap.
Qed.

Lemma order_by_date_desc_perm rows : Permutation (order_by_date_desc rows) rows.
Proof.
  induction rows as [|a rows IH]; simpl; [reflexivity|].
  rewrite insert_date_desc_perm. apply perm_skip. exact IH.
Qed.

Lemma insert_date_asc_perm a rows :
  Permutation (insert_date_asc a rows) (a :: rows).
Proof.
  induction rows as [|b rows IH]; simpl; [reflexivity|].
  destruct (index_le a b); [reflexivity|].
  rewrite IH. apply perm_swap.
Qed.

Lemma in_index_order_perm rows : Permutation (in_index_order rows) rows.
Proof.
  induction rows as [|a rows IH]; simpl; [reflexivity|].
  rewrite insert_date_asc_perm. apply perm_skip. exact IH.
Qed.

Lemma in_index_order_In rows a : In a (in_index_order rows) <-> In a rows.
Proof.
  split; apply Permutation_in;
    [apply in_index_order_perm | symmetry; apply in_index_order_perm].
Qed.

(** In the order of the index a row does not stand after one of a later
    date. *)
Lemma index_le_date a b : index_le a b = true -> Attendance.date a <= Attendance.date b.
Proof.
  unfold index_le. rewrite orb_true_iff, andb_true_iff, Z.ltb_lt, Z.eqb_eq. lia.
Qed.

Lemma index_gt_date a b : index_le a b = false -> Attendance.date b <= Attendance.date a.
Proof.
  unfold index_le. rewrite orb_false_iff, andb_false_iff, Z.ltb_ge.
  intros [H _]. exact H.
Qed.

Lemma insert_date_desc_sorted a rows :
  Sorted newer_first rows -> Sorted newer_first (insert_date_desc a rows).
Proof.
  induction rows as [|b rows IH]; simpl; intros H.
  - repeat constructor.
  - destruct (index_le b a) eqn:Hba.
    + constructor; [exact H | constructor; exact (index_le_date _ _ Hba)].
    + apply index_gt_date in Hba. apply Sorted_inv in H. destruct H as [Hs Hhd].
      constructor; [apply IH; exact Hs|].
      destruct rows as [|c rows]; simpl.
      * constructor. exact Hba.
      * destruct (index_le c a).
        -- constructor. exact Hba.
        -- constructor. apply HdRel_inv in Hhd. exact Hhd.
Qed.

Lemma order_by_date_desc_sorted rows :
  StronglySorted newer_first (order_by_date_desc rows).
Proof.
  apply Sorted_StronglySorted.
  - intros a b c Hab Hbc. unfold newer_first in *. lia.
  - induction rows as [|a rows IH]; simpl; [constructor|].
    apply insert_date_desc_sorted. exact IH.
Qed.

Lemma order_by_date_desc_In rows a : In a (order_by_date_desc rows) <-> In a rows.
Proof.
  split; apply Permutation_in;
    [apply order_by_date_desc_perm | symmetry; apply order_by_date_desc_perm].
Qed.

(** X4. The attendance history of an employee.  When skip and limit are
    64-bit numbers the handler answers with a page: every row of it is a
    row of the caller's profile, it runs from the newest date to the
    oldest, and a non-negative limit bounds its length; with offset 0 and a
    limit of at least the size of the table it holds all rows of the
    profile.  When skip or limit is not a 64-bit number the query raises
    OverflowError. *)
Theorem my_attendance_history_page skip limit current_user db employee_profile :
  profile_of_user (User.id current_user) db = Some employee_profile ->
  (int64 skip = true -> int64 limit = true ->
   exists rows,
    get_my_attendance_history skip limit current_user db = Value (Ok db rows) /\
    (forall a, In a rows ->
       In a (attendances db) /\
       Attendance.employee_profile_id a = EmployeeProfile.id employee_profile) /\
    StronglySorted newer_first rows /\
    (0 <= limit -> (List.length rows <= Z.to_nat limit)%nat)) /\
  (int64 skip && int64 limit = false ->
   get_my_attendance_history skip limit current_user db = Error OverflowError) /\
  (int64 limit = true ->
   Z.of_nat (List.length (attendances db)) <= limit ->
   exists rows,
     get_my_attendance_history 0 limit current_user db = Value (Ok db rows) /\
     Permutation rows
       (filter (fun a => Attendance.employee_profile_id a
                         =? EmployeeProfile.id employee_profile)
               (attendances db))).
Proof.
  intros Hp. unfold get_my_attendance_history. rewrite Hp. split; [|split].
  - intros Hs Hl.
    destruct (sql_page skip limit _) as [page|e] eqn:Epage.
    + exists page. split; [reflexivity|]. split; [|split].
      * intros a Ha. apply (sql_page_In _ _ _ _ _ Epage) in Ha.
        apply order_by_date_desc_In, filter_In in Ha.
        destruct Ha as [Hin E]. apply Z.eqb_eq in E. tauto.
      * exact (sql_page_sorted _ _ _ _ _ (order_by_date_desc_sorted _) Epage).
      * exact (sql_page_length _ _ _ _ Epage).
    + rewrite sql_page_value in Epage by assumption. discriminate.
  - intros Hout. rewrite sql_page_error by exact Hout. reflexivity.
  - intros Hi Hl. rewrite sql_page_all.
    + eexists. split; [reflexivity | apply order_by_date_desc_perm].
    + exact Hi.
    + rewrite (Permutation_length (order_by_date_desc_perm _)).
      pose proof (filter_length_le
                    (fun a => Attendance.employee_profile_id a
                              =? EmployeeProfile.id employee_profile)
                    (attendances db)).
      lia.
Qed.

(** X5. The administrators' listing: a filter on profile 0 is no filter
    (the handler tests the id for truth), so that with offset 0 and a
    64-bit limit of at least the size of the table every row of the table
    is listed; any other id restricts the page to rows of that profile, and
    the answer is then the one the employee with that profile gets as
    their own history.  The listing is answered when skip and limit are
    64-bit numbers, and raises OverflowError when one of them is not. *)
Theorem all_attendance_filter skip limit db :
  get_all_attendance_records skip limit (Some 0) db
  = get_all_attendance_records skip limit None db /\
  (int64 limit = true ->
   Z.of_nat (List.length (attendances db)) <= limit ->
   exists rows,
     get_all_attendance_records 0 limit (Some 0) db = Value rows /\
     Permutation rows (attendances db)) /\
  (forall pid rows a, pid <> 0 ->
     get_all_attendance_records skip limit (Some pid) db = Value rows ->
     In a rows ->
     In a (attendances db) /\ Attendance.employee_profile_id a = pid) /\
  (forall current_user employee_profile,
     profile_of_user (User.id current_user) db = Some employee_profile ->
     EmployeeProfile.id employee_profile <> 0 ->
     get_my_attendance_history skip limit current_user db
     = match get_all_attendance_records skip limit
               (Some (EmployeeProfile.id employee_profile)) db with
       | Value rows => Value (Ok db rows)
       | Error e => Error e
       end) /\
  (forall employee_profile_id,
     int64 skip = true -> int64 limit = true ->
     exists rows,
       get_all_attendance_records skip limit employee_profile_id db = Value rows /\
       StronglySorted newer_first rows) /\
  (forall employee_profile_id,
     int64 skip && int64 limit = false ->
     get_all_attendance_records skip limit employee_profile_id db
     = Error OverflowError).
Proof.
  split; [reflexivity|]. split; [|split; [|split; [|split]]].
  - intros Hi Hl. unfold get_all_attendance_records. simpl.
    rewrite sql_page_all.
    + eexists. split; [reflexivity | apply order_by_date_desc_perm].
    + exact Hi.
    + rewrite (Permutation_length (order_by_date_desc_perm _)). exact Hl.
  - intros pid rows a Hpid Hrows Ha. unfold get_all_attendance_records in Hrows.
    apply Z.eqb_neq in Hpid. rewrite Hpid in Hrows.
    apply (sql_page_In _ _ _ _ _ Hrows) in Ha.
    apply order_by_date_desc_In, filter_In in Ha.
    destruct Ha as [Hin E]. apply Z.eqb_eq in E. tauto.
  - intros current_user p Hp Hpid.
    unfold get_my_attendance_history, get_all_attendance_records.
    rewrite Hp. apply Z.eqb_neq in Hpid. rewrite Hpid. reflexivity.
  - intros pid Hs Hl. unfold get_all_attendance_records.
    destruct (sql_page skip limit _) as [page|e] eqn:Epage.
    + exists page. split; [reflexivity|].
      exact (sql_page_sorted _ _ _ _ _ (order_by_date_desc_sorted _) Epage).
    + rewrite sql_page_value in Epage by assumption. discriminate.
  - intros pid Hout. unfold get_all_attendance_records.
    rewrite sql_page_error by exact Hout. reflexivity.
Qed.

Lemma week_split d :
  exists q r, d + 6 = 7 * q + r /\ 0 <= r < 7 /\ weekday d = r.
Proof.
  exists ((d + 6) / 7), ((d + 6) mod 7). split; [|split].
  - apply Z.div_mod. lia.
  - apply Z.mod_pos_bound. lia.
  - reflexivity.
Qed.

Lemma weekday_of_monday d : weekday (d - weekday d) = 0.
Proof.
  destruct (week_split d) as (q & r & E & Hr & ->).
  unfold weekday. replace (d - r + 6) with (q * 7) by lia.
  apply Z.mod_mul. lia.
Qed.

Lemma date_plus_value d k :
  1 <= d + k <= date_max -> date_plus d k = Value (d + k).
Proof.
  intros [H1 H2]. unfold date_plus.
  apply Z.leb_le in H1, H2. rewrite H1, H2. reflexivity.
Qed.

Lemma date_plus_error d k :
  date_max < d + k -> date_plus d k = Error OverflowError.
Proof.
  intros H. unfold date_plus. apply Z.leb_gt in H. rewrite H.
  rewrite andb_false_r. reflexivity.
Qed.

(** X6. The weekly listing covers Monday to Sunday of the week of the given
    day: the window starts on a Monday, contains the day, and a row is
    listed exactly when the daily listing of one of its seven days lists it;
    every day of the same week gives the same listing. *)
Theorem weekly_is_monday_to_sunday d db :
  valid_date d -> d - weekday d + 6 <= date_max ->
  exists rows,
    get_weekly_attendance d db = Value rows /\
    weekday (d - weekday d) = 0 /\
    d - weekday d <= d <= d - weekday d + 6 /\
    (forall a, In a rows <->
       exists day, d - weekday d <= day <= d - weekday d + 6 /\
                   In a (get_daily_attendance day db)) /\
    (forall d', d' - weekday d' = d - weekday d ->
       get_weekly_attendance d' db = Value rows).
Proof.
  intros [Hlo Hhi] Hend.
  destruct (week_split d) as (q & r & E & Hr & Hw).
  assert (Hstart : date_plus d (- weekday d) = Value (d - weekday d)).
  { replace (d - weekday d) with (d + - weekday d) by lia.
    apply date_plus_value. unfold date_max in *. lia. }
  assert (Hstop : date_plus (d - weekday d) 6 = Value (d - weekday d + 6)).
  { apply date_plus_value. unfold date_max in *. lia. }
  eexists. split; [|split; [|split; [|split]]].
  - unfold get_weekly_attendance. rewrite Hstart, Hstop. reflexivity.
  - apply weekday_of_monday.
  - lia.
  - intros a. rewrite in_index_order_In, filter_In, andb_true_iff, !Z.leb_le.
    split.
    + intros (Hin & H1 & H2). exists (Attendance.date a). split; [lia|].
      unfold get_daily_attendance. apply filter_In. split; [exact Hin|].
      apply Z.eqb_refl.
    + intros (day & Hday & Ha). unfold get_daily_attendance in Ha.
      apply filter_In in Ha. destruct Ha as [Hin Eday].
      apply Z.eqb_eq in Eday. split; [exact Hin | lia].
  - intros d' Hsame. unfold get_weekly_attendance.
    replace (date_plus d' (- weekday d')) with (Value (d - weekday d)).
    + rewrite Hstop. reflexivity.
    + symmetry. rewrite <- Hsame.
      replace (d' - weekday d') with (d' + - weekday d') by lia.
      apply date_plus_value. unfold date_max in *. lia.
Qed.

(** X7. The weekly listing of a valid day fails exactly in the last week of
    the calendar: from Monday 9999-12-27 on, the Sunday that ends the week
    lies beyond [date.max] and computing it raises OverflowError. *)
Theorem weekly_overflows_in_last_week d db :
  valid_date d ->
  (get_weekly_attendance d db = Error OverflowError <-> date_max - 4 <= d).
Proof.
  intros [Hlo Hhi].
  destruct (week_split d) as (q & r & E & Hr & Hw).
  assert (Hstart : date_plus d (- weekday d) = Value (d - weekday d)).
  { replace (d - weekday d) with (d + - weekday d) by lia.
    apply date_plus_value. unfold date_max in *. lia. }
  unfold get_weekly_attendance. rewrite Hstart. split.
  - intros H. destruct (Z.le_gt_cases (date_max - 4) d) as [|Hlt]; [assumption|].
    rewrite date_plus_value in H; [discriminate|].
    unfold date_max in *. lia.
  - intros H. rewrite date_plus_error; [reflexivity|].
    unfold date_max in *. lia.
Qed.

(** X8. A check-in that succeeds shows in the daily listing of that day:
    the row the handler returns is listed, present, with the check-in
    time. *)
Theorem check_in_shows_in_daily current_user today now db db' row :
  check_in current_user today now db = Ok db' row ->
  In row (get_daily_attendance today db') /\
  Attendance.status row = PRESENT /\
  Attendance.check_in_time row = Some now.
Proof.
  unfold check_in.
  destruct (profile_of_user _ db) as [p|]; [|discriminate].
  destruct (attendance_on _ today db) as [a|] eqn:Ea.
  - destruct (Attendance.check_in_time a); [discriminate|].
    intros H. inversion H; subst. clear H.
    destruct (attendance_on_found _ _ _ _ Ea) as [Hin Hk].
    split; [|split; reflexivity].
    unfold get_daily_attendance. apply filter_In. split.
    + simpl. unfold update_where. apply in_map_iff. exists a.
      rewrite Z.eqb_refl. split; [reflexivity | exact Hin].
    + simpl. inversion Hk. apply Z.eqb_refl.
  - intros H. inversion H; subst. clear H.
    split; [|split; reflexivity].
    unfold get_daily_attendance. apply filter_In. split.
    + simpl. apply in_or_app. right. left. reflexivity.
    + simpl. apply Z.eqb_refl.
Qed.

End AttendanceListings.

(** * Correction requests, continued *)

Section CorrectionRequests.

Import AttendanceCorrectionRequest.

Lemma fold_max_nonneg (ids : list Z) : 0 <= fold_right Z.max 0 ids.
Proof. induction ids as [|x ids IH]; simpl; lia. Qed.

Lemma fold_max_app (ids : list Z) (x : Z) :
  fold_right Z.max 0 (ids ++ [x]) = Z.max (fold_right Z.max 0 ids) (Z.max x 0).
Proof. induction ids as [|y ids IH]; simpl; [lia | rewrite IH; lia]. Qed.

(** The key drawn after an insert is the next one. *)
Lemma next_id_after_insert (ids : list Z) :
  next_id (ids ++ [next_id ids]) = next_id ids + 1.
Proof.
  unfold next_id. rewrite fold_max_app.
  pose proof (fold_max_nonneg ids). lia.
Qed.

Lemma find_fresh_id {T : Type} (id_of : T -> Z) (l : list T) :
  find (fun x => id_of x =? next_id (map id_of l)) l = None.
Proof.
  destruct (find _ l) as [x|] eqn:E; [|reflexivity].
  apply find_some in E. destruct E as [Hin Hx]. apply Z.eqb_eq in Hx.
  destruct (next_id_not_in id_of l x Hin Hx).
Qed.

(** The row a correction request is stored as. *)
Lemma create_request_row request_in current_user db a p :
  attendance_by_id (rc_attendance_id request_in) db = Some a ->
  find (fun x => EmployeeProfile.id x =? Attendance.employee_profile_id a)
       (employee_profiles db) = Some p ->
  EmployeeProfile.user_id p = User.id current_user ->
  let r := mk (next_id (map id (correction_requests db)))
              (rc_attendance_id request_in) (User.id current_user)
              (rc_reason request_in) (rc_requested_check_in_time request_in)
              (rc_requested_check_out_time request_in) PENDING None None None in
  create_attendance_correction_request request_in current_user db
  = Value (Ok (with_correction_requests (correction_requests db ++ [r]) db) r).
Proof.
  intros Ha Hp Hown. unfold create_attendance_correction_request.
  rewrite Ha, Hp, Hown, Z.eqb_refl. reflexivity.
Qed.

(** X9. A correction request can be filed by the owner of the attendance
    row only: any other caller, an admin included, is refused with
    Forbidden and nothing is stored.  The owner's request is stored as
    pending, in the caller's name and unreviewed; it is found under its id
    and appended to the pending listing and to the caller's own listing,
    and the attendance table is untouched. *)
Theorem correction_request_owner_only request_in current_user db a p :
  attendance_by_id (rc_attendance_id request_in) db = Some a ->
  find (fun x => EmployeeProfile.id x =? Attendance.employee_profile_id a)
       (employee_profiles db) = Some p ->
  let result := create_attendance_correction_request request_in current_user db in
  (EmployeeProfile.user_id p <> User.id current_user ->
     result = Value (Raised db (HTTPException 403
       "Not authorized to request correction for this attendance record"))) /\
  (EmployeeProfile.user_id p = User.id current_user ->
     exists db' r,
       result = Value (Ok db' r) /\
       status r = PENDING /\
       requested_by_id r = User.id current_user /\
       attendance_id r = rc_attendance_id request_in /\
       reviewed_by_id r = None /\ reviewed_at r = None /\
       request_by_id (id r) db' = Some r /\
       get_pending_correction_requests db'
       = get_pending_correction_requests db ++ [r] /\
       get_my_correction_requests current_user db'
       = get_my_correction_requests current_user db ++ [r] /\
       attendances db' = attendances db).
Proof.
  intros Ha Hp. cbv zeta. split.
  - intros Hne. unfold create_attendance_correction_request.
    rewrite Ha, Hp. apply Z.eqb_neq in Hne. rewrite Hne. reflexivity.
  - intros Hown. rewrite (create_request_row _ _ _ _ _ Ha Hp Hown). cbv zeta.
    eexists _, _. split; [reflexivity|].
    repeat (split; [reflexivity|]). split; [|split; [|split]].
    + unfold request_by_id; simpl.
      rewrite (find_app_none _ _ _ (find_fresh_id id (correction_requests db))).
      simpl. rewrite Z.eqb_refl. reflexivity.
    + unfold get_pending_correction_requests; simpl.
      rewrite filter_app. reflexivity.
    + unfold get_my_correction_requests; simpl.
      rewrite filter_app; simpl. rewrite Z.eqb_refl. reflexivity.
    + reflexivity.
Qed.

(** X10. Nothing stops a second request on the same attendance row: filing
    the same request twice succeeds twice and leaves two pending requests
    for that row, with consecutive ids. *)
Theorem duplicate_requests_allowed request_in current_user db a p :
  attendance_by_id (rc_attendance_id request_in) db = Some a ->
  find (fun x => EmployeeProfile.id x =? Attendance.employee_profile_id a)
       (employee_profiles db) = Some p ->
  EmployeeProfile.user_id p = User.id current_user ->
  exists db1 r1 db2 r2,
    create_attendance_correction_request request_in current_user db
    = Value (Ok db1 r1) /\
    create_attendance_correction_request request_in current_user db1
    = Value (Ok db2 r2) /\
    id r2 = id r1 + 1 /\
    attendance_id r1 = attendance_id r2 /\
    get_pending_correction_requests db2
    = get_pending_correction_requests db ++ [r1; r2].
Proof.
  intros Ha Hp Hown.
  pose proof (create_request_row _ _ _ _ _ Ha Hp Hown) as E1. cbv zeta in E1.
  set (r1 := mk _ _ _ _ _ _ _ _ _ _) in E1.
  set (db1 := with_correction_requests _ db) in E1.
  pose proof (create_request_row request_in current_user db1 a p Ha Hp Hown) as E2.
  cbv zeta in E2.
  eexists db1, r1, _, _. split; [exact E1|]. split; [exact E2|].
  split; [|split; [reflexivity|]].
  - simpl. rewrite map_app; simpl. apply next_id_after_insert.
  - unfold get_pending_correction_requests; simpl.
    rewrite !filter_app; simpl. rewrite <- app_assoc. reflexivity.
Qed.

(** X11. A request that is not pending cannot be rejected: the call fails
    with Conflict and changes nothing.  Rejecting a pending request stores
    it as rejected with the reviewer, the instant and the comments of the
    body, leaves the attendance table as it was, and any later approval or
    rejection of the request fails with Conflict. *)
Theorem reject_only_from_pending request_id comments current_user now db r :
  request_by_id request_id db = Some r ->
  let result := reject_correction_request request_id comments current_user now db in
  (status r <> PENDING -> is_Conflict result /\ store_after result = db) /\
  (status r = PENDING ->
   exists db' r',
     result = Ok db' r' /\
     request_by_id request_id db' = Some r' /\
     status r' = REJECTED /\
     reviewed_by_id r' = Some (User.id current_user) /\
     reviewed_at r' = Some now /\
     reviewer_comments r' = comments /\
     attendances db' = attendances db /\
     (forall reviewer later,
        is_Conflict (approve_correction_request request_id reviewer later db')) /\
     (forall comments' reviewer later,
        is_Conflict (reject_correction_request request_id comments' reviewer
                                               later db'))).
Proof.
  intros Hr. cbv zeta. split.
  - intros Hs. unfold reject_correction_request.
    rewrite Hr, (not_pending_refused _ Hs). split; reflexivity.
  - intros Hs. unfold reject_correction_request at 1. rewrite Hr, Hs. simpl negb.
    cbv iota zeta.
    set (change := fun x => set_reviewer_comments comments
                              (review REJECTED (User.id current_user) now x)).
    assert (Hfound : request_by_id request_id
              (with_correction_requests
                 (update_where id (id r) change (correction_requests db)) db)
            = Some (change r)).
    { unfold request_by_id; simpl.
      apply request_after_review; [reflexivity | exact Hr | reflexivity]. }
    eexists _, _. split; [reflexivity|]. split; [exact Hfound|].
    repeat (split; [reflexivity|]). split.
    + intros reviewer later. unfold approve_correction_request.
      rewrite Hfound. reflexivity.
    + intros comments' reviewer later. unfold reject_correction_request.
      rewrite Hfound. reflexivity.
Qed.

Lemma pending_after_review (pk : Z) (change : t -> t) (l : list t) :
  (forall x, CorrectionRequestStatus_eqb (status (change x)) PENDING = false) ->
  filter (fun x => CorrectionRequestStatus_eqb (status x) PENDING)
         (update_where id pk change l)
  = filter (fun x => negb (id x =? pk))
           (filter (fun x => CorrectionRequestStatus_eqb (status x) PENDING) l).
Proof.
  intros Hch. induction l as [|x l IH]; simpl; [reflexivity|].
  destruct (id x =? pk) eqn:E.
  - rewrite Hch.
    destruct (CorrectionRequestStatus_eqb (status x) PENDING); simpl;
      [rewrite E; simpl|]; exact IH.
  - destruct (CorrectionRequestStatus_eqb (status x) PENDING); simpl;
      [rewrite E; simpl; f_equal|]; exact IH.
Qed.

(** X12. A review takes the request off the pending listing and nothing
    else: after the approval or the rejection of a pending request, the
    pending listing is the former one without the requests of that id. *)
Theorem review_leaves_pending_listing request_id comments current_user now db r :
  request_by_id request_id db = Some r ->
  status r = PENDING ->
  get_pending_correction_requests
    (store_after (approve_correction_request request_id current_user now db))
  = filter (fun x => negb (id x =? request_id))
           (get_pending_correction_requests db) /\
  get_pending_correction_requests
    (store_after (reject_correction_request request_id comments current_user
                                            now db))
  = filter (fun x => negb (id x =? request_id))
           (get_pending_correction_requests db).
Proof.
  intros Hr Hs.
  assert (Hid : id r = request_id).
  { unfold request_by_id in Hr. apply find_some in Hr.
    destruct Hr as [_ E]. apply Z.eqb_eq in E. exact E. }
  split.
  - rewrite (approve_pending _ _ _ _ _ Hr Hs). cbv zeta.
    unfold get_pending_correction_requests; simpl.
    replace (correction_requests
               match attendance_by_id (attendance_id r) db with
               | Some a0 => _ | None => db end)
      with (correction_requests db)
      by (destruct (attendance_by_id (attendance_id r) db); reflexivity).
    rewrite Hid. apply pending_after_review. reflexivity.
  - unfold reject_correction_request. rewrite Hr, Hs. simpl.
    unfold get_pending_correction_requests; simpl.
    rewrite Hid. apply pending_after_review. reflexivity.
Qed.

End CorrectionRequests.

(** * Accounts: registration, login and updates *)

Section Accounts.

Variable get_password_hash : string -> string.
Variable verify_password : string -> string -> bool.
Variable create_access_token : string -> string.

Lemma insert_user_settings_users uid db :
  users (store_after (insert_user_settings uid db)) = users db.
Proof.
  unfold insert_user_settings. destruct (existsb _ _); reflexivity.
Qed.

(** The store a registration leaves when the email is free. *)
Lemma register_user_ok user db :
  user_by_email (uc_email user) db = None ->
  settings_owned db ->
  let db_user :=
    User.mk (next_id (map User.id (users db))) (uc_email user)
            (get_password_hash (uc_password user)) (uc_role user)
            (Some (uc_is_active user)) in
  let row := UserSettings.default
               (next_id (map UserSettings.id (user_settings db)))
               (User.id db_user) in
  register_user get_password_hash user db
  = Ok (log_activity
          (with_user_settings (user_settings db ++ [row])
             (with_users (users db ++ [db_user]) db))
          (User.id db_user) "User registration"
          (Some ("User " ++ uc_email user ++ " registered.")%string))
       db_user.
Proof.
  intros Hfree Hown. cbv zeta. unfold register_user. rewrite Hfree.
  set (db_user := User.mk _ _ _ _ _).
  set (db1 := with_users (users db ++ [db_user]) db).
  assert (Hnone : settings_of_user (User.id db_user) db1 = None)
    by (apply (new_user_has_no_settings db Hown)).
  destruct (insert_user_settings_new _ _ Hnone) as [-> _]. reflexivity.
Qed.

Lemma user_by_email_appended e (u : User.t) (db : Store) :
  user_by_email e db = None -> User.email u = e ->
  find (fun x => String.eqb (User.email x) e) (users db ++ [u]) = Some u.
Proof.
  intros Hfree He. unfold user_by_email in Hfree.
  rewrite (find_app_none _ _ _ Hfree). rewrite He, String.eqb_refl. reflexivity.
Qed.

(** X13. Registration and login round trip: when checking a password
    against its own hash succeeds, a user registered with a free email,
    whatever the role and the active flag of the body, can log in with the
    same credentials and receives the bearer token made for that email;
    registration and login add the user and one activity row each, and a
    password that does not verify is refused with 401 and changes nothing. *)
Theorem register_then_login user db :
  user_by_email (uc_email user) db = None ->
  settings_owned db ->
  verify_password (uc_password user) (get_password_hash (uc_password user)) = true ->
  exists db1 u db2,
    register_user get_password_hash user db = Ok db1 u /\
    login_for_access_token verify_password create_access_token
      (uc_email user) (uc_password user) db1
    = Ok db2 (mkToken (create_access_token (uc_email user)) "bearer") /\
    users db2 = users db ++ [u] /\
    List.length (activity_logs db2) = S (S (List.length (activity_logs db))) /\
    (forall wrong,
       verify_password wrong (get_password_hash (uc_password user)) = false ->
       login_for_access_token verify_password create_access_token
         (uc_email user) wrong db1
       = Raised db1 (HTTPException 401 "Incorrect email or password")).
Proof.
  intros Hfree Hown Hverify.
  rewrite (register_user_ok user db Hfree Hown). cbv zeta.
  set (u := User.mk _ _ _ _ _).
  set (db1 := log_activity _ _ _ _).
  assert (Hfound : user_by_email (uc_email user) db1 = Some u)
    by (apply (user_by_email_appended _ u db Hfree); reflexivity).
  exists db1, u. eexists. split; [reflexivity|]. split; [|split; [|split]].
  - unfold login_for_access_token, authenticate_user.
    rewrite Hfound. simpl User.hashed_password. rewrite Hverify. reflexivity.
  - reflexivity.
  - simpl. rewrite !length_app. simpl. lia.
  - intros wrong Hwrong. unfold login_for_access_token, authenticate_user.
    rewrite Hfound. simpl User.hashed_password. rewrite Hwrong. reflexivity.
Qed.

(** X14. An email registers once: after a registration with a free email,
    every further registration and every creation by an admin with that
    email is refused with "Email already registered" and changes nothing. *)
Theorem register_twice user db :
  user_by_email (uc_email user) db = None ->
  settings_owned db ->
  exists db1 u,
    register_user get_password_hash user db = Ok db1 u /\
    forall again, uc_email again = uc_email user ->
      register_user get_password_hash again db1
      = Raised db1 (HTTPException 400 "Email already registered") /\
      create_user get_password_hash again db1
      = Raised db1 (HTTPException 400 "Email already registered").
Proof.
  intros Hfree Hown.
  rewrite (register_user_ok user db Hfree Hown). cbv zeta.
  set (u := User.mk _ _ _ _ _).
  set (db1 := log_activity _ _ _ _).
  assert (Hfound : user_by_email (uc_email user) db1 = Some u)
    by (apply (user_by_email_appended _ u db Hfree); reflexivity).
  exists db1, u. split; [reflexivity|].
  intros again Hsame. unfold register_user, create_user.
  rewrite Hsame, Hfound. split; reflexivity.
Qed.

Lemma NoDup_map_injective {T K : Type} (f : T -> K) (l : list T) (x y : T) :
  NoDup (map f l) -> In x l -> In y l -> f x = f y -> x = y.
Proof.
  induction l as [|z l IH]; simpl; [contradiction|].
  intros Hnd Hx Hy E. inversion Hnd as [|? ? Hnotin Hnd']; subst.
  destruct Hx as [->|Hx], Hy as [->|Hy].
  - reflexivity.
  - exfalso. apply Hnotin. rewrite E. apply in_map. exact Hy.
  - exfalso. apply Hnotin. rewrite <- E. apply in_map. exact Hx.
  - apply IH; assumption.
Qed.

Lemma NoDup_snoc {K : Type} (l : list K) (x : K) :
  NoDup l -> ~ In x l -> NoDup (l ++ [x]).
Proof.
  intros Hl Hx. apply NoDup_app; [exact Hl | repeat constructor; simpl; tauto |].
  intros k Hk [<-|[]]. exact (Hx Hk).
Qed.

(** Giving the rows of one key a new email keeps the emails distinct when
    no other row has that email. *)
Lemma emails_after_update pk (change : User.t -> User.t) e (l : list User.t) :
  NoDup (map User.id l) -> NoDup (map User.email l) ->
  (forall u, User.email (change u) = e) ->
  (forall u, In u l -> User.id u <> pk -> User.email u <> e) ->
  NoDup (map User.email (update_where User.id pk change l)).
Proof.
  intros Hids Hemails He Hother. induction l as [|u l IH]; simpl; [constructor|].
  inversion Hids as [|? ? Hid_notin Hids']; subst.
  inversion Hemails as [|? ? Hemail_notin Hemails']; subst.
  destruct (Z.eqb_spec (User.id u) pk) as [Epk|Npk].
  - rewrite update_where_absent.
    + constructor; [|exact Hemails']. rewrite He. intros Hin.
      apply in_map_iff in Hin. destruct Hin as (x & Ex & Hx).
      apply (Hother x (or_intror Hx)); [|exact Ex].
      intros Eid. apply Hid_notin. rewrite Epk, <- Eid. apply in_map. exact Hx.
    + intros x Hx Eid. apply Hid_notin. rewrite Epk, <- Eid. apply in_map. exact Hx.
  - constructor.
    + intros Hin. apply in_map_iff in Hin. destruct Hin as (y & Ey & Hy).
      unfold update_where in Hy. apply in_map_iff in Hy.
      destruct Hy as (x & <- & Hx).
      destruct (User.id x =? pk).
      * rewrite He in Ey. apply (Hother u (or_introl eq_refl) Npk). congruence.
      * apply Hemail_notin. rewrite <- Ey. apply in_map. exact Hx.
    + apply IH; [exact Hids' | exact Hemails' |].
      intros x Hx. apply Hother. right. exact Hx.
Qed.

Lemma register_keeps_uniqueness user db :
  emails_unique db -> user_ids_unique db ->
  emails_unique (store_after (register_user get_password_hash user db)) /\
  user_ids_unique (store_after (register_user get_password_hash user db)).
Proof.
  intros He Hi. unfold register_user.
  destruct (user_by_email (uc_email user) db) eqn:Hfree; [split; assumption|].
  set (db_user := User.mk _ _ _ _ _).
  set (db1 := with_users (users db ++ [db_user]) db).
  assert (Hu : users (store_after
                 match insert_user_settings (User.id db_user) db1 with
                 | Ok db2 _ =>
                     Ok (log_activity db2 (User.id db_user) "User registration"
                           (Some ("User " ++ User.email db_user ++ " registered.")%string))
                        db_user
                 | Raised db2 e => Raised db2 e
                 end) = users db ++ [db_user]).
  { pose proof (insert_user_settings_users (User.id db_user) db1) as H.
    destruct (insert_user_settings (User.id db_user) db1); exact H. }
  unfold emails_unique, user_ids_unique. rewrite Hu, !map_app. simpl. split.
  - apply NoDup_snoc; [exact He|]. intros Hin.
    apply in_map_iff in Hin. destruct Hin as (x & Ex & Hx).
    unfold user_by_email in Hfree. pose proof (find_none _ _ Hfree x Hx) as Hn.
    simpl in Hn. rewrite Ex, String.eqb_refl in Hn. discriminate.
  - apply NoDup_snoc; [exact Hi|]. intros Hin.
    apply in_map_iff in Hin. destruct Hin as (x & Ex & Hx).
    exact (next_id_not_in User.id (users db) x Hx Ex).
Qed.

Lemma create_keeps_uniqueness user db :
  emails_unique db -> user_ids_unique db ->
  emails_unique (store_after (create_user get_password_hash user db)) /\
  user_ids_unique (store_after (create_user get_password_hash user db)).
Proof.
  intros He Hi. unfold create_user.
  destruct (user_by_email (uc_email user) db) eqn:Hfree; [split; assumption|].
  set (db_user := User.mk _ _ _ _ _).
  set (db1 := with_users (users db ++ [db_user]) db).
  assert (Hu : users (store_after
                 match insert_user_settings (User.id db_user) db1 with
                 | Ok db2 _ => Ok db2 db_user
                 | Raised db2 e => Raised db2 e
                 end) = users db ++ [db_user]).
  { pose proof (insert_user_settings_users (User.id db_user) db1) as H.
    destruct (insert_user_settings (User.id db_user) db1); exact H. }
  unfold emails_unique, user_ids_unique. rewrite Hu, !map_app. simpl. split.
  - apply NoDup_snoc; [exact He|]. intros Hin.
    apply in_map_iff in Hin. destruct Hin as (x & Ex & Hx).
    unfold user_by_email in Hfree. pose proof (find_none _ _ Hfree x Hx) as Hn.
    simpl in Hn. rewrite Ex, String.eqb_refl in Hn. discriminate.
  - apply NoDup_snoc; [exact Hi|]. intros Hin.
    apply in_map_iff in Hin. destruct Hin as (x & Ex & Hx).
    exact (next_id_not_in User.id (users db) x Hx Ex).
Qed.

Lemma update_keeps_uniqueness user_id user_in current_user db :
  emails_unique db -> user_ids_unique db ->
  emails_unique (store_after
    (update_user get_password_hash user_id user_in current_user db)) /\
  user_ids_unique (store_after
    (update_user get_password_hash user_id user_in current_user db)).
Proof.
  intros He Hi. unfold update_user.
  destruct (user_by_id user_id db) as [db_user|]; [|split; assumption].
  destruct (negb _ && negb _); [split; assumption|].
  match goal with |- context [update_where User.id _ ?c _] => set (change := c) end.
  destruct (sets_null (uu_email user_in) || sets_null (uu_role user_in)
            || existsb _ (users db)) eqn:Echeck; [split; assumption|].
  apply orb_false_iff in Echeck. destruct Echeck as [_ Hfree].
  simpl. unfold emails_unique, user_ids_unique; simpl. split.
  - destruct (uu_email user_in) as [|[v|]] eqn:Eemail.
    + rewrite map_update_where; [exact He|].
      intros r. unfold change; try rewrite Eemail; reflexivity.
    + apply (emails_after_update _ _ v); [exact Hi | exact He | |].
      * intros u. unfold change; try rewrite Eemail; reflexivity.
      * intros u Hu Hne Eu.
        apply not_true_iff_false in Hfree. apply Hfree.
        apply existsb_exists. exists u. split; [exact Hu|].
        apply Z.eqb_neq in Hne. rewrite Hne. simpl.
        rewrite Eu. apply String.eqb_refl.
    + rewrite map_update_where; [exact He|].
      intros r. unfold change; try rewrite Eemail; reflexivity.
  - rewrite map_update_where; [exact Hi | reflexivity].
Qed.

(** X15. Emails and ids of users stay unique: from a store in which no two
    users share an email or an id, registration, creation by an admin and
    an update of a user each leave such a store, whether they succeed or
    fail. *)
Theorem users_stay_unique db :
  emails_unique db -> user_ids_unique db ->
  (forall user,
     emails_unique (store_after (register_user get_password_hash user db)) /\
     user_ids_unique (store_after (register_user get_password_hash user db))) /\
  (forall user,
     emails_unique (store_after (create_user get_password_hash user db)) /\
     user_ids_unique (store_after (create_user get_password_hash user db))) /\
  (forall user_id user_in current_user,
     emails_unique (store_after
       (update_user get_password_hash user_id user_in current_user db)) /\
     user_ids_unique (store_after
       (update_user get_password_hash user_id user_in current_user db))).
Proof.
  intros He Hi. split; [|split]; intros.
  - apply register_keeps_uniqueness; assumption.
  - apply create_keeps_uniqueness; assumption.
  - apply update_keeps_uniqueness; assumption.
Qed.

(** X16. An update that takes the email of another user is refused by the
    UNIQUE constraint: the commit raises IntegrityError and the store is
    left as it was. *)
Theorem update_to_taken_email user_id current_user db db_user other e user_in :
  user_by_id user_id db = Some db_user ->
  User.id current_user = user_id \/ User.role current_user = ADMIN ->
  In other (users db) -> User.id other <> User.id db_user ->
  User.email other = e ->
  uu_email user_in = Given (Some e) ->
  update_user get_password_hash user_id user_in current_user db
  = Raised db IntegrityError.
Proof.
  intros Hu Hallowed Hother Hne Heq Hbody. unfold update_user. rewrite Hu.
  assert (Hpass : negb (User.id current_user =? user_id)
                  && negb (UserRole_eqb (User.role current_user) ADMIN) = false).
  { destruct Hallowed as [->| ->].
    - rewrite Z.eqb_refl. reflexivity.
    - simpl. apply andb_false_r. }
  rewrite Hpass.
  match goal with |- (if ?c then _ else _) = _ => assert (Hc : c = true) end.
  { apply orb_true_iff. right. apply existsb_exists. exists other.
    split; [exact Hother|]. apply Z.eqb_neq in Hne. rewrite Hne. simpl.
    rewrite Hbody. simpl. rewrite Heq. apply String.eqb_refl. }
  rewrite Hc. reflexivity.
Qed.

(** X17. The check on PUT [/users/{id}] does not look at the fields that
    change: in a store with unique emails, any caller may set their own
    role to admin; the update succeeds, the stored user is then an admin,
    and as such passes the check of GET [/users/{id}] for every user. *)
Theorem own_role_can_be_changed current_user db db_user :
  user_by_id (User.id current_user) db = Some db_user ->
  emails_unique db ->
  exists db' promoted,
    update_user get_password_hash (User.id current_user)
      (mkUserUpdate Unset (Given (Some ADMIN)) Unset Unset) current_user db
    = Ok db' promoted /\
    User.role promoted = ADMIN /\
    User.id promoted = User.id current_user /\
    user_by_id (User.id current_user) db' = Some promoted /\
    (forall other o, user_by_id other db' = Some o ->
       read_user other promoted db' = Ok db' o).
Proof.
  intros Hu He. unfold update_user. rewrite Hu, Z.eqb_refl. simpl negb.
  cbv iota. simpl sets_null. simpl orb.
  assert (Hin : In db_user (users db) /\ User.id db_user = User.id current_user).
  { unfold user_by_id in Hu. apply find_some in Hu.
    destruct Hu as [Hin E]. apply Z.eqb_eq in E. tauto. }
  destruct Hin as [Hin Hid].
  match goal with |- context [existsb ?f (users db)] =>
    assert (Hfree : existsb f (users db) = false) end.
  { apply not_true_iff_false. intros H. apply existsb_exists in H.
    destruct H as (u & Hu' & Hc). apply andb_true_iff in Hc.
    destruct Hc as [Hne Heq]. simpl in Heq. apply String.eqb_eq in Heq.
    rewrite (NoDup_map_injective User.email (users db) u db_user He Hu' Hin Heq)
      in Hne.
    rewrite Z.eqb_refl in Hne. discriminate. }
  rewrite Hfree. eexists _, _. split; [reflexivity|].
  split; [reflexivity|]. split; [exact Hid|]. split.
  - unfold user_by_id; simpl. rewrite find_update_where by reflexivity.
    unfold user_by_id in Hu. rewrite Hu. simpl. rewrite Z.eqb_refl. reflexivity.
  - intros other o Ho. unfold read_user. rewrite Ho. simpl.
    rewrite andb_false_r. reflexivity.
Qed.

(** X24. The activity log only grows: registration and login leave the
    former rows in place and append at most one row, a logout appends
    exactly one row in the name of the caller, and a refused login appends
    nothing. *)
Theorem activity_log_append_only db :
  (forall user,
     exists tail,
       activity_logs (store_after (register_user get_password_hash user db))
       = activity_logs db ++ tail /\ (List.length tail <= 1)%nat) /\
  (forall username password,
     exists tail,
       activity_logs (store_after
         (login_for_access_token verify_password create_access_token
            username password db))
       = activity_logs db ++ tail /\ (List.length tail <= 1)%nat /\
       (is_Unauthorized
          (login_for_access_token verify_password create_access_token
             username password db) -> tail = [])) /\
  (forall current_user,
     exists row,
       activity_logs (store_after (logout current_user db))
       = activity_logs db ++ [row] /\
       ActivityLog.user_id row = User.id current_user /\
       ActivityLog.id row = next_id (map ActivityLog.id (activity_logs db))).
Proof.
  split; [|split].
  - intros user. unfold register_user.
    destruct (user_by_email (uc_email user) db).
    + exists []. rewrite app_nil_r. split; [reflexivity | simpl; lia].
    + unfold insert_user_settings. destruct (existsb _ _).
      * exists []. rewrite app_nil_r. split; [reflexivity | simpl; lia].
      * eexists [_]. split; [reflexivity | simpl; lia].
  - intros username password. unfold login_for_access_token.
    destruct (authenticate_user verify_password db username password).
    + eexists [_]. split; [reflexivity|]. split; [simpl; lia | discriminate].
    + exists []. rewrite app_nil_r. split; [reflexivity|].
      split; [simpl; lia | reflexivity].
  - intros current_user. eexists. split; [reflexivity|]. split; reflexivity.
Qed.

End Accounts.

(** * Settings, continued *)

Section SettingsRoundTrip.

Lemma settings_after_update uid pk change db row :
  (forall s, UserSettings.user_id (change s) = UserSettings.user_id s) ->
  settings_of_user uid db = Some row ->
  UserSettings.id row = pk ->
  settings_of_user uid
    (with_user_settings (update_where UserSettings.id pk change (user_settings db)) db)
  = Some (change row).
Proof.
  intros Hkeep Hrow Hpk. unfold settings_of_user in *; simpl.
  rewrite find_update_where by (intros s; rewrite Hkeep; reflexivity).
  rewrite Hrow; simpl. rewrite Hpk, Z.eqb_refl. reflexivity.
Qed.

Lemma Ok_injective {A : Type} (db db' : Store) (x y : A) :
  Ok db x = Ok db' y -> db = db' /\ x = y.
Proof. intros H. inversion H. auto. Qed.

(** A read that answers returns a complete row, the one the store holds for
    the caller after the read; the store is the old one, or the old one
    with that row appended. *)
Lemma get_my_settings_answer current_user db db1 row :
  get_my_settings current_user db = Ok db1 row ->
  settings_of_user (User.id current_user) db1 = Some row /\
  settings_complete row = true /\
  ((db1 = db /\ settings_of_user (User.id current_user) db = Some row) \/
   (settings_of_user (User.id current_user) db = None /\
    row = UserSettings.default
            (next_id (map UserSettings.id (user_settings db)))
            (User.id current_user) /\
    db1 = with_user_settings (user_settings db ++ [row]) db)).
Proof.
  destruct (settings_of_user (User.id current_user) db) as [s|] eqn:Es.
  - rewrite (get_my_settings_found _ _ _ Es).
    destruct (settings_complete s) eqn:Hs; [|discriminate].
    intros H. apply Ok_injective in H. destruct H as [<- <-].
    split; [exact Es|]. split; [exact Hs|]. left. split; reflexivity.
  - destruct (get_my_settings_new _ _ Es) as [Hins Hfound]. rewrite Hins.
    intros H. apply Ok_injective in H. destruct H as [<- <-].
    split; [exact Hfound|]. split; [reflexivity|]. right.
    split; [reflexivity|]. split; reflexivity.
Qed.

(** X18. Reading the settings is get-or-create and idempotent.  A read that
    answers returns the row that the store then holds for the caller, a row
    of the caller without NULL; the store is the old one, or the old one
    with that row appended when the caller had none; and a second read
    returns the same row and leaves the store the first read left.  A read
    fails only on a stored row that holds a NULL, by the validation of the
    response; it leaves the store as it is and every further read fails the
    same way.  When the stored row, if there is one, holds no NULL, the
    read answers. *)
Theorem get_my_settings_idempotent current_user db :
  (forall db1 row,
     get_my_settings current_user db = Ok db1 row ->
     settings_of_user (User.id current_user) db1 = Some row /\
     UserSettings.user_id row = User.id current_user /\
     settings_complete row = true /\
     get_my_settings current_user db1 = Ok db1 row /\
     (db1 = db \/
      (settings_of_user (User.id current_user) db = None /\
       user_settings db1 = user_settings db ++ [row]))) /\
  (forall db1 e,
     get_my_settings current_user db = Raised db1 e ->
     db1 = db /\ e = ResponseValidationError /\
     (exists row, settings_of_user (User.id current_user) db = Some row /\
                  settings_complete row = false) /\
     get_my_settings current_user db1 = Raised db1 e) /\
  ((forall row, settings_of_user (User.id current_user) db = Some row ->
                settings_complete row = true) ->
   exists db1 row, get_my_settings current_user db = Ok db1 row).
Proof.
  split; [|split].
  - intros db1 row Hget.
    destruct (get_my_settings_answer _ _ _ _ Hget) as (Hfound & Hrow & Hdb).
    split; [exact Hfound|]. split; [|split; [exact Hrow|split]].
    + unfold settings_of_user in Hfound. apply find_some in Hfound.
      destruct Hfound as [_ E]. apply Z.eqb_eq in E. exact E.
    + rewrite (get_my_settings_found _ _ _ Hfound), Hrow. reflexivity.
    + destruct Hdb as [[-> _]|(Hnone & _ & ->)]; [left; reflexivity|].
      right. split; [exact Hnone | reflexivity].
  - intros db1 e.
    destruct (settings_of_user (User.id current_user) db) as [s|] eqn:Es.
    + rewrite (get_my_settings_found _ _ _ Es).
      destruct (settings_complete s) eqn:Hs; [discriminate|].
      intros H. inversion H; subst db1 e.
      split; [reflexivity|]. split; [reflexivity|]. split.
      * exists s. split; [reflexivity | exact Hs].
      * rewrite (get_my_settings_found _ _ _ Es), Hs. reflexivity.
    + destruct (get_my_settings_new _ _ Es) as [-> _]. discriminate.
  - intros Hall.
    destruct (settings_of_user (User.id current_user) db) as [s|] eqn:Es.
    + exists db, s. rewrite (get_my_settings_found _ _ _ Es), (Hall s eq_refl).
      reflexivity.
    + destruct (get_my_settings_new _ _ Es) as [Hins _].
      eexists _, _. exact Hins.
Qed.

(** X19. After a read that answered, an update is never refused with
    NotFound: PUT /settings/me finds the row of the caller, assigns the
    fields present in the body (a field left out keeps its value, a field
    given as null is stored as null) and commits.  When the row so stored
    holds no NULL the update answers with it and the next read returns it;
    when the body has put a NULL into the row, the row is stored all the
    same, and the update and every later read are refused by the
    validation of the response. *)
Theorem read_then_update_settings settings_update current_user db db1 row :
  get_my_settings current_user db = Ok db1 row ->
  exists db2 row',
    store_after (update_my_settings settings_update current_user db1) = db2 /\
    settings_of_user (User.id current_user) db2 = Some row' /\
    UserSettings.receive_notifications row'
    = assign (su_receive_notifications settings_update)
             (UserSettings.receive_notifications row) /\
    UserSettings.theme row'
    = assign (su_theme settings_update) (UserSettings.theme row) /\
    UserSettings.language row'
    = assign (su_language settings_update) (UserSettings.language row) /\
    UserSettings.user_id row' = User.id current_user /\
    UserSettings.id row' = UserSettings.id row /\
    List.length (user_settings db2) = List.length (user_settings db1) /\
    ~ is_NotFound (update_my_settings settings_update current_user db1) /\
    (settings_complete row' = true ->
       update_my_settings settings_update current_user db1 = Ok db2 row' /\
       get_my_settings current_user db2 = Ok db2 row') /\
    (settings_complete row' = false ->
       update_my_settings settings_update current_user db1
       = Raised db2 ResponseValidationError /\
       get_my_settings current_user db2 = Raised db2 ResponseValidationError).
Proof.
  intros Hget.
  destruct (get_my_settings_answer _ _ _ _ Hget) as (Hrow & _ & _).
  unfold update_my_settings. rewrite Hrow.
  set (change := fun s : UserSettings.t =>
         UserSettings.mk (UserSettings.id s) (UserSettings.user_id s)
           (assign (su_receive_notifications settings_update)
                   (UserSettings.receive_notifications s))
           (assign (su_theme settings_update) (UserSettings.theme s))
           (assign (su_language settings_update) (UserSettings.language s))).
  set (db2 := with_user_settings
                (update_where UserSettings.id (UserSettings.id row) change
                              (user_settings db1)) db1).
  assert (Hfound : settings_of_user (User.id current_user) db2 = Some (change row))
    by (apply settings_after_update; [reflexivity | exact Hrow | reflexivity]).
  exists db2, (change row).
  split; [apply store_after_UserSettingsSchema|].
  split; [exact Hfound|].
  do 3 (split; [reflexivity|]).
  split.
  { simpl. unfold settings_of_user in Hrow. apply find_some in Hrow.
    destruct Hrow as [_ E]. apply Z.eqb_eq in E. exact E. }
  split; [reflexivity|].
  split; [simpl; unfold update_where; apply length_map|].
  split.
  { unfold is_NotFound, UserSettingsSchema. intros H.
    destruct (settings_complete _); discriminate H. }
  split; intros Hc.
  - rewrite (get_my_settings_found _ _ _ Hfound).
    unfold UserSettingsSchema. rewrite Hc.
    unfold change in Hc. cbv beta in Hc. rewrite Hc. split; reflexivity.
  - rewrite (get_my_settings_found _ _ _ Hfound).
    unfold UserSettingsSchema. rewrite Hc.
    unfold change in Hc. cbv beta in Hc. rewrite Hc. split; reflexivity.
Qed.

End SettingsRoundTrip.

(** * Salary structures and payroll *)

Section Salaries.

Variable column_value : Decimal -> Amount.

Lemma salary_of_employee_unique (table : list SalaryRow.t) (r : SalaryRow.t) :
  one_structure_per_employee table -> In r table ->
  salary_of_employee (SalaryRow.employee_profile_id r) table = Some r.
Proof.
  unfold one_structure_per_employee, salary_of_employee.
  induction table as [|x table IH]; simpl; [contradiction|].
  intros Hnd [->|Hin]; [rewrite Z.eqb_refl; reflexivity|].
  inversion Hnd as [|? ? Hnotin Hnd']; subst.
  destruct (Z.eqb_spec (SalaryRow.employee_profile_id x)
                       (SalaryRow.employee_profile_id r)) as [E|_].
  - exfalso. apply Hnotin. rewrite E. apply in_map. exact Hin.
  - apply IH; assumption.
Qed.

Lemma created_column_set v : exists d, created_column column_value v = Some d.
Proof. destruct v; simpl; eexists; reflexivity. Qed.

Lemma Error_injective {A : Type} (e e' : PyError) :
  @Error A e = Error e' -> e = e'.
Proof.
  intros H.
  exact (f_equal (fun v => match v with Value _ => e | Error x => x end) H).
Qed.

(** ** The exceptions of the calculator *)

Lemma amount_add_error a b e : amount_add a b = Error e -> e = InvalidOperation.
Proof.
  destruct a as [x|s], b as [y|t]; cbn [amount_add]; try discriminate.
  destruct (Bool.eqb s t); [discriminate|].
  intros H. apply Error_injective in H. symmetry. exact H.
Qed.

Lemma attr_add_error x y e :
  attr_add x y = Error e -> e = TypeError \/ e = InvalidOperation.
Proof.
  destruct x as [a|], y as [b|]; cbn [attr_add];
    try (intros H; apply Error_injective in H; left; symmetry; exact H).
  intros H. right. exact (amount_add_error _ _ _ H).
Qed.

Lemma add_column_error (P : PyError -> Prop) s y e :
  (forall e', s = Error e' -> P e') ->
  (forall a e', attr_add (Some a) y = Error e' -> P e') ->
  add_column s y = Error e -> P e.
Proof.
  intros Hs Hy. destruct s as [a|e0]; cbn [add_column].
  - apply Hy.
  - intros H. apply Error_injective in H. subst e0. apply Hs. reflexivity.
Qed.

Lemma add_column_value s y a :
  add_column s y = Value a -> (exists x, s = Value x) /\ y <> None.
Proof.
  destruct s as [x|e]; cbn [add_column]; [|discriminate].
  destruct y as [z|]; cbn [attr_add]; [|discriminate].
  intros _. split; [exists x; reflexivity | discriminate].
Qed.

Lemma attr_add_value x y a : attr_add x y = Value a -> x <> None /\ y <> None.
Proof.
  destruct x as [p|], y as [q|]; cbn [attr_add]; try discriminate.
  intros _. split; discriminate.
Qed.

(** The calculator raises nothing but TypeError and InvalidOperation. *)
Lemma calculate_net_salary_error r e :
  calculate_net_salary r = Error e -> e = TypeError \/ e = InvalidOperation.
Proof.
  unfold calculate_net_salary.
  set (s1 := attr_add (Some (SalaryRow.basic_salary r)) (SalaryRow.hra r)).
  set (s2 := add_column s1 (SalaryRow.standard_allowance r)).
  set (s3 := add_column s2 (SalaryRow.performance_bonus r)).
  set (s4 := add_column s3 (SalaryRow.lta r)).
  set (s5 := add_column s4 (SalaryRow.fixed_allowance r)).
  assert (H1 : forall e', s1 = Error e' -> e' = TypeError \/ e' = InvalidOperation)
    by (intros e'; apply attr_add_error).
  assert (H2 : forall e', s2 = Error e' -> e' = TypeError \/ e' = InvalidOperation)
    by (intros e';
        apply (add_column_error (fun x => x = TypeError \/ x = InvalidOperation));
        [exact H1 | intros a e''; apply attr_add_error]).
  assert (H3 : forall e', s3 = Error e' -> e' = TypeError \/ e' = InvalidOperation)
    by (intros e';
        apply (add_column_error (fun x => x = TypeError \/ x = InvalidOperation));
        [exact H2 | intros a e''; apply attr_add_error]).
  assert (H4 : forall e', s4 = Error e' -> e' = TypeError \/ e' = InvalidOperation)
    by (intros e';
        apply (add_column_error (fun x => x = TypeError \/ x = InvalidOperation));
        [exact H3 | intros a e''; apply attr_add_error]).
  assert (H5 : forall e', s5 = Error e' -> e' = TypeError \/ e' = InvalidOperation)
    by (intros e';
        apply (add_column_error (fun x => x = TypeError \/ x = InvalidOperation));
        [exact H4 | intros a e''; apply attr_add_error]).
  clearbody s5. destruct s5 as [gross|e5].
  - destruct (attr_add (SalaryRow.professional_tax r) (SalaryRow.pf_contribution r))
      as [deductions|e6] eqn:E6.
    + destruct (amount_sub gross deductions) as [net|e7] eqn:E7;
        [intros H; discriminate H|].
      intros H. apply Error_injective in H. subst e7.
      right. exact (amount_add_error _ _ _ E7).
    + intros H. apply Error_injective in H. subst e6.
      exact (attr_add_error _ _ _ E6).
  - intros H. apply Error_injective in H. subst e5. apply H5. reflexivity.
Qed.

(** The calculator returns only for a row without NULL. *)
Lemma calculate_net_salary_value r calculated :
  calculate_net_salary r = Value calculated -> has_null r = false.
Proof.
  unfold calculate_net_salary.
  destruct (add_column _ (SalaryRow.fixed_allowance r)) as [gross|] eqn:E5;
    [|discriminate].
  destruct (attr_add (SalaryRow.professional_tax r) _) as [deductions|] eqn:E6;
    [|discriminate].
  intros _.
  apply add_column_value in E5. destruct E5 as [[g4 E4] Hfa].
  apply add_column_value in E4. destruct E4 as [[g3 E3] Hl].
  apply add_column_value in E3. destruct E3 as [[g2 E2] Hpb].
  apply add_column_value in E2. destruct E2 as [[g1 E1] Hsa].
  apply attr_add_value in E1. destruct E1 as [_ Hh].
  apply attr_add_value in E6. destruct E6 as [Hpt Hpf].
  unfold has_null.
  destruct (SalaryRow.hra r); [|contradiction].
  destruct (SalaryRow.standard_allowance r); [|contradiction].
  destruct (SalaryRow.performance_bonus r); [|contradiction].
  destruct (SalaryRow.lta r); [|contradiction].
  destruct (SalaryRow.fixed_allowance r); [|contradiction].
  destruct (SalaryRow.professional_tax r); [|contradiction].
  destruct (SalaryRow.pf_contribution r); [|contradiction].
  reflexivity.
Qed.

(** On a row that holds a NULL the calculator raises. *)
Lemma calculate_net_salary_null r :
  has_null r = true -> exists e, calculate_net_salary r = Error e.
Proof.
  intros Hnull. destruct (calculate_net_salary r) as [c|e] eqn:E.
  - apply calculate_net_salary_value in E. congruence.
  - exists e. reflexivity.
Qed.

Ltac column c H := destruct c as [[?|?]|]; simpl in H; try discriminate H.

(** On a row without NULL the only exception of the calculator is
    InvalidOperation. *)
Lemma calculate_net_salary_set r e :
  has_null r = false -> calculate_net_salary r = Error e -> e = InvalidOperation.
Proof.
  intros Hset. unfold has_null in Hset.
  destruct (SalaryRow.hra r) as [h|] eqn:Eh; [|discriminate Hset].
  destruct (SalaryRow.standard_allowance r) as [sa|] eqn:Esa; [|discriminate Hset].
  destruct (SalaryRow.performance_bonus r) as [pb|] eqn:Epb; [|discriminate Hset].
  destruct (SalaryRow.lta r) as [l|] eqn:El; [|discriminate Hset].
  destruct (SalaryRow.fixed_allowance r) as [fa|] eqn:Efa; [|discriminate Hset].
  destruct (SalaryRow.professional_tax r) as [pt|] eqn:Ept; [|discriminate Hset].
  destruct (SalaryRow.pf_contribution r) as [pf|] eqn:Epf; [|discriminate Hset].
  clear Hset. unfold calculate_net_salary.
  rewrite Eh, Esa, Epb, El, Efa, Ept, Epf.
  set (s1 := attr_add (Some (SalaryRow.basic_salary r)) (Some h)).
  set (s2 := add_column s1 (Some sa)).
  set (s3 := add_column s2 (Some pb)).
  set (s4 := add_column s3 (Some l)).
  set (s5 := add_column s4 (Some fa)).
  assert (H1 : forall e', s1 = Error e' -> e' = InvalidOperation)
    by (intros e'; apply amount_add_error).
  assert (H2 : forall e', s2 = Error e' -> e' = InvalidOperation)
    by (intros e';
        apply (add_column_error (fun x => x = InvalidOperation));
        [exact H1 | intros a e''; apply amount_add_error]).
  assert (H3 : forall e', s3 = Error e' -> e' = InvalidOperation)
    by (intros e';
        apply (add_column_error (fun x => x = InvalidOperation));
        [exact H2 | intros a e''; apply amount_add_error]).
  assert (H4 : forall e', s4 = Error e' -> e' = InvalidOperation)
    by (intros e';
        apply (add_column_error (fun x => x = InvalidOperation));
        [exact H3 | intros a e''; apply amount_add_error]).
  assert (H5 : forall e', s5 = Error e' -> e' = InvalidOperation)
    by (intros e';
        apply (add_column_error (fun x => x = InvalidOperation));
        [exact H4 | intros a e''; apply amount_add_error]).
  clearbody s5. destruct s5 as [gross|e5].
  - cbn [attr_add].
    destruct (amount_add pt pf) as [deductions|e6] eqn:E6.
    + destruct (amount_sub gross deductions) as [net|e7] eqn:E7;
        [intros H; discriminate H|].
      intros H. apply Error_injective in H. subst e7.
      exact (amount_add_error _ _ _ E7).
    + intros H. apply Error_injective in H. subst e6.
      exact (amount_add_error _ _ _ E6).
  - intros H. apply Error_injective in H. subst e5. apply H5. reflexivity.
Qed.

(** A row that the schema accepts is added up without error, to finite
    amounts. *)
Lemma loaded_calculate r structure :
  loaded r = Some structure ->
  has_null r = false /\ finite_amounts r = true /\
  exists gross deductions net,
    calculate_net_salary r
    = Value {| gross_salary := Finite gross;
               total_deductions := Finite deductions;
               net_salary := Finite net |}.
Proof.
  destruct r as [i pid b h sa pb l fa pt pf]. unfold loaded.
  cbn [SalaryRow.id SalaryRow.employee_profile_id SalaryRow.basic_salary
       SalaryRow.hra SalaryRow.standard_allowance SalaryRow.performance_bonus
       SalaryRow.lta SalaryRow.fixed_allowance SalaryRow.professional_tax
       SalaryRow.pf_contribution].
  intros H.
  destruct b as [b|?]; simpl in H; try discriminate H.
  column h H. column sa H. column pb H. column l H. column fa H.
  column pt H. column pf H.
  split; [reflexivity|]. split; [reflexivity|].
  eexists _, _, _. reflexivity.
Qed.

(** A row without NULL and without infinity is one that the schema
    accepts. *)
Lemma set_and_finite_loaded r :
  has_null r = false -> finite_amounts r = true ->
  exists structure, loaded r = Some structure.
Proof.
  destruct r as [i pid b h sa pb l fa pt pf]. unfold has_null, finite_amounts.
  cbn [SalaryRow.id SalaryRow.employee_profile_id SalaryRow.basic_salary
       SalaryRow.hra SalaryRow.standard_allowance SalaryRow.performance_bonus
       SalaryRow.lta SalaryRow.fixed_allowance SalaryRow.professional_tax
       SalaryRow.pf_contribution].
  intros Hset Hfin.
  destruct b as [b|?]; simpl in Hfin; try discriminate Hfin.
  column h Hfin; simpl in Hset; try discriminate Hset.
  column sa Hfin; simpl in Hset; try discriminate Hset.
  column pb Hfin; simpl in Hset; try discriminate Hset.
  column l Hfin; simpl in Hset; try discriminate Hset.
  column fa Hfin; simpl in Hset; try discriminate Hset.
  column pt Hfin; simpl in Hset; try discriminate Hset.
  column pf Hfin; simpl in Hset; try discriminate Hset.
  eexists. reflexivity.
Qed.

(** On a row that holds a NULL and no infinity the calculator raises
    TypeError. *)
Lemma calculate_net_salary_type_error r :
  has_null r = true -> finite_amounts r = true ->
  calculate_net_salary r = Error TypeError.
Proof.
  intros Hnull Hfin.
  destruct (calculate_net_salary_null r Hnull) as (e & E). rewrite E. f_equal.
  destruct (calculate_net_salary_error r e E) as [-> | ->]; [reflexivity|].
  exfalso. revert Hfin E. clear Hnull.
  destruct r as [i pid b h sa pb l fa pt pf]. unfold finite_amounts.
  cbn [SalaryRow.id SalaryRow.employee_profile_id SalaryRow.basic_salary
       SalaryRow.hra SalaryRow.standard_allowance SalaryRow.performance_bonus
       SalaryRow.lta SalaryRow.fixed_allowance SalaryRow.professional_tax
       SalaryRow.pf_contribution].
  intros Hfin.
  destruct b as [b|?]; simpl in Hfin; try discriminate Hfin.
  column h Hfin; column sa Hfin; column pb Hfin; column l Hfin;
    column fa Hfin; column pt Hfin; column pf Hfin;
    intros E;
    cbv [calculate_net_salary attr_add add_column amount_add amount_sub
         amount_neg SalaryRow.basic_salary SalaryRow.hra
         SalaryRow.standard_allowance SalaryRow.performance_bonus SalaryRow.lta
         SalaryRow.fixed_allowance SalaryRow.professional_tax
         SalaryRow.pf_contribution] in E;
    discriminate E.
Qed.

(** ** One payroll entry *)

Lemma payroll_entry_loaded r structure :
  loaded r = Some structure ->
  exists gross deductions net,
    calculate_net_salary r
    = Value {| gross_salary := Finite gross;
               total_deductions := Finite deductions;
               net_salary := Finite net |} /\
    payroll_entry r = Value (mkSalaryPayroll structure gross deductions net).
Proof.
  intros H. destruct (loaded_calculate r structure H) as (_ & _ & g & d & n & E).
  exists g, d, n. split; [exact E|].
  unfold payroll_entry. rewrite E, H. reflexivity.
Qed.

Lemma payroll_entry_value r entry :
  payroll_entry r = Value entry ->
  loaded r = Some (sp_structure entry) /\
  calculate_net_salary r
  = Value {| gross_salary := Finite (sp_gross_salary entry);
             total_deductions := Finite (sp_total_deductions entry);
             net_salary := Finite (sp_net_salary entry) |}.
Proof.
  unfold payroll_entry.
  destruct (calculate_net_salary r) as [[g d n]|]; [|discriminate].
  destruct (loaded r) as [s|]; [|discriminate].
  destruct g as [g|?], d as [d|?], n as [n|?];
    cbn [finite gross_salary total_deductions net_salary]; try discriminate.
  intros H. apply Value_injective in H. subst entry. split; reflexivity.
Qed.

Lemma payroll_entry_error r e :
  payroll_entry r = Error e ->
  loaded r = None /\
  (e = TypeError \/ e = InvalidOperation \/ e = ValidationError) /\
  (has_null r = false -> e = InvalidOperation \/ e = ValidationError) /\
  (finite_amounts r = true -> e = TypeError /\ has_null r = true).
Proof.
  intros H. destruct (loaded r) as [s|] eqn:El.
  { destruct (payroll_entry_loaded r s El) as (g & d & n & _ & E).
    rewrite E in H. discriminate H. }
  split; [reflexivity|].
  unfold payroll_entry in H. rewrite El in H.
  destruct (calculate_net_salary r) as [c|e'] eqn:Ec.
  - cbn in H. apply Error_injective in H. subst e.
    split; [tauto|]. split; [tauto|]. intros Hfin. exfalso.
    pose proof (calculate_net_salary_value r c Ec) as Hset.
    destruct (set_and_finite_loaded r Hset Hfin) as (s & Es). congruence.
  - apply Error_injective in H. subst e'.
    split; [destruct (calculate_net_salary_error r e Ec); tauto|].
    split.
    + intros Hset. left. exact (calculate_net_salary_set r e Hset Ec).
    + intros Hfin. destruct (has_null r) eqn:Hnull.
      * rewrite (calculate_net_salary_type_error r Hnull Hfin) in Ec.
        apply Error_injective in Ec. split; [symmetry; exact Ec | reflexivity].
      * exfalso. destruct (set_and_finite_loaded r Hnull Hfin) as (s & Es).
        congruence.
Qed.

Lemma payroll_entry_null r :
  has_null r = true ->
  loaded r = None /\
  exists e, payroll_entry r = Error e /\
            (e = TypeError \/ e = InvalidOperation) /\
            (finite_amounts r = true -> e = TypeError).
Proof.
  intros Hnull.
  assert (Hl : loaded r = None).
  { destruct (loaded r) as [s|] eqn:El; [|reflexivity].
    destruct (loaded_calculate r s El) as (Hset & _). congruence. }
  split; [exact Hl|].
  destruct (calculate_net_salary_null r Hnull) as (e & Ec).
  exists e. unfold payroll_entry. rewrite Ec. split; [reflexivity|].
  split; [exact (calculate_net_salary_error r e Ec)|].
  intros Hfin. rewrite (calculate_net_salary_type_error r Hnull Hfin) in Ec.
  apply Error_injective in Ec. symmetry. exact Ec.
Qed.

(** ** The loop over a page *)

Lemma payroll_entries_values (rows : list SalaryRow.t) (entries : list SalaryPayroll) :
  payroll_entries rows = Value entries ->
  Forall2 (fun r entry => payroll_entry r = Value entry) rows entries.
Proof.
  revert entries. induction rows as [|x rows IH]; intros entries H.
  - apply Value_injective in H. subst entries. constructor.
  - cbn [payroll_entries] in H.
    destruct (payroll_entry x) as [entry|] eqn:Ex; [|discriminate].
    destruct (payroll_entries rows) as [rest|] eqn:Erows; [|discriminate].
    apply Value_injective in H. subst entries.
    constructor; [exact Ex | apply IH; reflexivity].
Qed.

Lemma payroll_entries_error (rows : list SalaryRow.t) (e : PyError) :
  payroll_entries rows = Error e ->
  exists r, In r rows /\ payroll_entry r = Error e.
Proof.
  induction rows as [|x rows IH]; cbn [payroll_entries]; [discriminate|].
  destruct (payroll_entry x) as [entry|e'] eqn:Ex.
  - destruct (payroll_entries rows) as [rest|e''] eqn:Erows; [discriminate|].
    intros H. apply Error_injective in H. subst e''.
    destruct (IH eq_refl) as (r & Hr & Er).
    exists r. split; [right; exact Hr | exact Er].
  - intros H. apply Error_injective in H. subst e'.
    exists x. split; [left; reflexivity | exact Ex].
Qed.

Lemma payroll_entries_all (rows : list SalaryRow.t) :
  (forall r, In r rows -> loaded r <> None) ->
  exists entries, payroll_entries rows = Value entries.
Proof.
  induction rows as [|x rows IH]; intros Hall; cbn [payroll_entries].
  - eexists. reflexivity.
  - destruct (loaded x) as [s|] eqn:Ex;
      [|exfalso; apply (Hall x); [left; reflexivity | exact Ex]].
    destruct (payroll_entry_loaded x s Ex) as (g & d & n & _ & ->).
    destruct IH as (rest & ->); [intros r Hr; apply Hall; right; exact Hr|].
    eexists. reflexivity.
Qed.

Lemma payroll_entries_fail (rows : list SalaryRow.t) (r : SalaryRow.t) :
  In r rows -> loaded r = None -> exists e, payroll_entries rows = Error e.
Proof.
  intros Hr Hl. destruct (payroll_entries rows) as [entries|e] eqn:E.
  - exfalso. apply payroll_entries_values in E.
    clear - Hr Hl E. induction E as [|x entry rows entries Hx _ IH];
      [contradiction|].
    destruct Hr as [->|Hr]; [|exact (IH Hr)].
    apply payroll_entry_value in Hx. destruct Hx as [Hx _]. congruence.
  - exists e. reflexivity.
Qed.


Lemma payroll_entries_type_error (rows : list SalaryRow.t) (e : PyError) :
  forallb finite_amounts rows = true ->
  payroll_entries rows = Error e ->
  e = TypeError /\ exists r, In r rows /\ has_null r = true.
Proof.
  intros Hfin H. apply payroll_entries_error in H. destruct H as (r & Hr & E).
  apply payroll_entry_error in E. destruct E as (_ & _ & _ & E).
  rewrite forallb_forall in Hfin. destruct (E (Hfin r Hr)) as [-> Hnull].
  split; [reflexivity|]. exists r. split; [exact Hr | exact Hnull].
Qed.

(** What the listing does on a page. *)
Lemma payroll_entries_null (rows : list SalaryRow.t) (r : SalaryRow.t) :
  In r rows -> has_null r = true ->
  exists e, payroll_entries rows = Error e /\
            (forallb finite_amounts rows = true -> e = TypeError).
Proof.
  intros Hr Hnull. destruct (payroll_entry_null r Hnull) as (Hl & _).
  destruct (payroll_entries_fail rows r Hr Hl) as (e & E).
  exists e. split; [exact E|]. intros Hfin.
  exact (proj1 (payroll_entries_type_error rows e Hfin E)).
Qed.

(** X20. The payroll listing is all or nothing.  When skip or limit is not
    a 64-bit number it raises OverflowError.  Otherwise it answers exactly
    when every row of the page has its eight amounts set and finite, with
    one entry per row of the page, in order, each with the amounts of its
    row and the gross, deductions and net that [calculate_net_salary] gives
    for the row; and it raises when some row of the page is not so:
    TypeError, InvalidOperation or ValidationError, and on a page without
    infinite amounts TypeError, exactly when a row of the page holds a
    NULL. *)
Theorem payroll_listing_all_or_nothing skip limit (table : list SalaryRow.t) :
  (int64 skip && int64 limit = false ->
   get_all_payroll_data skip limit table = Error OverflowError) /\
  (forall page, sql_page skip limit table = Value page ->
     ((exists entries, get_all_payroll_data skip limit table = Value entries) <->
      (forall r, In r page -> loaded r <> None)) /\
     (forall entries,
        get_all_payroll_data skip limit table = Value entries ->
        map loaded page = map (fun entry => Some (sp_structure entry)) entries /\
        List.length entries = List.length page /\
        Forall2 (fun r entry =>
                   calculate_net_salary r
                   = Value {| gross_salary := Finite (sp_gross_salary entry);
                              total_deductions := Finite (sp_total_deductions entry);
                              net_salary := Finite (sp_net_salary entry) |})
                page entries) /\
     (forall e,
        get_all_payroll_data skip limit table = Error e ->
        (e = TypeError \/ e = InvalidOperation \/ e = ValidationError) /\
        exists r, In r page /\ loaded r = None) /\
     (forallb finite_amounts page = true ->
        (get_all_payroll_data skip limit table = Error TypeError <->
         exists r, In r page /\ has_null r = true) /\
        (forall e, get_all_payroll_data skip limit table = Error e ->
                   e = TypeError))).
Proof.
  unfold get_all_payroll_data. split.
  - intros Hout. rewrite sql_page_error by exact Hout. reflexivity.
  - intros page Hpage. rewrite Hpage. split; [|split; [|split]].
    + split.
      * intros (entries & H) r Hr Hl.
        destruct (payroll_entries_fail page r Hr Hl) as (e & E). congruence.
      * apply payroll_entries_all.
    + intros entries H. apply payroll_entries_values in H.
      clear Hpage. induction H as [|r entry rows entries Hr _ IH].
      * split; [reflexivity|]. split; [reflexivity | constructor].
      * destruct IH as (Hmap & Hlen & Hall).
        apply payroll_entry_value in Hr. destruct Hr as [Hl Hc].
        cbn [map List.length]. split; [rewrite Hl, Hmap; reflexivity|].
        split; [rewrite Hlen; reflexivity|]. constructor; [exact Hc | exact Hall].
    + intros e H. apply payroll_entries_error in H. destruct H as (r & Hr & E).
      apply payroll_entry_error in E. destruct E as (Hl & He & _).
      split; [exact He|]. exists r. split; [exact Hr | exact Hl].
    + intros Hfin. split.
      * split.
        -- intros H. exact (proj2 (payroll_entries_type_error page _ Hfin H)).
        -- intros (r & Hr & Hnull).
           destruct (payroll_entries_null page r Hr Hnull) as (e & E & He).
           rewrite E, (He Hfin). reflexivity.
      * intros e H. exact (proj1 (payroll_entries_type_error page e Hfin H)).
Qed.

Lemma create_salary_sent payload db table table' row :
  create_salary_structure column_value payload db table = Sent (table', row) ->
  (exists p, find (fun x => EmployeeProfile.id x =? sc_employee_profile_id payload)
                  (employee_profiles db) = Some p) /\
  salary_of_employee (sc_employee_profile_id payload) table = None /\
  table' = table ++ [row] /\
  row = SalaryRow.mk (next_id (map SalaryRow.id table))
          (sc_employee_profile_id payload)
          (column_value (sc_basic_salary payload))
          (created_column column_value (sc_hra payload))
          (created_column column_value (sc_standard_allowance payload))
          (created_column column_value (sc_performance_bonus payload))
          (created_column column_value (sc_lta payload))
          (created_column column_value (sc_fixed_allowance payload))
          (created_column column_value (sc_professional_tax payload))
          (created_column column_value (sc_pf_contribution payload)).
Proof.
  unfold create_salary_structure.
  destruct (find _ (employee_profiles db)) as [p|]; [|discriminate].
  destruct (salary_of_employee _ table) eqn:Es; [discriminate|].
  intros H. inversion H; subst. split; [exists p; reflexivity|]. auto.
Qed.

Lemma salary_of_employee_appended pid table row :
  salary_of_employee pid table = None ->
  SalaryRow.employee_profile_id row = pid ->
  salary_of_employee pid (table ++ [row]) = Some row.
Proof.
  intros Hnone Hpid. unfold salary_of_employee in *.
  rewrite (find_app_none _ _ _ Hnone). rewrite Hpid, Z.eqb_refl. reflexivity.
Qed.

(** X21. One salary structure per employee: from a table with at most one
    structure per employee, a creation that succeeds leaves such a table,
    with the new structure the one found for the employee, and any further
    creation for that employee is refused with 400; an update that succeeds
    leaves such a table with the same number of rows. *)
Theorem salary_structure_once (table : list SalaryRow.t) :
  one_structure_per_employee table ->
  (forall payload db table' row,
     create_salary_structure column_value payload db table = Sent (table', row) ->
     one_structure_per_employee table' /\
     salary_of_employee (sc_employee_profile_id payload) table' = Some row /\
     (forall again, sc_employee_profile_id again = sc_employee_profile_id payload ->
        refused_with (create_salary_structure column_value again db table')
        = Some 400)) /\
  (forall salary_structure_id payload table' row,
     update_salary_structure column_value salary_structure_id payload table
     = Sent (table', row) ->
     one_structure_per_employee table' /\
     List.length table' = List.length table).
Proof.
  intros Hone. split.
  - intros payload db table' row H.
    destruct (create_salary_sent _ _ _ _ _ H) as ((p & Hp) & Hnone & -> & Hrow).
    assert (Hfound : salary_of_employee (sc_employee_profile_id payload)
                       (table ++ [row]) = Some row)
      by (apply salary_of_employee_appended; [exact Hnone | rewrite Hrow; reflexivity]).
    split; [|split; [exact Hfound|]].
    + unfold one_structure_per_employee. rewrite map_app. simpl.
      apply NoDup_snoc; [exact Hone|]. intros Hin.
      apply in_map_iff in Hin. destruct Hin as (x & Ex & Hx).
      unfold salary_of_employee in Hnone.
      pose proof (find_none _ _ Hnone x Hx) as Hn. simpl in Hn.
      rewrite Ex, Hrow in Hn. simpl in Hn. rewrite Z.eqb_refl in Hn. discriminate.
    + intros again Hsame. unfold create_salary_structure.
      rewrite Hsame, Hp, Hfound. reflexivity.
  - intros sid payload table' row H. unfold update_salary_structure in H.
    destruct (find _ table) as [r|]; [|discriminate].
    destruct (sets_null _); [discriminate|]. inversion H; subst. split.
    + unfold one_structure_per_employee.
      rewrite map_update_where; [exact Hone | reflexivity].
    + unfold update_where. apply length_map.
Qed.

Lemma created_column_not_null v : is_null (created_column column_value v) = false.
Proof. destruct v; reflexivity. Qed.

(** X22. Creation and salary slip round trip.  After a successful creation
    no column of the stored structure is NULL (a column left out of the body
    holds zero).  When the amounts written have come back finite, the
    employee reads the structure under GET /salary/me, and the slip of that
    employee is computed without error and shows the stored amounts with
    the gross, deductions and net of [calculate_net_salary].  When an
    amount lay beyond the floats and has come back as an infinity, the slip
    raises ValidationError or InvalidOperation. *)
Theorem create_then_salary_slip payload db table table' row :
  create_salary_structure column_value payload db table = Sent (table', row) ->
  has_null row = false /\
  SalaryRow.basic_salary row = column_value (sc_basic_salary payload) /\
  (SalaryRow.hra row = created_column column_value (sc_hra payload) /\
   SalaryRow.standard_allowance row
   = created_column column_value (sc_standard_allowance payload) /\
   SalaryRow.performance_bonus row
   = created_column column_value (sc_performance_bonus payload) /\
   SalaryRow.lta row = created_column column_value (sc_lta payload) /\
   SalaryRow.fixed_allowance row
   = created_column column_value (sc_fixed_allowance payload) /\
   SalaryRow.professional_tax row
   = created_column column_value (sc_professional_tax payload) /\
   SalaryRow.pf_contribution row
   = created_column column_value (sc_pf_contribution payload)) /\
  (sc_hra payload = None -> SalaryRow.hra row = Some (Finite (money 0))) /\
  (finite_amounts row = true ->
   (forall current_user employee_profile,
      profile_of_user (User.id current_user) db = Some employee_profile ->
      EmployeeProfile.id employee_profile = sc_employee_profile_id payload ->
      get_my_salary_structure current_user db table' = Sent row) /\
   exists structure gross deductions net,
     loaded row = Some structure /\
     calculate_net_salary row
     = Value {| gross_salary := Finite gross;
                total_deductions := Finite deductions;
                net_salary := Finite net |} /\
     get_salary_slip_data (sc_employee_profile_id payload) db table'
     = Value (Sent (mkSalaryPayroll structure gross deductions net))) /\
  (finite_amounts row = false ->
   exists e,
     get_salary_slip_data (sc_employee_profile_id payload) db table' = Error e /\
     (e = ValidationError \/ e = InvalidOperation)).
Proof.
  intros H.
  destruct (create_salary_sent _ _ _ _ _ H) as ((p & Hp) & Hnone & -> & Hrow).
  assert (Hfound : salary_of_employee (sc_employee_profile_id payload)
                     (table ++ [row]) = Some row)
    by (apply salary_of_employee_appended; [exact Hnone | rewrite Hrow; reflexivity]).
  assert (Hset : has_null row = false).
  { rewrite Hrow. unfold has_null.
    cbn [SalaryRow.hra SalaryRow.standard_allowance SalaryRow.performance_bonus
         SalaryRow.lta SalaryRow.fixed_allowance SalaryRow.professional_tax
         SalaryRow.pf_contribution].
    rewrite !created_column_not_null. reflexivity. }
  split; [exact Hset|].
  split; [rewrite Hrow; reflexivity|].
  split; [rewrite Hrow; repeat split|].
  split; [intros E; rewrite Hrow; cbn [SalaryRow.hra]; rewrite E; reflexivity|].
  split.
  - intros Hfin. split.
    + intros current_user q Hq Hid. unfold get_my_salary_structure.
      rewrite Hq, Hid, Hfound. reflexivity.
    + destruct (set_and_finite_loaded row Hset Hfin) as (s & Hl).
      destruct (payroll_entry_loaded row s Hl) as (g & d & n & Hc & He).
      exists s, g, d, n. split; [exact Hl|]. split; [exact Hc|].
      unfold get_salary_slip_data. rewrite Hp, Hfound, He. reflexivity.
  - intros Hinf. unfold get_salary_slip_data. rewrite Hp, Hfound.
    destruct (payroll_entry row) as [entry|e] eqn:E.
    + exfalso. apply payroll_entry_value in E. destruct E as [Hl _].
      destruct (loaded_calculate row _ Hl) as (_ & Hfin & _). congruence.
    + exists e. split; [reflexivity|].
      apply payroll_entry_error in E. destruct E as (_ & _ & E & _).
      destruct (E Hset); tauto.
Qed.

Lemma updated_column_null f old :
  sets_null f = true -> updated_column column_value f old = None.
Proof. destruct f as [|[v|]]; simpl; [discriminate | discriminate | reflexivity]. Qed.

Lemma salary_change_null payload r :
  nulls_a_column payload = true ->
  has_null (salary_change column_value payload r) = true.
Proof.
  unfold nulls_a_column, has_null, salary_change.
  cbn [SalaryRow.hra SalaryRow.standard_allowance SalaryRow.performance_bonus
       SalaryRow.lta SalaryRow.fixed_allowance SalaryRow.professional_tax
       SalaryRow.pf_contribution].
  intros H.
  repeat (apply orb_true_iff in H; destruct H as [H|H]);
    rewrite (updated_column_null _ _ H); cbn [is_null];
    rewrite ?orb_true_r; reflexivity.
Qed.

(** X23. A null in the body of an update is stored: an update that gives
    null for an allowance or deduction column succeeds, and from then on
    the salary slip of that employee, and the payroll listing of every page
    that holds the row (the full listing among them), raise instead of
    answering.  The exception is TypeError whenever no amount in reach of
    the request is infinite; infinities met before the NULL can raise
    InvalidOperation in its place, and in a listing ValidationError on an
    earlier row. *)
Theorem null_column_breaks_payroll salary_structure_id payload db table r p :
  one_structure_per_employee table ->
  find (fun x => SalaryRow.id x =? salary_structure_id) table = Some r ->
  find (fun x => EmployeeProfile.id x =? SalaryRow.employee_profile_id r)
       (employee_profiles db) = Some p ->
  sets_null (sx_basic_salary payload) = false ->
  nulls_a_column payload = true ->
  exists table' r',
    update_salary_structure column_value salary_structure_id payload table
    = Sent (table', r') /\
    has_null r' = true /\
    loaded r' = None /\
    (exists e,
       get_salary_slip_data (SalaryRow.employee_profile_id r) db table' = Error e /\
       (e = TypeError \/ e = InvalidOperation) /\
       (finite_amounts r' = true -> e = TypeError)) /\
    (forall skip limit page,
       sql_page skip limit table' = Value page -> In r' page ->
       exists e,
         get_all_payroll_data skip limit table' = Error e /\
         (forallb finite_amounts page = true -> e = TypeError)) /\
    (int64 (Z.of_nat (List.length table)) = true ->
     exists e,
       get_all_payroll_data 0 (Z.of_nat (List.length table)) table' = Error e /\
       (forallb finite_amounts table' = true -> e = TypeError)).
Proof.
  intros Hone Hr Hp Hbasic Hnull.
  unfold update_salary_structure. rewrite Hr, Hbasic.
  eexists _, _. split; [reflexivity|].
  assert (Hn : has_null (salary_change column_value payload r) = true)
    by (apply salary_change_null; exact Hnull).
  destruct (payroll_entry_null _ Hn) as (Hl & e & He & Hkind & Hfin).
  split; [exact Hn|]. split; [exact Hl|].
  assert (Hin : In r table) by (apply find_some in Hr; tauto).
  assert (Hfound : salary_of_employee (SalaryRow.employee_profile_id r)
                     (update_where SalaryRow.id (SalaryRow.id r)
                        (salary_change column_value payload) table)
                   = Some (salary_change column_value payload r)).
  { unfold salary_of_employee. rewrite find_update_where by reflexivity.
    fold (salary_of_employee (SalaryRow.employee_profile_id r) table).
    rewrite (salary_of_employee_unique _ _ Hone Hin). simpl.
    rewrite Z.eqb_refl. reflexivity. }
  split; [|split].
  - exists e. unfold get_salary_slip_data. rewrite Hp, Hfound, He.
    split; [reflexivity | split; [exact Hkind | exact Hfin]].
  - intros skip limit page Hpage Hrow. unfold get_all_payroll_data.
    rewrite Hpage. exact (payroll_entries_null page _ Hrow Hn).
  - intros Hi. unfold get_all_payroll_data.
    rewrite sql_page_all;
      [|exact Hi | unfold update_where; rewrite length_map; lia].
    apply (payroll_entries_null _ (salary_change column_value payload r));
      [|exact Hn].
    unfold salary_of_employee in Hfound. apply find_some in Hfound. tauto.
Qed.

End Salaries.

(** * The further properties on the sample data *)

Ltac strings_differ :=
  unfold emails_unique, user_ids_unique; simpl;
  repeat (constructor; [simpl; intuition discriminate|]); constructor.

(** Alice's day 13: check-in, check-out, and a refused second check-out. *)
Lemma check_in_then_check_out_witness :
  profile_of_user (User.id Sample.alice) Sample.db = Some (EmployeeProfile.mk 1 1) /\
  attendance_on 1 13 Sample.db = None /\
  exists db2,
    check_out Sample.alice 13 1317
      (store_after (check_in Sample.alice 13 1309 Sample.db))
    = Ok db2 (Attendance.mk 4 1 13 (Some 1309) (Some 1317) PRESENT None) /\
    check_out Sample.alice 13 1318 db2
    = Raised db2 (HTTPException 400 "Already checked out for today").
Proof.
  split; [reflexivity | split; [reflexivity|]].
  pose proof (check_in_then_check_out Sample.alice 13 1309 1317 1318 Sample.db
                (EmployeeProfile.mk 1 1) eq_refl eq_refl) as T.
  cbv zeta in T. destruct T as (_ & E2 & _ & _ & _ & _ & E3 & _).
  eexists. split; [exact E2 | exact E3].
Defined.

(** A manual entry on day 11 overwrites what Alice's check-in stored. *)
Lemma manual_entry_then_lookup_witness :
  find (fun x => EmployeeProfile.id x =? am_employee_profile_id Sample.manual_body)
       (employee_profiles Sample.db) = Some (EmployeeProfile.mk 1 1) /\
  exists db' row,
    manual_attendance_entry Sample.manual_body Sample.db = Ok db' row /\
    attendance_on 1 11 db' = Some row /\
    Attendance.check_in_time row = Some 1108 /\
    Attendance.check_out_time row = Some 1118 /\
    Attendance.status row = HALF_DAY /\
    Attendance.notes row = Some "Manual entry"%string /\
    (List.length (attendances db') <= 4)%nat.
Proof.
  split; [reflexivity|].
  exact (manual_entry_then_lookup Sample.manual_body Sample.db _ eq_refl).
Defined.

(** Marked absent on day 14, Alice checks in all the same. *)
Lemma manual_entry_then_check_in_witness :
  profile_of_user (User.id Sample.alice) Sample.db = Some (EmployeeProfile.mk 1 1) /\
  am_employee_profile_id Scenario.marked_absent = 1 /\
  am_check_in_time Scenario.marked_absent = None /\
  exists db2 row,
    check_in Sample.alice 14 1409
      (store_after (manual_attendance_entry Scenario.marked_absent Sample.db))
    = Ok db2 row /\
    Attendance.check_in_time row = Some 1409 /\
    Attendance.status row = PRESENT /\
    Attendance.notes row = Some "No show"%string.
Proof.
  repeat (split; [reflexivity|]).
  pose proof (manual_entry_then_check_in Scenario.marked_absent Sample.alice 1409
                Sample.db (EmployeeProfile.mk 1 1) eq_refl eq_refl) as T.
  cbv zeta in T. destruct T as (T & _).
  destruct (T eq_refl) as (db2 & row & E & Hci & Hs & _ & Hn & _).
  exists db2, row. tauto.
Defined.

(** Alice's history, newest first, two rows a page; a limit of 2^63 is
    not a 64-bit number. *)
Lemma my_attendance_history_page_witness :
  profile_of_user (User.id Sample.alice) Sample.db = Some (EmployeeProfile.mk 1 1) /\
  get_my_attendance_history 0 2 Sample.alice Sample.db
  = Value (Ok Sample.db [Sample.day12; Sample.day11]) /\
  (exists rows,
     get_my_attendance_history 0 2 Sample.alice Sample.db = Value (Ok Sample.db rows) /\
     StronglySorted newer_first rows /\
     (List.length rows <= 2)%nat) /\
  get_my_attendance_history 0 (2 ^ 63) Sample.alice Sample.db = Error OverflowError.
Proof.
  split; [reflexivity | split; [reflexivity|]]. split.
  - destruct (my_attendance_history_page 0 2 Sample.alice Sample.db
                (EmployeeProfile.mk 1 1) eq_refl) as (Hpage & _).
    destruct (Hpage eq_refl eq_refl) as (rows & E & _ & Hs & Hl).
    exists rows. split; [exact E | split; [exact Hs | apply Hl; lia]].
  - destruct (my_attendance_history_page 0 (2 ^ 63) Sample.alice Sample.db
                (EmployeeProfile.mk 1 1) eq_refl) as (_ & Hout & _).
    apply Hout. reflexivity.
Defined.

(** The listing filtered on profile 1 is Alice's own history. *)
Lemma all_attendance_filter_witness :
  profile_of_user (User.id Sample.alice) Sample.db = Some (EmployeeProfile.mk 1 1) /\
  get_all_attendance_records 1 10 (Some 1) Sample.db
  = Value [Sample.day11; Sample.day10] /\
  get_my_attendance_history 1 10 Sample.alice Sample.db
  = Value (Ok Sample.db [Sample.day11; Sample.day10]) /\
  get_all_attendance_records 0 100 (Some 0) Sample.db
  = Value [Sample.day12; Sample.day11; Sample.day10] /\
  get_all_attendance_records (- 2 ^ 63 - 1) 100 None Sample.db = Error OverflowError.
Proof.
  split; [reflexivity|]. split; [reflexivity|].
  destruct (all_attendance_filter 1 10 Sample.db) as (_ & _ & _ & T & _).
  split; [|split; [reflexivity|]].
  - rewrite (T Sample.alice (EmployeeProfile.mk 1 1) eq_refl); [reflexivity|].
    discriminate.
  - destruct (all_attendance_filter (- 2 ^ 63 - 1) 100 Sample.db)
      as (_ & _ & _ & _ & _ & Hout).
    apply Hout. reflexivity.
Defined.

(** Rows of the same date come in the order of the index on the date: by
    descending key in the listings that are newest first, by ascending key
    in the weekly listing. *)
Example listings_follow_the_date_index :
  match get_all_attendance_records 0 100 None Scenario.crowded with
  | Value rows => map Attendance.id rows = [4; 1; 6; 3; 2; 5]
  | Error _ => False
  end /\
  match get_all_attendance_records 0 100 (Some 1) Scenario.crowded with
  | Value rows => map Attendance.id rows = [4; 1; 6; 3]
  | Error _ => False
  end /\
  match get_weekly_attendance 12 Scenario.crowded with
  | Value rows => map Attendance.id rows = [5; 2; 3; 6; 1; 4]
  | Error _ => False
  end.
Proof. repeat split. Qed.

(** Day 10 is a Wednesday: its week runs from day 8 to day 14 and holds
    Alice's three rows. *)
Lemma weekly_is_monday_to_sunday_witness :
  valid_date 10 /\ 10 - weekday 10 + 6 <= date_max /\
  get_weekly_attendance 10 Sample.db
  = Value [Sample.day10; Sample.day11; Sample.day12] /\
  exists rows,
    get_weekly_attendance 10 Sample.db = Value rows /\
    get_weekly_attendance 14 Sample.db = Value rows.
Proof.
  assert (Hv : valid_date 10) by (unfold valid_date, date_max; lia).
  assert (He : 10 - weekday 10 + 6 <= date_max) by (vm_compute; discriminate).
  split; [exact Hv | split; [exact He | split; [reflexivity|]]].
  destruct (weekly_is_monday_to_sunday 10 Sample.db Hv He)
    as (rows & E & _ & _ & _ & Hsame).
  exists rows. split; [exact E | apply Hsame; reflexivity].
Defined.

(** 9999-12-29, a Wednesday of the last week. *)
Lemma weekly_overflows_in_last_week_witness :
  valid_date 3652057 /\
  get_weekly_attendance 3652057 Sample.db = Error OverflowError.
Proof.
  assert (Hv : valid_date 3652057) by (unfold valid_date, date_max; lia).
  split; [exact Hv|].
  apply (weekly_overflows_in_last_week 3652057 Sample.db Hv).
  unfold date_max. lia.
Defined.

(** Alice's check-in of day 13 is in the listing of day 13. *)
Lemma check_in_shows_in_daily_witness :
  exists db' row,
    check_in Sample.alice 13 1309 Sample.db = Ok db' row /\
    In row (get_daily_attendance 13 db') /\
    Attendance.status row = PRESENT.
Proof.
  eexists _, _. split; [reflexivity|].
  destruct (check_in_shows_in_daily Sample.alice 13 1309 Sample.db _ _ eq_refl)
    as (Hin & Hs & _).
  split; [exact Hin | exact Hs].
Defined.

(** Alice may ask for a correction of her row; the admin may not. *)
Lemma correction_request_owner_only_witness :
  attendance_by_id 2 Sample.db = Some Sample.day11 /\
  find (fun x => EmployeeProfile.id x =? 1) (employee_profiles Sample.db)
  = Some (EmployeeProfile.mk 1 1) /\
  create_attendance_correction_request Scenario.correction Sample.admin Sample.db
  = Value (Raised Sample.db (HTTPException 403
      "Not authorized to request correction for this attendance record")) /\
  exists db' r,
    create_attendance_correction_request Scenario.correction Sample.alice Sample.db
    = Value (Ok db' r) /\
    AttendanceCorrectionRequest.id r = 3 /\
    get_pending_correction_requests db' = [Sample.request1; Sample.request2; r].
Proof.
  split; [reflexivity | split; [reflexivity|]].
  split.
  - apply (correction_request_owner_only Scenario.correction Sample.admin Sample.db
             Sample.day11 (EmployeeProfile.mk 1 1) eq_refl eq_refl).
    discriminate.
  - pose proof (correction_request_owner_only Scenario.correction Sample.alice
                  Sample.db Sample.day11 (EmployeeProfile.mk 1 1) eq_refl eq_refl)
      as T.
    cbv zeta in T. destruct T as (_ & T).
    destruct (T eq_refl) as (db' & r & E & _ & _ & _ & _ & _ & _ & Hp & _).
    exists db', r. split; [exact E|]. split; [|exact Hp].
    apply (f_equal (fun v => match v with
                             | Value (Ok _ x) => AttendanceCorrectionRequest.id x
                             | _ => 0
                             end)) in E.
    simpl in E. symmetry. exact E.
Defined.

(** Alice files the same correction twice. *)
Lemma duplicate_requests_allowed_witness :
  attendance_by_id 2 Sample.db = Some Sample.day11 /\
  find (fun x => EmployeeProfile.id x =? 1) (employee_profiles Sample.db)
  = Some (EmployeeProfile.mk 1 1) /\
  EmployeeProfile.user_id (EmployeeProfile.mk 1 1) = User.id Sample.alice /\
  exists db1 r1 db2 r2,
    create_attendance_correction_request Scenario.correction Sample.alice Sample.db
    = Value (Ok db1 r1) /\
    create_attendance_correction_request Scenario.correction Sample.alice db1
    = Value (Ok db2 r2) /\
    AttendanceCorrectionRequest.id r2 = AttendanceCorrectionRequest.id r1 + 1 /\
    AttendanceCorrectionRequest.attendance_id r1
    = AttendanceCorrectionRequest.attendance_id r2 /\
    get_pending_correction_requests db2
    = get_pending_correction_requests Sample.db ++ [r1; r2].
Proof.
  repeat (split; [reflexivity|]).
  exact (duplicate_requests_allowed Scenario.correction Sample.alice Sample.db
           Sample.day11 (EmployeeProfile.mk 1 1) eq_refl eq_refl eq_refl).
Defined.

(** The officer rejects request 1 with a comment. *)
Lemma reject_only_from_pending_witness :
  request_by_id 1 Sample.db = Some Sample.request1 /\
  exists db' r',
    reject_correction_request 1 (Some "Times are reversed"%string) Sample.officer
      2000 Sample.db = Ok db' r' /\
    AttendanceCorrectionRequest.status r' = REJECTED /\
    AttendanceCorrectionRequest.reviewer_comments r'
    = Some "Times are reversed"%string /\
    attendances db' = attendances Sample.db /\
    is_Conflict (approve_correction_request 1 Sample.admin 2001 db').
Proof.
  split; [reflexivity|].
  pose proof (reject_only_from_pending 1 (Some "Times are reversed"%string)
                Sample.officer 2000 Sample.db Sample.request1 eq_refl) as T.
  cbv zeta in T. destruct T as (_ & T).
  destruct (T eq_refl) as (db' & r' & E & _ & Hs & _ & _ & Hc & Ha & Happ & _).
  exists db', r'. split; [exact E|]. split; [exact Hs|]. split; [exact Hc|].
  split; [exact Ha | apply Happ].
Defined.

(** After the review of request 1 only request 2 is pending. *)
Lemma review_leaves_pending_listing_witness :
  request_by_id 1 Sample.db = Some Sample.request1 /\
  AttendanceCorrectionRequest.status Sample.request1 = PENDING /\
  get_pending_correction_requests
    (store_after (approve_correction_request 1 Sample.admin 2000 Sample.db))
  = [Sample.request2] /\
  get_pending_correction_requests
    (store_after (reject_correction_request 1 None Sample.admin 2000 Sample.db))
  = [Sample.request2].
Proof.
  split; [reflexivity | split; [reflexivity|]].
  exact (review_leaves_pending_listing 1 None Sample.admin 2000 Sample.db
           Sample.request1 eq_refl eq_refl).
Defined.

(** Bob registers and logs in. *)
Lemma register_then_login_witness :
  user_by_email (uc_email Sample.newcomer) Sample.db = None /\
  settings_owned Sample.db /\
  Scenario.plain_verify "password" (Scenario.plain_hash "password") = true /\
  exists db1 u db2,
    register_user Scenario.plain_hash Sample.newcomer Sample.db = Ok db1 u /\
    login_for_access_token Scenario.plain_verify Scenario.plain_token
      "bob@x.com" "password" db1
    = Ok db2 (mkToken "bob@x.com" "bearer") /\
    login_for_access_token Scenario.plain_verify Scenario.plain_token
      "bob@x.com" "letmein" db1
    = Raised db1 (HTTPException 401 "Incorrect email or password").
Proof.
  split; [reflexivity | split; [exact sample_settings_owned | split; [reflexivity|]]].
  destruct (register_then_login Scenario.plain_hash Scenario.plain_verify
              Scenario.plain_token Sample.newcomer Sample.db eq_refl
              sample_settings_owned eq_refl)
    as (db1 & u & db2 & E1 & E2 & _ & _ & Hwrong).
  exists db1, u, db2. split; [exact E1 | split; [exact E2|]].
  apply Hwrong. reflexivity.
Defined.

(** Bob cannot register twice. *)
Lemma register_twice_witness :
  user_by_email (uc_email Sample.newcomer) Sample.db = None /\
  settings_owned Sample.db /\
  exists db1 u,
    register_user Scenario.plain_hash Sample.newcomer Sample.db = Ok db1 u /\
    register_user Scenario.plain_hash
      (mkUserCreate "bob@x.com" ADMIN true "other") db1
    = Raised db1 (HTTPException 400 "Email already registered").
Proof.
  split; [reflexivity | split; [exact sample_settings_owned|]].
  destruct (register_twice Scenario.plain_hash Sample.newcomer Sample.db eq_refl
              sample_settings_owned) as (db1 & u & E & Hagain).
  exists db1, u. split; [exact E|].
  apply (Hagain (mkUserCreate "bob@x.com" ADMIN true "other")). reflexivity.
Defined.

(** The three users of the sample store, and what a registration leaves. *)
Lemma users_stay_unique_witness :
  emails_unique Sample.db /\ user_ids_unique Sample.db /\
  emails_unique (store_after
    (register_user Scenario.plain_hash Sample.newcomer Sample.db)) /\
  emails_unique (store_after
    (update_user Scenario.plain_hash 1
       (mkUserUpdate (Given (Some "alice@y.com"%string)) Unset Unset Unset)
       Sample.alice Sample.db)).
Proof.
  assert (He : emails_unique Sample.db) by strings_differ.
  assert (Hi : user_ids_unique Sample.db) by strings_differ.
  split; [exact He | split; [exact Hi|]].
  destruct (users_stay_unique Scenario.plain_hash Sample.db He Hi)
    as (Hreg & _ & Hupd).
  split; [apply Hreg | apply Hupd].
Defined.

(** Alice cannot take the officer's email. *)
Lemma update_to_taken_email_witness :
  user_by_id 1 Sample.db = Some Sample.alice /\
  In Sample.officer (users Sample.db) /\
  update_user Scenario.plain_hash 1
    (mkUserUpdate (Given (Some "hr@x.com"%string)) Unset Unset Unset)
    Sample.alice Sample.db
  = Raised Sample.db IntegrityError.
Proof.
  assert (Hin : In Sample.officer (users Sample.db)) by (simpl; tauto).
  split; [reflexivity | split; [exact Hin|]].
  apply (update_to_taken_email Scenario.plain_hash 1 Sample.alice Sample.db
           Sample.alice Sample.officer "hr@x.com"%string);
    [reflexivity | left; reflexivity | exact Hin | discriminate
    | reflexivity | reflexivity].
Defined.

(** Alice, an employee, makes herself an admin and reads the officer's
    account. *)
Lemma own_role_can_be_changed_witness :
  User.role Sample.alice = EMPLOYEE /\
  user_by_id (User.id Sample.alice) Sample.db = Some Sample.alice /\
  emails_unique Sample.db /\
  exists db' promoted,
    update_user Scenario.plain_hash 1
      (mkUserUpdate Unset (Given (Some ADMIN)) Unset Unset) Sample.alice Sample.db
    = Ok db' promoted /\
    User.role promoted = ADMIN /\
    read_user 2 promoted db' = Ok db' Sample.officer.
Proof.
  assert (He : emails_unique Sample.db) by strings_differ.
  split; [reflexivity | split; [reflexivity | split; [exact He|]]].
  destruct (own_role_can_be_changed Scenario.plain_hash Sample.alice Sample.db
              Sample.alice eq_refl He) as (db' & promoted & E & Hr & _ & _ & Hread).
  exists db', promoted. split; [exact E | split; [exact Hr|]].
  apply Hread.
  apply (f_equal store_after) in E. simpl in E. rewrite <- E. reflexivity.
Defined.

(** The officer's structure is created and shows on the slip; a second
    creation is refused. *)
Lemma salary_structure_once_witness :
  one_structure_per_employee Scenario.salaries /\
  exists table' row,
    create_salary_structure Scenario.as_written Scenario.officer_salary
      Sample.db Scenario.salaries = Sent (table', row) /\
    one_structure_per_employee table' /\
    refused_with (create_salary_structure Scenario.as_written
                    Scenario.officer_salary Sample.db table') = Some 400.
Proof.
  assert (H : one_structure_per_employee Scenario.salaries)
    by (repeat constructor; simpl; tauto).
  split; [exact H|].
  destruct (salary_structure_once Scenario.as_written Scenario.salaries H)
    as (Hcreate & _).
  eexists _, _. split; [reflexivity|].
  destruct (Hcreate Scenario.officer_salary Sample.db _ _ eq_refl)
    as (Hone & _ & Hagain).
  split; [exact Hone | apply Hagain; reflexivity].
Defined.

(** The officer's structure gives the basic salary and the housing
    allowance: the slip shows 72000.00 gross and net.  A basic salary
    beyond the floats is stored all the same, and the slip then fails. *)
Lemma create_then_salary_slip_witness :
  (exists table' row,
     create_salary_structure Scenario.as_written Scenario.officer_salary
       Sample.db Scenario.salaries = Sent (table', row) /\
     finite_amounts row = true /\
     SalaryRow.lta row = Some (Finite (money 0)) /\
     get_my_salary_structure Sample.officer Sample.db table' = Sent row /\
     exists structure gross deductions net,
       get_salary_slip_data 2 Sample.db table'
       = Value (Sent (mkSalaryPayroll structure gross deductions net)) /\
       calculate_net_salary row
       = Value {| gross_salary := Finite (money 7200000);
                  total_deductions := Finite (money 0);
                  net_salary := Finite (money 7200000) |}) /\
  (exists table' row,
     create_salary_structure Scenario.as_written Scenario.beyond_floats
       Sample.db Scenario.salaries = Sent (table', row) /\
     SalaryRow.basic_salary row = Infinity false /\
     get_salary_slip_data 2 Sample.db table' = Error ValidationError).
Proof.
  split.
  - eexists _, _. split; [reflexivity|].
    destruct (create_then_salary_slip Scenario.as_written Scenario.officer_salary
                Sample.db Scenario.salaries _ _ eq_refl)
      as (_ & _ & _ & _ & Hslip & _).
    split; [reflexivity|]. split; [reflexivity|].
    destruct (Hslip eq_refl) as (Hme & structure & g & d & n & _ & _ & E).
    split; [apply (Hme Sample.officer (EmployeeProfile.mk 2 2)); reflexivity|].
    exists structure, g, d, n. split; [exact E | vm_compute; reflexivity].
  - eexists _, _. split; [reflexivity|].
    destruct (create_then_salary_slip Scenario.as_written Scenario.beyond_floats
                Sample.db Scenario.salaries _ _ eq_refl)
      as (_ & _ & _ & _ & _ & Hfails).
    split; [vm_compute; reflexivity|].
    destruct (Hfails eq_refl) as (e & E & _).
    vm_compute. reflexivity.
Defined.

(** Nulling Alice's housing allowance breaks her slip and the listing. *)
Lemma null_column_breaks_payroll_witness :
  one_structure_per_employee Scenario.salaries /\
  find (fun x => SalaryRow.id x =? 1) Scenario.salaries = Some Scenario.alice_salary /\
  sets_null (sx_basic_salary Scenario.drop_hra) = false /\
  nulls_a_column Scenario.drop_hra = true /\
  get_salary_slip_data 1 Sample.db Scenario.salaries
  = Value (Sent (mkSalaryPayroll
             (mkSalaryStructure 1 1 (money 5000000) (money 1000000)
                (money 500000) (money 200000) (money 100000) (money 300000)
                (money 20000) (money 150000))
             (money 7100000) (money 170000) (money 6930000))) /\
  update_salary_structure Scenario.as_written 1 Scenario.drop_hra Scenario.salaries
  = Sent ([Sample.without_hra], Sample.without_hra) /\
  get_salary_slip_data 1 Sample.db [Sample.without_hra] = Error TypeError /\
  get_all_payroll_data 0 1 [Sample.without_hra] = Error TypeError.
Proof.
  assert (H : one_structure_per_employee Scenario.salaries)
    by (repeat constructor; simpl; tauto).
  split; [exact H|]. do 3 (split; [reflexivity|]).
  split; [vm_compute; reflexivity|].
  destruct (null_column_breaks_payroll Scenario.as_written 1 Scenario.drop_hra
              Sample.db Scenario.salaries Scenario.alice_salary
              (EmployeeProfile.mk 1 1) H eq_refl eq_refl eq_refl eq_refl)
    as (table' & r' & E & _ & _ & Hslip & _ & Hfull).
  assert (E' : Sent (table', r') = Sent ([Sample.without_hra], Sample.without_hra))
    by (rewrite <- E; reflexivity).
  assert (Et : table' = [Sample.without_hra])
    by exact (f_equal (fun v => match v with
                                | Sent (t, _) => t
                                | Refused _ => table'
                                end) E').
  assert (Er : r' = Sample.without_hra)
    by exact (f_equal (fun v => match v with
                                | Sent (_, x) => x
                                | Refused _ => r'
                                end) E').
  subst table' r'. split; [reflexivity|].
  destruct Hslip as (e & He & _ & Hfin). rewrite (Hfin eq_refl) in He.
  destruct (Hfull eq_refl) as (e' & He' & Hfin'). rewrite (Hfin' eq_refl) in He'.
  split; [exact He | exact He'].
Defined.

(** The page of the sample table, a page with a row that holds NULL, and a
    limit that is not a 64-bit number. *)
Lemma payroll_listing_all_or_nothing_witness :
  (exists entries,
     get_all_payroll_data 0 10 Scenario.salaries = Value entries /\
     List.length entries = 1%nat) /\
  get_all_payroll_data 0 10
    [Scenario.alice_salary;
     SalaryRow.mk 2 2 (Finite (money 100)) None None None None None None None]
  = Error TypeError /\
  get_all_payroll_data 0 (2 ^ 63) Scenario.salaries = Error OverflowError.
Proof.
  split; [|split].
  - destruct (payroll_listing_all_or_nothing 0 10 Scenario.salaries) as (_ & Hpage).
    destruct (Hpage Scenario.salaries eq_refl) as (Hiff & Hentries & _).
    destruct (proj2 Hiff) as (entries & E).
    { intros r [<-|[]]. discriminate. }
    exists entries. split; [exact E|].
    destruct (Hentries entries E) as (_ & Hlen & _). exact Hlen.
  - destruct (payroll_listing_all_or_nothing 0 10
                [Scenario.alice_salary;
                 SalaryRow.mk 2 2 (Finite (money 100))
                   None None None None None None None]) as (_ & Hpage).
    destruct (Hpage _ eq_refl) as (_ & _ & _ & Hfin).
    destruct (Hfin eq_refl) as (Hiff & _). apply Hiff.
    eexists. split; [right; left; reflexivity | reflexivity].
  - destruct (payroll_listing_all_or_nothing 0 (2 ^ 63) Scenario.salaries)
      as (Hout & _).
    apply Hout. reflexivity.
Defined.

(** Alice reads her settings, then sets the theme: the update answers with
    the new row.  When she gives null for the theme the row is stored and
    the update and the next read are refused. *)
Lemma read_then_update_settings_witness :
  get_my_settings Sample.alice Sample.db = Ok Sample.db Sample.alice_settings /\
  (exists db2,
     update_my_settings (mkUserSettingsUpdate Unset (Given (Some "light"%string)) Unset)
       Sample.alice Sample.db
     = Ok db2 (UserSettings.mk 1 1 (Some false) (Some "light"%string)
                 (Some "en"%string)) /\
     get_my_settings Sample.alice db2
     = Ok db2 (UserSettings.mk 1 1 (Some false) (Some "light"%string)
                 (Some "en"%string))) /\
  (exists db2,
     update_my_settings (mkUserSettingsUpdate Unset (Given None) Unset)
       Sample.alice Sample.db
     = Raised db2 ResponseValidationError /\
     settings_of_user 1 db2
     = Some (UserSettings.mk 1 1 (Some false) None (Some "en"%string)) /\
     get_my_settings Sample.alice db2 = Raised db2 ResponseValidationError).
Proof.
  assert (Hread : get_my_settings Sample.alice Sample.db
                  = Ok Sample.db Sample.alice_settings) by reflexivity.
  split; [exact Hread|]. split.
  - destruct (read_then_update_settings
                (mkUserSettingsUpdate Unset (Given (Some "light"%string)) Unset)
                Sample.alice Sample.db Sample.db Sample.alice_settings Hread)
      as (db2 & row' & Hstore & Hfound & _ & _ & _ & _ & _ & _ & _ & Hok & _).
    subst db2.
    assert (Er : row' = UserSettings.mk 1 1 (Some false) (Some "light"%string)
                          (Some "en"%string)).
    { apply (f_equal (fun o => match o with Some x => x | None => row' end))
        in Hfound. symmetry. exact Hfound. }
    subst row'. eexists. exact (Hok eq_refl).
  - destruct (read_then_update_settings
                (mkUserSettingsUpdate Unset (Given None) Unset)
                Sample.alice Sample.db Sample.db Sample.alice_settings Hread)
      as (db2 & row' & Hstore & Hfound & _ & _ & _ & _ & _ & _ & _ & _ & Hbad).
    subst db2.
    assert (Er : row' = UserSettings.mk 1 1 (Some false) None (Some "en"%string)).
    { apply (f_equal (fun o => match o with Some x => x | None => row' end))
        in Hfound. symmetry. exact Hfound. }
    subst row'. eexists. destruct (Hbad eq_refl) as [Hput Hget].
    split; [exact Hput | split; [reflexivity | exact Hget]].
Defined.

